(** * The dataset normalizers of [scripts/prepare-data-v3.py]

    A shallow embedding of the four per-category normalizers
    ([prepare_ohlcv_dataset], [prepare_fred_dataset], [prepare_rss_dataset],
    [prepare_fed_stress_dataset]) and of the orchestrator [main], together
    with the pandas and Python operations they call.

    Conventions of the embedding:
    - a Python exception is a value of [exn]; a call that may raise returns
      a [result];
    - a table scalar is a [cell]; a missing value (None, NaN, NaT) is [CNull];
    - a float is an exact rational ([Q]); [round4] rounds half-to-even on
      the rational, [FSqrt q] stands for the non-negative root of [q];
    - a table integer is an int64: a column whose cells are all integers
      is an int64 column, and its sum wraps around;
    - a timestamp is its number of nanoseconds since the epoch; strings
      produced by formatting a timestamp are kept as tagged values
      ([PIso], [PDay], [PMinute]) instead of being rendered;
    - a Python dict is an association list in insertion order;
    - Python's [sorted] and pandas' [sort_values] on two or more labels
      (a lexsort) are stable, and are modelled by a stable insertion sort
      ([isort]); [sort_values] on one label sorts with numpy's default
      kind, which is not stable: the keys come out in order, and the order
      in which rows with equal keys come out is a parameter ([tie_rank]);
    - the modules [dataset_config] and [cdata_bridge], the clock and the
      parsing of dates by pandas are parameters. *)

From Stdlib Require Import List ZArith QArith Qround Qminmax String Ascii Bool Lia.
From Stdlib Require Import Lqa Permutation Sorted.
From Stdlib Require OrderedTypeEx Qcanon.
Import ListNotations.

Open Scope string_scope.
Open Scope list_scope.
Open Scope Z_scope.
Set Warnings "-register-all".

(** ** Exceptions and results *)

Inductive exn : Type :=
| KeyError (key : string)
| TypeError (msg : string)
| ValueError (msg : string)
| IndexError (msg : string)
| AttributeError (msg : string)
| RuntimeError (msg : string).

(** [str(e)]; the message of a [KeyError] is the repr of its key. *)
Definition str_exn (e : exn) : string :=
  match e with
  | KeyError k => ("'" ++ k ++ "'")%string
  | TypeError m | ValueError m | IndexError m | AttributeError m
  | RuntimeError m => m
  end.

Inductive result (A : Type) : Type :=
| Ok (a : A)
| Raise (e : exn).
Arguments Ok {A} a.
Arguments Raise {A} e.

Definition bind {A B : Type} (r : result A) (k : A -> result B) : result B :=
  match r with
  | Ok a => k a
  | Raise e => Raise e
  end.

Notation "'let*' x ':=' r 'in' k" := (bind r (fun x => k))
  (at level 10, x name, r at level 100, k at level 200).

(** Monadic map over a list, left to right; the first exception wins. *)
Fixpoint mapM {A B : Type} (f : A -> result B) (l : list A) : result (list B) :=
  match l with
  | [] => Ok []
  | x :: xs =>
      let* y := f x in
      let* ys := mapM f xs in
      Ok (y :: ys)
  end.

(** ** Scalars *)

Inductive cell : Type :=
| CNull
| CStr (s : string)
| CInt (z : Z)
| CFloat (q : Q)
| CTime (t : Z).

Inductive pyfloat : Type :=
| FNaN
| FRat (q : Q)
| FSqrt (q : Q).

Inductive pyval : Type :=
| PCell (c : cell)
| PFloat (f : pyfloat)
| PIso (t : Z)
| PDay (d : Z)
| PMinute (m : Z)
| PList (l : list pyval)
| PDict (d : list (pyval * pyval)).

Definition PNone : pyval := PCell CNull.
Definition PStr (s : string) : pyval := PCell (CStr s).
Definition PInt (z : Z) : pyval := PCell (CInt z).

Definition is_null (c : cell) : bool :=
  match c with CNull => true | _ => false end.

Definition cell_num (c : cell) : option Q :=
  match c with
  | CInt z => Some (inject_Z z)
  | CFloat q => Some q
  | _ => None
  end.

(** Python equality of two scalars, as used by hashing ([unique], dict
    keys): [1 == 1.0], one missing value equals another. *)
Definition cell_eqb (a b : cell) : bool :=
  match a, b with
  | CNull, CNull => true
  | CStr s, CStr t => String.eqb s t
  | CTime s, CTime t => Z.eqb s t
  | (CInt _ | CFloat _), (CInt _ | CFloat _) =>
      match cell_num a, cell_num b with
      | Some x, Some y => Qeq_bool x y
      | _, _ => false
      end
  | _, _ => false
  end.

(** Elementwise [==] of a column against a scalar: a missing value on
    either side compares false. *)
Definition series_eq (a b : cell) : bool :=
  negb (is_null a) && negb (is_null b) && cell_eqb a b.

(** Python's [<=] between two scalars; [None] when the operand types do not
    support the comparison (a [TypeError] in Python). *)
Definition cell_leb (a b : cell) : option bool :=
  match a, b with
  | CStr s, CStr t => Some (String.leb s t)
  | CTime s, CTime t => Some (Z.leb s t)
  | (CInt _ | CFloat _), (CInt _ | CFloat _) =>
      match cell_num a, cell_num b with
      | Some x, Some y => Some (Qle_bool x y)
      | _, _ => None
      end
  | _, _ => None
  end.

Definition comparable (a b : cell) : bool :=
  match cell_leb a b with Some _ => true | None => false end.

Definition cell_le (a b : cell) : bool :=
  match cell_leb a b with Some r => r | None => false end.

(** Equality of dict keys. *)
Definition key_eqb (a b : pyval) : bool :=
  match a, b with
  | PCell x, PCell y => cell_eqb x y
  | PDay x, PDay y => Z.eqb x y
  | PIso x, PIso y => Z.eqb x y
  | PMinute x, PMinute y => Z.eqb x y
  | _, _ => false
  end.

(** ** Python dicts *)

Definition pydict : Type := list (pyval * pyval).

Fixpoint dict_lookup (k : pyval) (d : pydict) : option pyval :=
  match d with
  | [] => None
  | (k', v) :: d' => if key_eqb k' k then Some v else dict_lookup k d'
  end.

(** [d[k] = v]: replaces the value of an existing key in place, appends a
    new key at the end. *)
Fixpoint dict_set (k v : pyval) (d : pydict) : pydict :=
  match d with
  | [] => [(k, v)]
  | (k', v') :: d' =>
      if key_eqb k' k then (k', v) :: d' else (k', v') :: dict_set k v d'
  end.

(** [d.get(k, default)] *)
Definition dict_get_default (k : string) (default : pyval) (d : pydict) : pyval :=
  match dict_lookup (PStr k) d with
  | Some v => v
  | None => default
  end.

(** [d[k]] *)
Definition dict_getitem (k : string) (d : pydict) : result pyval :=
  match dict_lookup (PStr k) d with
  | Some v => Ok v
  | None => Raise (KeyError k)
  end.

(** Lookup along a path of string keys; used to read a field of a document. *)
Fixpoint field (path : list string) (v : pyval) : option pyval :=
  match path with
  | [] => Some v
  | k :: rest =>
      match v with
      | PDict d =>
          match dict_lookup (PStr k) d with
          | Some w => field rest w
          | None => None
          end
      | _ => None
      end
  end.

(** ** Floats *)

(** Nearest integer, ties to even. *)
Definition round_half_even (q : Q) : Z :=
  let f := Qfloor q in
  match Qcompare (q - inject_Z f) (1 # 2) with
  | Lt => f
  | Gt => f + 1
  | Eq => if Z.even f then f else f + 1
  end.

(** Nearest integer to the square root of a non-negative rational. *)
Definition round_sqrt (q : Q) : Z :=
  let f := Z.sqrt (Qfloor q) in
  let h := (inject_Z f + (1 # 2))%Q in
  match Qcompare q (h * h) with
  | Lt => f
  | Gt => f + 1
  | Eq => if Z.even f then f else f + 1
  end.

(** [round(x, 4)] *)
Definition round4 (x : pyfloat) : pyfloat :=
  match x with
  | FNaN => FNaN
  | FRat q => FRat (Qred (round_half_even (q * 10000) # 10000))
  | FSqrt q =>
      if Qle_bool 0 q then FRat (Qred (round_sqrt (q * 100000000) # 10000))
      else FNaN
  end.

(** [int(x)] on a finite float: truncation toward zero. *)
Definition int_of_Q (q : Q) : Z := Z.quot (Qnum q) (Zpos (Qden q)).

(** ** Data frames

    A frame is its ordered column labels and its rows in table order; a row
    maps labels to cells.  Only labels listed in [columns] are ever read. *)

Definition row : Type := list (string * cell).

Record DataFrame : Type := {
  columns : list string;
  records : list row
}.

(** [len(df)] *)
Definition len (df : DataFrame) : nat := List.length (records df).

Fixpoint row_get (c : string) (r : row) : cell :=
  match r with
  | [] => CNull
  | (k, v) :: r' => if String.eqb k c then v else row_get c r'
  end.

Definition row_set (c : string) (v : cell) (r : row) : row :=
  (c, v) :: filter (fun kv => negb (String.eqb (fst kv) c)) r.

(** [c in df.columns] *)
Definition has_column (c : string) (df : DataFrame) : bool :=
  existsb (String.eqb c) (columns df).

(** [df[c]] *)
Definition getcol (c : string) (df : DataFrame) : result (list cell) :=
  if has_column c df then Ok (map (row_get c) (records df))
  else Raise (KeyError c).

(** [c.startswith('_')] *)
Definition startswith_underscore (c : string) : bool :=
  match c with
  | String a _ => Ascii.eqb a "_"
  | EmptyString => false
  end.

(** [df[[c for c in df.columns if not c.startswith('_')]]]: the rows (the
    index) are kept, whatever columns remain. *)
Definition drop_internal (df : DataFrame) : DataFrame :=
  let keep c := negb (startswith_underscore c) in
  {| columns := filter keep (columns df);
     records := map (filter (fun kv => keep (fst kv))) (records df) |}.

(** [df[cols]] for a list of labels.  A label that the frame lacks raises
    [KeyError]; the key kept here is the first such label, where pandas
    puts the list of them into a message. *)
Definition select (cols : list string) (df : DataFrame) : result DataFrame :=
  match find (fun c => negb (has_column c df)) cols with
  | Some c => Raise (KeyError c)
  | None =>
      Ok {| columns := cols;
            records := map (fun r => map (fun c => (c, row_get c r)) cols)
                           (records df) |}
  end.

(** [df[df[c] == v]] on the rows. *)
Definition rows_where (c : string) (v : cell) (rows : list row) : list row :=
  filter (fun r => series_eq (row_get c r) v) rows.

(** [Series.unique()]: distinct values in order of first appearance. *)
Fixpoint unique (l : list cell) : list cell :=
  match l with
  | [] => []
  | x :: xs => x :: filter (fun y => negb (cell_eqb x y)) (unique xs)
  end.

(** Stable insertion sort; [x] goes before the first element it is
    not greater than. *)
Fixpoint insert_le {A : Type} (le : A -> A -> bool) (x : A) (l : list A) : list A :=
  match l with
  | [] => [x]
  | y :: ys => if le x y then x :: l else y :: insert_le le x ys
  end.

Fixpoint isort {A : Type} (le : A -> A -> bool) (l : list A) : list A :=
  match l with
  | [] => []
  | x :: xs => insert_le le x (isort le xs)
  end.

(** Python's [sorted] on scalars.  A list of fewer than two elements is
    never compared.  Otherwise every element is compared with some other
    one, so the sort raises [TypeError] unless all elements are of one
    ordered kind.  A missing value among two or more elements is taken to
    raise, as [None] does; a NaN among floats, which [sorted] accepts and
    leaves the list in no order, is not told apart from it. *)
Definition py_sorted (l : list cell) : result (list cell) :=
  match l with
  | [] | [_] => Ok l
  | x :: _ =>
      if forallb (comparable x) l then Ok (isort cell_le l)
      else Raise (TypeError "'<' not supported between instances")
  end.

(** *** Numeric aggregates of a column (missing values are skipped) *)

Fixpoint numeric_values (l : list cell) : result (list Q) :=
  match l with
  | [] => Ok []
  | c :: cs =>
      match c with
      | CNull => numeric_values cs
      | CInt z => let* qs := numeric_values cs in Ok (inject_Z z :: qs)
      | CFloat q => let* qs := numeric_values cs in Ok (q :: qs)
      | CStr _ | CTime _ => Raise (TypeError "could not convert to numeric")
      end
  end.

Definition Qsum (l : list Q) : Q := fold_left Qplus l 0%Q.

Definition Qcount (l : list Q) : Q := inject_Z (Z.of_nat (List.length l)).

Definition Qmean (l : list Q) : Q := (Qsum l / Qcount l)%Q.

(** [Series.mean()] *)
Definition series_mean (l : list cell) : result pyfloat :=
  let* qs := numeric_values l in
  Ok (match qs with [] => FNaN | _ => FRat (Qred (Qmean qs)) end).

(** [Series.min()] and [Series.max()] on numbers *)
Definition series_min (l : list cell) : result pyfloat :=
  let* qs := numeric_values l in
  Ok (match qs with [] => FNaN | q :: qs' => FRat (fold_left Qmin qs' q) end).

Definition series_max (l : list cell) : result pyfloat :=
  let* qs := numeric_values l in
  Ok (match qs with [] => FNaN | q :: qs' => FRat (fold_left Qmax qs' q) end).

(** [Series.std()]: pandas' default [ddof=1], the sample standard
    deviation, undefined on fewer than two values. *)
Definition series_std (l : list cell) : result pyfloat :=
  let* qs := numeric_values l in
  Ok (match qs with
      | [] | [_] => FNaN
      | _ =>
          let m := Qmean qs in
          let ss := Qsum (map (fun x => ((x - m) * (x - m))%Q) qs) in
          FSqrt (Qred (ss / (Qcount qs - 1)))
      end).

(** An integer as an int64 holds it: two's complement on 64 bits. *)
Definition wrap_int64 (z : Z) : Z := (z + 2 ^ 63) mod 2 ^ 64 - 2 ^ 63.

(** The integers of a column all of whose cells are integers (an int64
    column). *)
Fixpoint int_values (l : list cell) : option (list Z) :=
  match l with
  | [] => Some []
  | CInt z :: cs =>
      match int_values cs with
      | Some zs => Some (z :: zs)
      | None => None
      end
  | _ => None
  end.

Definition Zsum (l : list Z) : Z := fold_left Z.add l 0.

(** [Series.sum()]: the sum of an int64 column is an int64 and wraps
    around; in any other numeric column the missing values are skipped and
    the sum is a float. *)
Definition series_sum (l : list cell) : result Q :=
  match int_values l with
  | Some zs => Ok (inject_Z (wrap_int64 (Zsum zs)))
  | None => let* qs := numeric_values l in Ok (Qred (Qsum qs))
  end.

(** [float(x)] of a table scalar. *)
Definition py_float (c : cell) : result pyfloat :=
  match c with
  | CNull => Ok FNaN
  | CInt z => Ok (FRat (inject_Z z))
  | CFloat q => Ok (FRat q)
  | CStr _ => Raise (ValueError "could not convert string to float")
  | CTime _ => Raise (TypeError "float() argument must be a string or a real number")
  end.

(** *** Timestamps *)

Definition ns_per_minute : Z := 60000000000.
Definition ns_per_day : Z := 86400000000000.

(** The non-missing timestamps of a datetime column. *)
Definition stamps (l : list cell) : list Z :=
  flat_map (fun c => match c with CTime t => [t] | _ => [] end) l.

(** [Series.min()] / [Series.max()] of a datetime column; [None] is NaT. *)
Definition stamp_min (l : list cell) : option Z :=
  match stamps l with
  | [] => None
  | t :: ts => Some (fold_left Z.min ts t)
  end.

Definition stamp_max (l : list cell) : option Z :=
  match stamps l with
  | [] => None
  | t :: ts => Some (fold_left Z.max ts t)
  end.

(** [ts.isoformat()]; [NaT.isoformat()] is the string "NaT". *)
Definition isoformat (t : option Z) : pyval :=
  match t with
  | Some t => PIso t
  | None => PStr "NaT"
  end.

(** [(hi - lo).days]; with a NaT operand the difference is NaT, whose
    [days] is NaN. *)
Definition delta_days (hi lo : option Z) : pyval :=
  match hi, lo with
  | Some h, Some l => PInt ((h - l) / ns_per_day)
  | _, _ => PFloat FNaN
  end.

(** [Series.dt.strftime('%Y-%m-%d')] and ['%Y-%m-%d %H:%M'] on one cell. *)
Definition strftime_day (c : cell) : pyval :=
  match c with
  | CTime t => PDay (t / ns_per_day)
  | _ => PNone
  end.

Definition strftime_minute (c : cell) : pyval :=
  match c with
  | CTime t => PMinute (t / ns_per_minute)
  | _ => PNone
  end.

(** *** Sorting and grouping rows *)

(** The non-missing keys of a sort must be mutually comparable. *)
Definition sortable_keys (l : list cell) : bool :=
  match filter (fun c => negb (is_null c)) l with
  | [] => true
  | x :: xs => forallb (comparable x) xs
  end.

(** Ascending order of two items by their keys, and by their ranks when
    neither key is below the other. *)
Definition ranked_le {A : Type} (key : A -> cell) (a b : A * nat) : bool :=
  if cell_le (key (fst a)) (key (fst b))
  then (if cell_le (key (fst b)) (key (fst a))
        then (snd a <=? snd b)%nat
        else true)
  else false.

(** The items of a list in the order of numpy's [argsort] of their keys,
    with the default kind ('quicksort').  The keys come out in ascending
    order.  The kind is not stable: the order in which items with equal
    keys come out is the algorithm's and depends on the key array alone.
    It is left open: [tie_rank keys i] ranks position [i] of the key array
    [keys] among the positions that hold an equal key (positions of equal
    key and equal rank come out in their order in the array). *)
Definition argsorted {A : Type} (tie_rank : list cell -> nat -> nat)
  (key : A -> cell) (l : list A) : list A :=
  let ranks := map (tie_rank (map key l)) (seq 0 (List.length l)) in
  map fst (isort (ranked_le key) (combine l ranks)).

(** pandas' [nargsort] with [na_position='last'] and the default kind:
    missing keys are set aside and appended; a descending sort reverses
    the rows, sorts them ascending and reverses the outcome. *)
Definition nargsort (tie_rank : list cell -> nat -> nat)
  (key : row -> cell) (ascending : bool) (rows : list row) : list row :=
  let non_nans := filter (fun r => negb (is_null (key r))) rows in
  let nans := filter (fun r => is_null (key r)) rows in
  (if ascending then argsorted tie_rank key non_nans
   else rev (argsorted tie_rank key (rev non_nans)))
    ++ nans.

(** [df.sort_values(c, ascending=...)] for one label. *)
Definition sort_values (tie_rank : list cell -> nat -> nat)
  (c : string) (ascending : bool) (df : DataFrame) : result DataFrame :=
  if negb (has_column c df) then Raise (KeyError c)
  else if negb (sortable_keys (map (row_get c) (records df))) then
    Raise (TypeError "'<' not supported between instances")
  else Ok {| columns := columns df;
             records := nargsort tie_rank (row_get c) ascending (records df) |}.

(** Order of one key column, missing values last. *)
Definition na_last_le (a b : cell) : bool :=
  match is_null a, is_null b with
  | _, true => true
  | true, false => false
  | false, false => cell_le a b
  end.

Fixpoint lex_le (by_ : list string) (r1 r2 : row) : bool :=
  match by_ with
  | [] => true
  | c :: cs =>
      let a := row_get c r1 in
      let b := row_get c r2 in
      if na_last_le a b then (if na_last_le b a then lex_le cs r1 r2 else true)
      else false
  end.

(** [df.sort_values([c1, ..., cn])], ascending, for two or more labels:
    a stable lexicographic sort. *)
Definition sort_values_by (by_ : list string) (df : DataFrame)
  : result DataFrame :=
  match find (fun c => negb (has_column c df)) by_ with
  | Some c => Raise (KeyError c)
  | None =>
      if forallb (fun c => sortable_keys (map (row_get c) (records df))) by_
      then Ok {| columns := columns df;
                 records := isort (lex_le by_) (records df) |}
      else Raise (TypeError "'<' not supported between instances")
  end.

(** [df.sort_values(by)] for a list of labels whose length is not known:
    pandas sorts by a single label as [sort_values] does, and by more
    than one with the stable lexicographic sort. *)
Definition sort_values_list (tie_rank : list cell -> nat -> nat)
  (by_ : list string) (df : DataFrame) : result DataFrame :=
  match by_ with
  | [c] => sort_values tie_rank c true df
  | _ => sort_values_by by_ df
  end.

(** [df.to_dict(orient='records')]; [render] gives the Python value of a
    cell of a column. *)
Definition to_records (render : string -> cell -> pyval) (df : DataFrame)
  : pyval :=
  PList (map (fun r =>
                PDict (map (fun c => (PStr c, render c (row_get c r)))
                           (columns df)))
             (records df)).

(** Number of cells of a column equal to [k]. *)
Definition count_eq (k : cell) (l : list cell) : nat :=
  List.length (filter (fun c => series_eq c k) l).

(** [df.groupby(c).size()]: one entry per distinct non-missing key, keys
    in ascending order. *)
Definition groupby_size (l : list cell) : list (cell * nat) :=
  let keys := isort cell_le (unique (filter (fun c => negb (is_null c)) l)) in
  map (fun k => (k, count_eq k l)) keys.

(** A loop that may raise: [for x in l: s = f(s, x)]. *)
Fixpoint foldM {A S : Type} (f : S -> A -> result S) (l : list A) (s : S)
  : result S :=
  match l with
  | [] => Ok s
  | x :: xs => let* s' := f s x in foldM f xs s'
  end.

(** [.iloc[-1]] *)
Definition last_row (rows : list row) : result row :=
  match rev rows with
  | r :: _ => Ok r
  | [] => Raise (IndexError "single positional indexer is out-of-bounds")
  end.

(** Outcome of converting one cell of a column to a timestamp. *)
Inductive coerced : Type :=
| Stamp (t : Z)
| NaT
| Unparseable.

(** ** The normalizers *)

Section Normalizers.

(** [pd.to_datetime(column, utc=True)]: the outcome for the cell at a
    position of a column; parsing is pandas' and is left open. *)
Variable to_datetime : list cell -> nat -> coerced.

(** Python's [str] on a scalar that is not a string. *)
Variable str_scalar : cell -> string.

(** The order in which numpy's default sort kind leaves equal keys (see
    [argsorted]). *)
Variable tie_rank : list cell -> nat -> nat.

Definition outcomes (c : string) (rows : list row) : list coerced :=
  map (to_datetime (map (row_get c) rows)) (seq 0 (List.length rows)).

(** [df[c] = pd.to_datetime(df[c], utc=True)]: an unparseable cell raises. *)
Definition set_datetime (c : string) (ro : row * coerced) : result row :=
  match snd ro with
  | Stamp t => Ok (row_set c (CTime t) (fst ro))
  | NaT => Ok (row_set c CNull (fst ro))
  | Unparseable => Raise (ValueError "Unknown datetime string format")
  end.

Definition assign_datetime (c : string) (df : DataFrame) : result DataFrame :=
  let* _ := getcol c df in
  let* rows := mapM (set_datetime c)
                    (combine (records df) (outcomes c (records df))) in
  Ok {| columns := columns df; records := rows |}.

(** The same with [errors='coerce']: an unparseable cell becomes NaT. *)
Definition set_datetime_coerce (c : string) (ro : row * coerced) : row :=
  match snd ro with
  | Stamp t => row_set c (CTime t) (fst ro)
  | NaT | Unparseable => row_set c CNull (fst ro)
  end.

Definition assign_datetime_coerce (c : string) (df : DataFrame) : DataFrame :=
  {| columns := columns df;
     records := map (set_datetime_coerce c)
                    (combine (records df) (outcomes c (records df))) |}.

(** [df.dropna(subset=[c])] *)
Definition dropna (c : string) (df : DataFrame) : DataFrame :=
  {| columns := columns df;
     records := filter (fun r => negb (is_null (row_get c r))) (records df) |}.

(** [list(df.columns)] *)
Definition list_columns (df : DataFrame) : pyval :=
  PList (map PStr (columns df)).

Definition render_date_day (c : string) (v : cell) : pyval :=
  if String.eqb c "date" then strftime_day v else PCell v.

(** *** Price series *)

(** The body of the per-symbol loop of [prepare_ohlcv_dataset]. *)
Definition ohlcv_symbol_stats (df : DataFrame) (symbol : cell) : result pyval :=
  let sdf := {| columns := columns df;
                records := rows_where "symbol" symbol (records df) |} in
  let* dates := getcol "date" sdf in
  let* close := getcol "close" sdf in
  let* mean := series_mean close in
  let* mn := series_min close in
  let* mx := series_max close in
  let* sd := (if (1 <? len sdf)%nat
              then let* s := series_std close in Ok (PFloat (round4 s))
              else Ok (PInt 0)) in
  let* volume := getcol "volume" sdf in
  let* total := series_sum volume in
  Ok (PDict [
    (PStr "count", PInt (Z.of_nat (len sdf)));
    (PStr "date_min", isoformat (stamp_min dates));
    (PStr "date_max", isoformat (stamp_max dates));
    (PStr "close_mean", PFloat (round4 mean));
    (PStr "close_min", PFloat (round4 mn));
    (PStr "close_max", PFloat (round4 mx));
    (PStr "close_std", sd);
    (PStr "volume_total", PInt (int_of_Q total))
  ]).

Definition prepare_ohlcv_dataset
  (now : Z) (name : string) (df : DataFrame) (config : pydict) : result pyval :=
  let df := drop_internal df in
  if (len df =? 0)%nat || negb (has_column "date" df)
     || negb (has_column "symbol" df)
  then
    Ok (PDict [
      (PStr "name", PStr name);
      (PStr "type", PStr "ohlcv");
      (PStr "description", dict_get_default "description" (PStr "") config);
      (PStr "meta", PDict [
        (PStr "name", PStr name);
        (PStr "source_id", PStr name);
        (PStr "location", PStr "bridge");
        (PStr "format", PStr "dataframe");
        (PStr "record_count", PInt 0);
        (PStr "columns",
           if (0 <? List.length (columns df))%nat then list_columns df
           else PList []);
        (PStr "primary_keys", dict_get_default "primary_keys" (PList []) config);
        (PStr "fetched_at", PIso now);
        (PStr "description", dict_get_default "description" (PStr "") config);
        (PStr "symbols", PList [])
      ]);
      (PStr "stats", PDict [
        (PStr "date_range", PDict [
          (PStr "min", PNone);
          (PStr "max", PNone);
          (PStr "days", PInt 0)
        ]);
        (PStr "by_symbol", PDict [])
      ]);
      (PStr "data", PList [])
    ])
  else
    let* df := assign_datetime "date" df in
    let* symbol_col := getcol "symbol" df in
    let* symbols := py_sorted (unique symbol_col) in
    let* symbol_stats :=
      foldM (fun stats symbol =>
               let* entry := ohlcv_symbol_stats df symbol in
               Ok (dict_set (PCell symbol) entry stats))
            symbols [] in
    let* dates := getcol "date" df in
    let date_min := stamp_min dates in
    let date_max := stamp_max dates in
    let* sorted_df := sort_values_by ["symbol"; "date"] df in
    let* sample_df :=
      select ["symbol"; "date"; "open"; "high"; "low"; "close"; "volume"]
             sorted_df in
    let meta := PDict [
      (PStr "name", PStr name);
      (PStr "source_id", PStr name);
      (PStr "location", PStr "bridge");
      (PStr "format", PStr "dataframe");
      (PStr "record_count", PInt (Z.of_nat (len df)));
      (PStr "columns", list_columns df);
      (PStr "primary_keys", dict_get_default "primary_keys" (PList []) config);
      (PStr "fetched_at", PIso now);
      (PStr "description", dict_get_default "description" (PStr "") config);
      (PStr "symbols", PList (map PCell symbols))
    ] in
    Ok (PDict [
      (PStr "name", PStr name);
      (PStr "type", PStr "ohlcv");
      (PStr "description", dict_get_default "description" (PStr "") config);
      (PStr "meta", meta);
      (PStr "stats", PDict [
        (PStr "date_range", PDict [
          (PStr "min", isoformat date_min);
          (PStr "max", isoformat date_max);
          (PStr "days", delta_days date_max date_min)
        ]);
        (PStr "by_symbol", PDict symbol_stats)
      ]);
      (PStr "data", to_records render_date_day sample_df)
    ]).

(** *** Macro series *)

(** [sdf[c].iloc[0] if c in sdf.columns and len(sdf) > 0 else default] *)
Definition first_or (c : string) (sdf : DataFrame) (default : pyval) : pyval :=
  if has_column c sdf && (0 <? len sdf)%nat
  then match records sdf with
       | r :: _ => PCell (row_get c r)
       | [] => default
       end
  else default.

(** The body of the per-series loop of [prepare_fred_dataset]. *)
Definition fred_series_stats (df : DataFrame) (series_id : cell) : result pyval :=
  let sdf := {| columns := columns df;
                records := rows_where "series_id" series_id (records df) |} in
  let title := first_or "title" sdf (PCell series_id) in
  let units := first_or "units" sdf (PStr "") in
  let frequency := first_or "frequency" sdf (PStr "") in
  let* dates := getcol "date" sdf in
  let* value := getcol "value" sdf in
  let* mean := series_mean value in
  let* mn := series_min value in
  let* mx := series_max value in
  let* by_date := sort_values tie_rank "date" true sdf in
  let* latest_row := last_row (records by_date) in
  let* latest := py_float (row_get "value" latest_row) in
  Ok (PDict [
    (PStr "title", title);
    (PStr "units", units);
    (PStr "frequency", frequency);
    (PStr "count", PInt (Z.of_nat (len sdf)));
    (PStr "date_min", isoformat (stamp_min dates));
    (PStr "date_max", isoformat (stamp_max dates));
    (PStr "value_mean", PFloat (round4 mean));
    (PStr "value_min", PFloat (round4 mn));
    (PStr "value_max", PFloat (round4 mx));
    (PStr "value_latest", PFloat (round4 latest))
  ]).

Definition prepare_fred_dataset
  (now : Z) (name : string) (df : DataFrame) (config : pydict)
  (data_type : string) : result pyval :=
  let df := drop_internal df in
  if (len df =? 0)%nat || negb (has_column "date" df)
     || negb (has_column "series_id" df)
  then
    Ok (PDict [
      (PStr "name", PStr name);
      (PStr "type", PStr data_type);
      (PStr "description", dict_get_default "description" (PStr "") config);
      (PStr "meta", PDict [
        (PStr "name", PStr name);
        (PStr "source_id", PStr name);
        (PStr "location", PStr "bridge");
        (PStr "format", PStr "dataframe");
        (PStr "record_count", PInt 0);
        (PStr "columns",
           if (0 <? List.length (columns df))%nat then list_columns df
           else PList []);
        (PStr "primary_keys", dict_get_default "primary_keys" (PList []) config);
        (PStr "fetched_at", PIso now);
        (PStr "description", dict_get_default "description" (PStr "") config);
        (PStr "series", PList [])
      ]);
      (PStr "stats", PDict [
        (PStr "date_range", PDict [
          (PStr "min", PNone);
          (PStr "max", PNone);
          (PStr "days", PInt 0)
        ]);
        (PStr "by_series", PDict [])
      ]);
      (PStr "data", PList [])
    ])
  else
    let* df := assign_datetime "date" df in
    let* series_col := getcol "series_id" df in
    let* series_ids := py_sorted (unique series_col) in
    let* series_stats :=
      foldM (fun stats series_id =>
               let* entry := fred_series_stats df series_id in
               Ok (dict_set (PCell series_id) entry stats))
            series_ids [] in
    let* dates := getcol "date" df in
    let date_min := stamp_min dates in
    let date_max := stamp_max dates in
    let* sorted_df := sort_values_by ["series_id"; "date"] df in
    let* sample_df :=
      select ["series_id"; "date"; "value"; "title"; "units"] sorted_df in
    let meta := PDict [
      (PStr "name", PStr name);
      (PStr "source_id", PStr name);
      (PStr "location", PStr "bridge");
      (PStr "format", PStr "dataframe");
      (PStr "record_count", PInt (Z.of_nat (len df)));
      (PStr "columns", list_columns df);
      (PStr "primary_keys", dict_get_default "primary_keys" (PList []) config);
      (PStr "fetched_at", PIso now);
      (PStr "description", dict_get_default "description" (PStr "") config);
      (PStr "series", PList (map PCell series_ids))
    ] in
    Ok (PDict [
      (PStr "name", PStr name);
      (PStr "type", PStr data_type);
      (PStr "description", dict_get_default "description" (PStr "") config);
      (PStr "meta", meta);
      (PStr "stats", PDict [
        (PStr "date_range", PDict [
          (PStr "min", isoformat date_min);
          (PStr "max", isoformat date_max);
          (PStr "days", delta_days date_max date_min)
        ]);
        (PStr "by_series", PDict series_stats)
      ]);
      (PStr "data", to_records render_date_day sample_df)
    ]).

(** *** News feed *)

(** [Series.dt.date] on one cell: the calendar day of a timestamp. *)
Definition dt_date (c : cell) : cell :=
  match c with
  | CTime t => CInt (t / ns_per_day)
  | _ => CNull
  end.

(** [{str(k): int(v) for k, v in daily.items()}] *)
Definition day_entry (kv : cell * nat) : pyval * pyval :=
  (match fst kv with CInt d => PDay d | c => PCell c end,
   PInt (Z.of_nat (snd kv))).

Definition feed_entry (kv : cell * nat) : pyval * pyval :=
  (PCell (fst kv), PInt (Z.of_nat (snd kv))).

Definition render_published_minute (c : string) (v : cell) : pyval :=
  if String.eqb c "published" then strftime_minute v else PCell v.

Definition recent_cols : list string :=
  ["title"; "link"; "published"; "feed_name"; "author"].

Definition prepare_rss_dataset
  (now : Z) (name : string) (df : DataFrame) (config : pydict) : result pyval :=
  let df := drop_internal df in
  if (len df =? 0)%nat
  then
    Ok (PDict [
      (PStr "name", PStr name);
      (PStr "type", PStr "rss");
      (PStr "description", dict_get_default "description" (PStr "") config);
      (PStr "meta", PDict [
        (PStr "name", PStr name);
        (PStr "source_id", PStr name);
        (PStr "location", PStr "bridge");
        (PStr "format", PStr "dataframe");
        (PStr "record_count", PInt 0);
        (PStr "columns",
           if (0 <? List.length (columns df))%nat then list_columns df
           else PList []);
        (PStr "primary_keys", dict_get_default "primary_keys" (PList []) config);
        (PStr "fetched_at", PIso now);
        (PStr "description", dict_get_default "description" (PStr "") config);
        (PStr "feeds", PList [])
      ]);
      (PStr "stats", PDict [
        (PStr "date_range", PDict [
          (PStr "min", PNone);
          (PStr "max", PNone);
          (PStr "days", PInt 0)
        ]);
        (PStr "articles_by_feed", PDict []);
        (PStr "articles_by_day", PDict [])
      ]);
      (PStr "data", PList [])
    ])
  else
    let df := if has_column "published" df
              then dropna "published" (assign_datetime_coerce "published" df)
              else df in
    let* feeds :=
      (if has_column "feed_name" df
       then let* col := getcol "feed_name" df in py_sorted (unique col)
       else Ok []) in
    let* articles_by_feed :=
      (if has_column "feed_name" df
       then let* col := getcol "feed_name" df in
            Ok (map feed_entry (groupby_size col))
       else Ok []) in
    let* date_min :=
      (if (0 <? len df)%nat
       then let* col := getcol "published" df in Ok (Some (stamp_min col))
       else Ok None) in
    let* date_max :=
      (if (0 <? len df)%nat
       then let* col := getcol "published" df in Ok (Some (stamp_max col))
       else Ok None) in
    let* articles_by_day :=
      (if (0 <? len df)%nat
       then let* col := getcol "published" df in
            Ok (map day_entry (groupby_size (map dt_date col)))
       else Ok []) in
    let available_cols := filter (fun c => has_column c df) recent_cols in
    let* sorted_df := sort_values tie_rank "published" false df in
    let head30 := {| columns := columns sorted_df;
                     records := firstn 30 (records sorted_df) |} in
    let* recent_df := select available_cols head30 in
    let meta := PDict [
      (PStr "name", PStr name);
      (PStr "source_id", PStr name);
      (PStr "location", PStr "bridge");
      (PStr "format", PStr "dataframe");
      (PStr "record_count", PInt (Z.of_nat (len df)));
      (PStr "columns", list_columns df);
      (PStr "primary_keys", dict_get_default "primary_keys" (PList []) config);
      (PStr "fetched_at", PIso now);
      (PStr "description", dict_get_default "description" (PStr "") config);
      (PStr "feeds", PList (map PCell feeds))
    ] in
    Ok (PDict [
      (PStr "name", PStr name);
      (PStr "type", PStr "rss");
      (PStr "description", dict_get_default "description" (PStr "") config);
      (PStr "meta", meta);
      (PStr "stats", PDict [
        (PStr "date_range", PDict [
          (PStr "min", match date_min with
                       | Some t => isoformat t
                       | None => PNone
                       end);
          (PStr "max", match date_max with
                       | Some t => isoformat t
                       | None => PNone
                       end);
          (PStr "days", match date_min, date_max with
                        | Some lo, Some hi => delta_days hi lo
                        | _, _ => PInt 0
                        end)
        ]);
        (PStr "articles_by_feed", PDict articles_by_feed);
        (PStr "articles_by_day", PDict articles_by_day)
      ]);
      (PStr "data", to_records render_published_minute recent_df)
    ]).

(** *** Stress scenarios *)

(** [Series.astype(str)] on one cell, as pandas 2 has it: every cell
    becomes a string, a missing one included. *)
Definition astype_str (c : cell) : cell :=
  match c with
  | CStr s => CStr s
  | _ => CStr (str_scalar c)
  end.

(** [str(p) if p else None] for an element of [periods] or [None]: the
    empty string is falsy. *)
Definition str_or_none (p : option cell) : pyval :=
  match p with
  | Some (CStr s) => if String.eqb s "" then PNone else PStr s
  | Some c => PStr (str_scalar c)
  | None => PNone
  end.

Definition render_raw (c : string) (v : cell) : pyval := PCell v.

Definition prepare_fed_stress_dataset
  (now : Z) (name : string) (df : DataFrame) (config : pydict) : result pyval :=
  let df := drop_internal df in
  let* years :=
    (if has_column "year" df
     then let* col := getcol "year" df in py_sorted (unique col)
     else Ok []) in
  let* scenarios :=
    (if has_column "table" df
     then let* col := getcol "table" df in py_sorted (unique col)
     else Ok []) in
  let* period_bounds :=
    (if has_column "date" df
     then let* col := getcol "date" df in
          let* periods := py_sorted (unique (map astype_str col)) in
          Ok (hd_error periods, hd_error (rev periods))
     else Ok (None, None)) in
  let period_min := fst period_bounds in
  let period_max := snd period_bounds in
  let sort_cols :=
    (if has_column "year" df then ["year"] else [])
      ++ (if has_column "table" df then ["table"] else [])
      ++ (if has_column "date" df then ["date"] else []) in
  let* sample_df :=
    (match sort_cols with
     | [] => Ok df
     | _ => sort_values_list tie_rank sort_cols df
     end) in
  let meta := PDict [
    (PStr "name", PStr name);
    (PStr "source_id", PStr name);
    (PStr "location", PStr "bridge");
    (PStr "format", PStr "dataframe");
    (PStr "record_count", PInt (Z.of_nat (len df)));
    (PStr "columns", list_columns df);
    (PStr "primary_keys", dict_get_default "primary_keys" (PList []) config);
    (PStr "fetched_at", PIso now);
    (PStr "description", dict_get_default "description" (PStr "") config);
    (PStr "years", PList (map PCell years));
    (PStr "scenarios", PList (map PCell scenarios))
  ] in
  Ok (PDict [
    (PStr "name", PStr name);
    (PStr "type", PStr "fed_stress");
    (PStr "description", dict_get_default "description" (PStr "") config);
    (PStr "meta", meta);
    (PStr "stats", PDict [
      (PStr "date_range", PDict [
        (PStr "min", str_or_none period_min);
        (PStr "max", str_or_none period_max);
        (PStr "days", PInt 0)
      ]);
      (PStr "years", PList (map PCell years));
      (PStr "scenarios", PList (map PCell scenarios));
      (PStr "record_count", PInt (Z.of_nat (len df)))
    ]);
    (PStr "data", to_records render_raw sample_df)
  ]).

(** ** The orchestrator *)

(** The fetch layer ([cdata_bridge]); a fetch may raise. *)
Record Bridge : Type := {
  fetch_yfinance_data : string -> pyval -> pyval -> pyval -> result DataFrame;
  fetch_rss_data : string -> pyval -> result DataFrame;
  fetch_fred_data : string -> pyval -> result DataFrame;
  fetch_bls_data : string -> pyval -> result DataFrame;
  fetch_fed_stress_data : string -> pyval -> pyval -> result DataFrame
}.

(** [v[k]] and [v.get(k, default)] on a Python value. *)
Definition py_getitem (k : string) (v : pyval) : result pyval :=
  match v with
  | PDict d => dict_getitem k d
  | _ => Raise (TypeError "object is not subscriptable")
  end.

Definition py_get (k : string) (default : pyval) (v : pyval) : result pyval :=
  match v with
  | PDict d => Ok (dict_get_default k default d)
  | _ => Raise (AttributeError "object has no attribute 'get'")
  end.

(** [name in S] for a set of names. *)
Definition mem (name : string) (S : list string) : bool :=
  existsb (String.eqb name) S.

(** What the run has produced so far: the per-dataset artifacts handed to
    the publisher, the summary collection and the recorded errors. *)
Record run_state : Type := {
  public_files : list (string * pyval);
  all_datasets : list pyval;
  errors : list string
}.

Inductive run_outcome : Type :=
| Uncaught (e : exn)
| Finished (st : run_state) (datasets_json : pyval) (exit_status : Z).

(** What a run is given: the configuration module [dataset_config] (the
    declared datasets in the order of the dict, and the five sets of
    names), the switch read from the process environment, the bridge, and
    [datetime.utcnow()] as read while normalizing the named dataset. *)
Record Environment : Type := {
  DATASETS : list (string * pydict);
  OHLCV_DATASETS : list string;
  RSS_DATASETS : list string;
  FRED_DATASETS : list string;
  BLS_DATASETS : list string;
  FED_STRESS_DATASETS : list string;
  INCLUDE_RESTRICTED_DATA : bool;
  bridge : Bridge;
  utcnow : string -> Z
}.

Section Orchestrator.

Variable env : Environment.

(** The fetch of the [try] block; [None] is the [continue] of an unknown
    source type. *)
Definition fetch (name : string) (source_type config_params : pyval)
  : result (option DataFrame) :=
  if key_eqb source_type (PStr "yfinance") then
    let* symbols := py_getitem "symbols" config_params in
    let* period := py_get "period" (PStr "1y") config_params in
    let* interval := py_get "interval" (PStr "1d") config_params in
    let* df := fetch_yfinance_data (bridge env) name symbols period interval in
    Ok (Some df)
  else if key_eqb source_type (PStr "rss") then
    let* feeds := py_getitem "feeds" config_params in
    let* df := fetch_rss_data (bridge env) name feeds in
    Ok (Some df)
  else if key_eqb source_type (PStr "fred") then
    let* series := py_getitem "series" config_params in
    let* df := fetch_fred_data (bridge env) name series in
    Ok (Some df)
  else if key_eqb source_type (PStr "bls") then
    let* series := py_getitem "series" config_params in
    let* df := fetch_bls_data (bridge env) name series in
    Ok (Some df)
  else if key_eqb source_type (PStr "fed_stress") then
    let* years := py_getitem "years" config_params in
    let* scenarios := py_getitem "scenarios" config_params in
    let* df := fetch_fed_stress_data (bridge env) name years scenarios in
    Ok (Some df)
  else Ok None.

(** The dispatch of the [try] block; [None] is the [continue] of an
    unknown category. *)
Definition normalize (name : string) (df : DataFrame) (dataset_config : pydict)
  : result (option pyval) :=
  if mem name (OHLCV_DATASETS env) then
    let* dataset := prepare_ohlcv_dataset (utcnow env name) name df dataset_config in
    Ok (Some dataset)
  else if mem name (RSS_DATASETS env) then
    let* dataset := prepare_rss_dataset (utcnow env name) name df dataset_config in
    Ok (Some dataset)
  else if mem name (FRED_DATASETS env) then
    let* dataset :=
      prepare_fred_dataset (utcnow env name) name df dataset_config "fred" in
    Ok (Some dataset)
  else if mem name (BLS_DATASETS env) then
    let* dataset :=
      prepare_fred_dataset (utcnow env name) name df dataset_config "bls" in
    Ok (Some dataset)
  else if mem name (FED_STRESS_DATASETS env) then
    let* dataset :=
      prepare_fed_stress_dataset (utcnow env name) name df dataset_config in
    Ok (Some dataset)
  else Ok None.

(** Fetch and normalization of one dataset. *)
Definition fetch_and_normalize
  (name : string) (dataset_config : pydict) (source_type config_params : pyval)
  : result (option pyval) :=
  let* odf := fetch name source_type config_params in
  match odf with
  | None => Ok None
  | Some df => normalize name df dataset_config
  end.

(** The summary entry built from a document. *)
Definition summary_of (dataset : pyval) : result pyval :=
  let* name := py_getitem "name" dataset in
  let* type := py_getitem "type" dataset in
  let* description := py_getitem "description" dataset in
  let* meta := py_getitem "meta" dataset in
  let* stats := py_getitem "stats" dataset in
  Ok (PDict [
    (PStr "name", name);
    (PStr "type", type);
    (PStr "description", description);
    (PStr "meta", meta);
    (PStr "stats", stats)
  ]).

Definition record_error (name : string) (e : exn) (st : run_state) : run_state :=
  {| public_files := public_files st;
     all_datasets := all_datasets st;
     errors := errors st ++ [(name ++ ": " ++ str_exn e)%string] |}.

(** The [try ... except Exception] of the loop body. *)
Definition try_dataset
  (name : string) (dataset_config : pydict) (source_type config_params : pyval)
  (st : run_state) : run_state :=
  match fetch_and_normalize name dataset_config source_type config_params with
  | Raise e => record_error name e st
  | Ok None => st
  | Ok (Some dataset) =>
      let written :=
        {| public_files := public_files st ++ [((name ++ ".json")%string, dataset)];
           all_datasets := all_datasets st;
           errors := errors st |} in
      match summary_of dataset with
      | Raise e => record_error name e written
      | Ok summary =>
          {| public_files := public_files written;
             all_datasets := all_datasets written ++ [summary];
             errors := errors written |}
      end
  end.

(** One iteration of [for name, dataset_config in DATASETS.items()].  The
    two subscripts before the [try] are not guarded; the three [get]s
    beside them cannot raise and their values are not used. *)
Definition loop_body (st : run_state) (item : string * pydict)
  : result run_state :=
  let name := fst item in
  let dataset_config := snd item in
  let* source_type := dict_getitem "type" dataset_config in
  let* config_params := dict_getitem "config" dataset_config in
  if negb (INCLUDE_RESTRICTED_DATA env) && mem name (OHLCV_DATASETS env) then Ok st
  else Ok (try_dataset name dataset_config source_type config_params st).

(** [main]: the output directory is emptied, the loop runs, the summary
    collection is written, and the status is 1 when errors were recorded.
    An exception that leaves the loop ends the run before the summary. *)
Definition main : run_outcome :=
  let start := {| public_files := []; all_datasets := []; errors := [] |} in
  match foldM loop_body (DATASETS env) start with
  | Raise e => Uncaught e
  | Ok st =>
      Finished st (PList (all_datasets st))
               (match errors st with [] => 0 | _ :: _ => 1 end)
  end.

End Orchestrator.

End Normalizers.

(** * Vocabulary of the statements *)

(** ** Cells, columns and documents *)

(** A label that [drop_internal] keeps. *)
Definition public_label (c : string) : Prop := startswith_underscore c = false.

(** Kinds of cells. *)
Definition is_str (c : cell) : bool :=
  match c with CStr _ => true | _ => false end.

Definition numeric_or_null (c : cell) : bool :=
  match c with CNull | CInt _ | CFloat _ => true | _ => false end.

Definition is_stamp (o : coerced) : bool :=
  match o with Stamp _ => true | _ => false end.

(** The cell that a conversion outcome leaves in the column. *)
Definition stamp_cell (o : coerced) : cell :=
  match o with
  | Stamp t => CTime t
  | NaT | Unparseable => CNull
  end.

(** The strings among a list of cells. *)
Definition strings_of (l : list cell) : list string :=
  flat_map (fun c => match c with CStr s => [s] | _ => [] end) l.

(** The rows of a table that carry the string [s] in column [c]. *)
Definition rows_carrying (c s : string) (rows : list row) : list row :=
  filter (fun r => match row_get c r with
                   | CStr t => String.eqb t s
                   | _ => false
                   end) rows.

(** The values of a key column can be sorted by Python's [sorted] after
    [unique]: they are all missing (one distinct value, never compared), or
    all comparable with the first one (one ordered kind, none missing). *)
Definition sortable_column (l : list cell) : bool :=
  forallb is_null l
  || match l with
     | [] => true
     | x :: _ => forallb (comparable x) l
     end.

(** The null date range of a document without usable rows. *)
Definition null_date_range : pyval :=
  PDict [(PStr "min", PNone); (PStr "max", PNone); (PStr "days", PInt 0)].

(** A zero-record document: no data, no keys under [meta], no per-key
    statistics, the null date range. *)
Definition zero_record_document (keys_field stats_field : string) (doc : pyval)
  : Prop :=
  field ["data"] doc = Some (PList [])
  /\ field ["meta"; "record_count"] doc = Some (PInt 0)
  /\ field ["meta"; keys_field] doc = Some (PList [])
  /\ field ["stats"; stats_field] doc = Some (PDict [])
  /\ field ["stats"; "date_range"] doc = Some null_date_range.

(** The uniform output contract: the six fields of a document, in the
    order in which every normalizer writes them. *)
Definition canonical_document (doc : pyval) : Prop :=
  exists name type description meta stats data,
    doc = PDict [
      (PStr "name", name);
      (PStr "type", type);
      (PStr "description", description);
      (PStr "meta", meta);
      (PStr "stats", stats);
      (PStr "data", data)
    ].

(** A document with its [data] field removed. *)
Definition without_data (doc : pyval) : pyval :=
  match doc with
  | PDict d => PDict (filter (fun kv => negb (key_eqb (fst kv) (PStr "data"))) d)
  | v => v
  end.

(** The fields that a summary entry keeps. *)
Definition summary_fields : list string :=
  ["name"; "type"; "description"; "meta"; "stats"].

(** ** Tables seen with the outcome of the date conversion *)

Section DatedVocabulary.

Variable to_datetime : list cell -> nat -> coerced.

(** Each row of a table with the outcome of converting its cell of the
    column [c]. *)
Definition dated (c : string) (rows : list row) : list (row * coerced) :=
  combine rows (outcomes to_datetime c rows).

(** The row that the normalizers work on: internal entries dropped, the
    converted cell in the column [c]. *)
Definition working_row (c : string) (ro : row * coerced) : row :=
  row_set c (stamp_cell (snd ro))
          (filter (fun kv => negb (startswith_underscore (fst kv))) (fst ro)).

(** A well-formed price table: it has rows and the seven columns of the
    category, its symbols are strings, its dates convert (to a timestamp
    or to NaT), its [close] and [volume] cells are numbers or missing. *)
Definition price_table (df : DataFrame) : Prop :=
  records df <> []
  /\ forallb (fun c => has_column c df)
             ["symbol"; "date"; "open"; "high"; "low"; "close"; "volume"] = true
  /\ forallb (fun r => is_str (row_get "symbol" r)
                       && numeric_or_null (row_get "close" r)
                       && numeric_or_null (row_get "volume" r))
             (records df) = true
  /\ Forall (fun o => o <> Unparseable) (outcomes to_datetime "date" (records df)).

(** A well-formed macro table: it has rows and the five columns that the
    normalizer reads unguarded, its series ids are strings, its values are
    numbers or missing, and every date converts to a timestamp. *)
Definition macro_table (df : DataFrame) : Prop :=
  records df <> []
  /\ forallb (fun c => has_column c df)
             ["series_id"; "date"; "value"; "title"; "units"] = true
  /\ forallb (fun r => is_str (row_get "series_id" r)
                       && numeric_or_null (row_get "value" r))
             (records df) = true
  /\ forallb is_stamp (outcomes to_datetime "date" (records df)) = true.

(** A macro table some of whose dates may be missing: as [macro_table],
    but a date converts to a timestamp or to NaT. *)
Definition macro_table_with_gaps (df : DataFrame) : Prop :=
  records df <> []
  /\ forallb (fun c => has_column c df)
             ["series_id"; "date"; "value"; "title"; "units"] = true
  /\ forallb (fun r => is_str (row_get "series_id" r)
                       && numeric_or_null (row_get "value" r))
             (records df) = true
  /\ Forall (fun o => o <> Unparseable) (outcomes to_datetime "date" (records df)).

End DatedVocabulary.

(** What the stress normalizer needs of the columns it sorts, when they are
    present. *)
Definition stress_scenario_table (df : DataFrame) : Prop :=
  (has_column "year" df = true ->
   sortable_column (map (row_get "year") (records df)) = true)
  /\ (has_column "table" df = true ->
      sortable_column (map (row_get "table") (records df)) = true)
  /\ (has_column "date" df = true ->
      sortable_keys (map (row_get "date") (records df)) = true).

(** ** The news table seen through its usable rows *)

Section NewsVocabulary.

Variable to_datetime : list cell -> nat -> coerced.

(** The usable rows of a news table: the rows whose [published] cell
    converts to a timestamp, with that timestamp, in table order. *)
Definition usable (rows : list row) : list (row * Z) :=
  flat_map (fun ro => match snd ro with
                      | Stamp t => [(fst ro, t)]
                      | NaT | Unparseable => []
                      end)
           (dated to_datetime "published" rows).

End NewsVocabulary.

(** The row that the news normalizer works on, for a usable row. *)
Definition news_row (rt : row * Z) : row :=
  working_row "published" (fst rt, Stamp (snd rt)).

Definition feed_names (kept : list (row * Z)) : list cell :=
  map (fun rt => row_get "feed_name" (fst rt)) kept.

Definition published_days (kept : list (row * Z)) : list cell :=
  map (fun rt => CInt (snd rt / ns_per_day)) kept.

(** The columns of [recent_cols] that the table has. *)
Definition available_cols (df : DataFrame) : list string :=
  filter (fun c => has_column c df) recent_cols.

(** The record emitted for a usable row. *)
Definition published_record (df : DataFrame) (rt : row * Z) : pyval :=
  PDict (map (fun c => (PStr c,
                        if String.eqb c "published"
                        then PMinute (snd rt / ns_per_minute)
                        else PCell (row_get c (fst rt))))
             (available_cols df)).

(** The usable rows in the order of [sort_values('published',
    ascending=False)]. *)
Definition newest_first (tie_rank : list cell -> nat -> nat)
  (kept : list (row * Z)) : list (row * Z) :=
  rev (argsorted tie_rank (fun rt => CTime (snd rt)) (rev kept)).

(** The document of the news normalizer, written in terms of the usable
    rows and of the sorted feed names. *)
Definition rss_document (tie_rank : list cell -> nat -> nat)
  (now : Z) (name : string) (df : DataFrame) (config : pydict)
  (kept : list (row * Z)) (feeds : list cell) : pyval :=
  PDict [
    (PStr "name", PStr name);
    (PStr "type", PStr "rss");
    (PStr "description", dict_get_default "description" (PStr "") config);
    (PStr "meta", PDict [
      (PStr "name", PStr name);
      (PStr "source_id", PStr name);
      (PStr "location", PStr "bridge");
      (PStr "format", PStr "dataframe");
      (PStr "record_count", PInt (Z.of_nat (List.length kept)));
      (PStr "columns", list_columns (drop_internal df));
      (PStr "primary_keys", dict_get_default "primary_keys" (PList []) config);
      (PStr "fetched_at", PIso now);
      (PStr "description", dict_get_default "description" (PStr "") config);
      (PStr "feeds", PList (map PCell feeds))
    ]);
    (PStr "stats", PDict [
      (PStr "date_range", PDict [
        (PStr "min", match map snd kept with
                     | [] => PNone
                     | t :: ts => PIso (fold_left Z.min ts t)
                     end);
        (PStr "max", match map snd kept with
                     | [] => PNone
                     | t :: ts => PIso (fold_left Z.max ts t)
                     end);
        (PStr "days", match map snd kept with
                      | [] => PInt 0
                      | t :: ts =>
                          PInt ((fold_left Z.max ts t - fold_left Z.min ts t)
                                / ns_per_day)
                      end)
      ]);
      (PStr "articles_by_feed",
         PDict (if has_column "feed_name" df
                then map feed_entry (groupby_size (feed_names kept))
                else []));
      (PStr "articles_by_day",
         PDict (map day_entry (groupby_size (published_days kept))))
    ]);
    (PStr "data",
       PList (map (published_record df)
                  (firstn 30 (newest_first tie_rank kept))))
  ].

(** ** What the specification names *)

(** Modelled on the words of the specification, for comparison with
    [round4]: [y] is [x] rounded to 4 decimal places, that is the nearest
    multiple of 1/10000, and the even one of two that are equally near;
    NaN stays NaN. *)
Definition rounded_to_4_decimals (x y : pyfloat) : Prop :=
  match x, y with
  | FNaN, FNaN => True
  | FRat q, FRat r =>
      exists n : Z,
        (r == n # 10000)%Q
        /\ (inject_Z n - (1 # 2) <= q * 10000 <= inject_Z n + (1 # 2))%Q
        /\ ((q * 10000 == inject_Z n - (1 # 2)
             \/ q * 10000 == inject_Z n + (1 # 2))%Q -> Z.even n = true)
  | _, _ => False
  end.




(** ** The run seen dataset by dataset *)

Section RunVocabulary.

Variable to_datetime : list cell -> nat -> coerced.
Variable str_scalar : cell -> string.
Variable tie_rank : list cell -> nat -> nat.
Variable env : Environment.

(** A dataset that a public build leaves out. *)
Definition restricted (name : string) : bool :=
  negb (INCLUDE_RESTRICTED_DATA env) && mem name (OHLCV_DATASETS env).

(** A declared dataset whose entry has the two fields that the loop reads
    before its [try]. *)
Definition well_configured (item : string * pydict) : Prop :=
  dict_lookup (PStr "type") (snd item) <> None
  /\ dict_lookup (PStr "config") (snd item) <> None.

(** What fetching and normalizing one declared dataset gives, taken on its
    own: a document, nothing (a dataset left out or skipped), or an
    exception. *)
Definition attempt (item : string * pydict) : result (option pyval) :=
  if restricted (fst item) then Ok None
  else
    match dict_lookup (PStr "type") (snd item),
          dict_lookup (PStr "config") (snd item) with
    | Some source_type, Some config_params =>
        fetch_and_normalize to_datetime str_scalar tie_rank env
          (fst item) (snd item) source_type config_params
    | _, _ => Ok None
    end.

Definition emitted_by (item : string * pydict) : list (string * pyval) :=
  match attempt item with
  | Ok (Some doc) => [((fst item ++ ".json")%string, doc)]
  | _ => []
  end.

Definition error_of (item : string * pydict) : list string :=
  match attempt item with
  | Raise e => [(fst item ++ ": " ++ str_exn e)%string]
  | _ => []
  end.

End RunVocabulary.

(** * Example tables and an example run *)

(** A conversion used in the examples: a timestamp converts to itself, a
    missing value to NaT, anything else is unparseable. *)
Definition to_datetime_plain (col : list cell) (i : nat) : coerced :=
  match nth i col CNull with
  | CTime t => Stamp t
  | CNull => NaT
  | _ => Unparseable
  end.

(** Two orders of equal keys used in the examples: equal keys left in
    the order of the array, as a stable kind leaves them, and equal keys
    left in the reverse of it. *)
Definition ties_in_order (keys : list cell) (i : nat) : nat := 0%nat.


(** A table without rows and without columns. *)
Definition empty_table : DataFrame := {| columns := []; records := [] |}.

(** A small price table: two symbols, three rows each, in mixed order. *)
Definition price_row (symbol : string) (day close volume : Z) : row :=
  [("symbol", CStr symbol); ("date", CTime (day * ns_per_day));
   ("open", CInt close); ("high", CInt close); ("low", CInt close);
   ("close", CInt close); ("volume", CInt volume)].

Definition scenario_prices : DataFrame :=
  {| columns := ["symbol"; "date"; "open"; "high"; "low"; "close"; "volume"];
     records := [price_row "ZZZ" 1 10 5; price_row "AAA" 1 1 100;
                 price_row "ZZZ" 2 20 5; price_row "AAA" 2 2 200;
                 price_row "AAA" 3 3 300; price_row "ZZZ" 3 30 5] |}.


(** A macro table with one series whose value grows with the date; the
    rows are not in date order, the last row of the table is not the
    latest one. *)
Definition macro_row (series : string) (day : Z) (value : Q) : row :=
  [("series_id", CStr series); ("date", CTime (day * ns_per_day));
   ("value", CFloat value); ("title", CStr "Federal Funds Rate");
   ("units", CStr "Percent")].

Definition scenario_macro : DataFrame :=
  {| columns := ["series_id"; "date"; "value"; "title"; "units"];
     records := [macro_row "DFF" 3 (3 # 1); macro_row "DFF" 1 (1 # 1);
                 macro_row "DFF" 5 (5 # 1); macro_row "DFF" 2 (2 # 1);
                 macro_row "DFF" 4 (4 # 1)] |}.

(** A macro table with two series, not in date order: the values of DFF
    have more than four decimals, and UNRATE has a row without a date. *)
Definition macro_with_gaps : DataFrame :=
  {| columns := ["series_id"; "date"; "value"; "title"; "units"];
     records := [macro_row "DFF" 2 (271828 # 100000);
                 [("series_id", CStr "UNRATE"); ("date", CNull);
                  ("value", CFloat (39 # 10)); ("title", CStr "Unemployment");
                  ("units", CStr "Percent")];
                 macro_row "DFF" 1 (314159 # 100000);
                 macro_row "UNRATE" 1 (41 # 10)] |}.

(** A macro table with one series in which the row of the maximum date
    holds the value 9 and a row without a date holds the value 7. *)
Definition macro_undated : DataFrame :=
  {| columns := ["series_id"; "date"; "value"; "title"; "units"];
     records := [macro_row "DFF" 1 (1 # 1);
                 [("series_id", CStr "DFF"); ("date", CNull);
                  ("value", CFloat (7 # 1));
                  ("title", CStr "Federal Funds Rate");
                  ("units", CStr "Percent")];
                 macro_row "DFF" 2 (9 # 1)] |}.

(** A small news table: five usable rows from two feeds, two of them
    published at the same instant, and one row whose date does not
    parse. *)
Definition news_item (title feed : string) (published : cell) : row :=
  [("title", CStr title); ("link", CStr "https://example.org");
   ("published", published); ("feed_name", CStr feed);
   ("summary", CStr "text")].

Definition scenario_news : DataFrame :=
  {| columns := ["title"; "link"; "published"; "feed_name"; "summary"];
     records := [news_item "a" "fed" (CTime (2 * ns_per_day));
                 news_item "b" "ecb" (CTime (5 * ns_per_day));
                 news_item "c" "fed" (CStr "not a date");
                 news_item "d" "fed" (CTime (5 * ns_per_day));
                 news_item "e" "ecb" (CTime (1 * ns_per_day));
                 news_item "f" "fed" (CTime (3 * ns_per_day))] |}.

(** A news table without a [published] column. *)
Definition news_no_published : DataFrame :=
  {| columns := ["title"; "feed_name"];
     records := [ [("title", CStr "Rates held"); ("feed_name", CStr "fed")] ] |}.

(** A stress table without a [date] column. *)
Definition stress_no_date : DataFrame :=
  {| columns := ["year"; "table"; "value"];
     records := [ [("year", CInt 2025); ("table", CStr "Severely Adverse");
                   ("value", CFloat (35 # 10))];
                  [("year", CInt 2024); ("table", CStr "Baseline");
                   ("value", CFloat (21 # 10))] ] |}.

(** A small run of three declared datasets: a news dataset whose fetch
    raises, a macro dataset that is fetched and normalized, and a price
    dataset whose configuration lacks the [symbols] that the fetch
    reads. *)
Definition example_bridge : Bridge :=
  {| fetch_yfinance_data := fun _ _ _ _ => Ok scenario_prices;
     fetch_rss_data := fun _ _ => Raise (RuntimeError "feed unreachable");
     fetch_fred_data := fun _ _ => Ok scenario_macro;
     fetch_bls_data := fun _ _ => Ok empty_table;
     fetch_fed_stress_data := fun _ _ _ => Ok stress_no_date |}.

Definition example_datasets : list (string * pydict) :=
  [ ("fed_news",
     [(PStr "type", PStr "rss");
      (PStr "description", PStr "Federal Reserve news");
      (PStr "config",
         PDict [(PStr "feeds", PList [PStr "https://example.org/feed"])])]);
    ("fred_rates",
     [(PStr "type", PStr "fred");
      (PStr "description", PStr "Interest rates");
      (PStr "config", PDict [(PStr "series", PList [PStr "DFF"])])]);
    ("us_indices",
     [(PStr "type", PStr "yfinance");
      (PStr "config", PDict [])]) ].

Definition example_env : Environment :=
  {| DATASETS := example_datasets;
     OHLCV_DATASETS := ["us_indices"];
     RSS_DATASETS := ["fed_news"];
     FRED_DATASETS := ["fred_rates"];
     BLS_DATASETS := [];
     FED_STRESS_DATASETS := [];
     INCLUDE_RESTRICTED_DATA := true;
     bridge := example_bridge;
     utcnow := fun _ => 0 |}.

Definition example_run : run_outcome :=
  main to_datetime_plain (fun _ => "") ties_in_order example_env.

(** * Proof steps that recur *)

(** Takes a successful chain of binds apart: every step of it returned. *)
Ltac bind_inv H :=
  cbv zeta in H;
  repeat match type of H with
         | bind ?r _ = Ok _ =>
             let x := fresh "x" in
             let E := fresh "E" in
             destruct r as [x | ?] eqn:E; [cbn [bind] in H | discriminate H]
         end.

(** Closes [canonical_document] on a document written out field by field. *)
Ltac canonical := unfold canonical_document; do 6 eexists; reflexivity.

(** * Vocabulary of the further properties *)

(** ** Price and macro tables *)

(** The columns that the price and the macro normalizers emit. *)
Definition price_columns : list string :=
  ["symbol"; "date"; "open"; "high"; "low"; "close"; "volume"].

Definition macro_columns : list string :=
  ["series_id"; "date"; "value"; "title"; "units"].

(** The record emitted for a row of a table, given the outcome of
    converting its date: the date is rendered as a day, a missing date as
    null, the other cells are emitted as they are. *)
Definition dated_record (cols : list string) (ro : row * coerced) : pyval :=
  PDict (map (fun c => (PStr c,
                        if String.eqb c "date"
                        then match snd ro with
                             | Stamp t => PDay (t / ns_per_day)
                             | NaT | Unparseable => PNone
                             end
                        else PCell (row_get c (fst ro))))
             cols).

(** The comparison that [sort_values([key, 'date'])] makes between two
    rows of the working frame, on the rows of the table. *)
Definition by_key_then_date (key : string) (x y : row * coerced) : bool :=
  lex_le [key; "date"] (working_row "date" x) (working_row "date" y).

(** The string in a key column of a row. *)
Definition key_of (c : string) (r : row) : string :=
  match row_get c r with CStr s => s | _ => "" end.

(** The order of two conversion outcomes in an ascending sort: timestamps
    by time, a missing date after every timestamp. *)
Definition date_le (a b : coerced) : Prop :=
  match a, b with
  | Stamp s, Stamp t => s <= t
  | _, Stamp _ => False
  | _, _ => True
  end.

(** Ascending by the string key, then by date. *)
Definition key_then_date (key : string) (x y : row * coerced) : Prop :=
  String.ltb (key_of key (fst x)) (key_of key (fst y)) = true
  \/ (key_of key (fst x) = key_of key (fst y) /\ date_le (snd x) (snd y)).

(** Rows that a sort by key and date cannot tell apart: the key [s] and
    the date [o], two missing dates being alike. *)
Definition date_eqb (a b : coerced) : bool :=
  match a, b with
  | Stamp s, Stamp t => s =? t
  | Stamp _, _ | _, Stamp _ => false
  | _, _ => true
  end.

Definition same_sort_key (key s : string) (o : coerced) (ro : row * coerced)
  : bool :=
  match row_get key (fst ro) with
  | CStr k => String.eqb k s
  | _ => false
  end && date_eqb (snd ro) o.

(** ** Counts *)

(** The integer that a value holds, and the [count] of an entry of the
    per-key statistics. *)
Definition int_value (v : pyval) : Z :=
  match v with PCell (CInt n) => n | _ => 0 end.

Definition count_field (v : pyval) : Z :=
  match field ["count"] v with Some w => int_value w | None => 0 end.

(** The sum of a quantity over the values of a dict. *)
Definition sum_of (f : pyval -> Z) (d : pydict) : Z :=
  fold_right (fun kv acc => f (snd kv) + acc) 0 d.

(** ** Further example tables *)

(** A macro table without the [title] column. *)
Definition macro_no_title : DataFrame :=
  {| columns := ["series_id"; "date"; "value"; "units"];
     records := [ [("series_id", CStr "DFF"); ("date", CTime (1 * ns_per_day));
                   ("value", CFloat (1 # 1)); ("units", CStr "Percent")] ] |}.

(** A price table without the [open] column. *)
Definition prices_no_open : DataFrame :=
  {| columns := ["symbol"; "date"; "high"; "low"; "close"; "volume"];
     records := [ [("symbol", CStr "AAA"); ("date", CTime (1 * ns_per_day));
                   ("high", CInt 2); ("low", CInt 1); ("close", CInt 2);
                   ("volume", CInt 100)] ] |}.

(** A price table and a macro table with one date that does not parse. *)
Definition prices_bad_date : DataFrame :=
  {| columns := price_columns;
     records := [price_row "AAA" 1 1 100;
                 [("symbol", CStr "AAA"); ("date", CStr "soon");
                  ("open", CInt 2); ("high", CInt 2); ("low", CInt 2);
                  ("close", CInt 2); ("volume", CInt 200)]] |}.

Definition macro_bad_date : DataFrame :=
  {| columns := macro_columns;
     records := [macro_row "DFF" 1 (1 # 1);
                 [("series_id", CStr "DFF"); ("date", CStr "soon");
                  ("value", CFloat (2 # 1)); ("title", CStr "Federal Funds Rate");
                  ("units", CStr "Percent")]] |}.

(** A price table in which one symbol has a single row. *)
Definition prices_single : DataFrame :=
  {| columns := price_columns;
     records := [price_row "ZZZ" 1 9 5; price_row "AAA" 1 7 10;
                 price_row "ZZZ" 2 11 5] |}.

(** ** Stress scenario tables *)

(** The columns that the stress normalizer sorts by: those of year, table
    and date that the table has, in this order. *)
Definition stress_sort_columns (df : DataFrame) : list string :=
  filter (fun c => has_column c df) ["year"; "table"; "date"].

(** The rows of a stress table in the order in which the normalizer
    emits them: the order of the table when it has none of the sort
    columns, the order of [sort_values] on one label when it has one of
    them, and the stable lexicographic order when it has more. *)
Definition stress_sorted_rows (tie_rank : list cell -> nat -> nat)
  (df : DataFrame) : list row :=
  match stress_sort_columns df with
  | [] => records df
  | [c] => nargsort tie_rank (row_get c) true (records df)
  | cols => isort (lex_le cols) (records df)
  end.

(** The record emitted for a row: its cells under the given columns. *)
Definition raw_record (cols : list string) (r : row) : pyval :=
  PDict (map (fun c => (PStr c, PCell (row_get c r))) cols).

(** [keys] lists the values of a column: each key is a value of the
    column, each value of the column is equal to a key, no two keys are
    equal, and the keys ascend. *)
Definition lists_values_of (col keys : list cell) : Prop :=
  (forall k, In k keys -> In k col)
  /\ (forall v, In v col -> exists k, In k keys /\ cell_eqb k v = true)
  /\ ForallOrdPairs (fun a b => cell_eqb a b = false) keys
  /\ StronglySorted (fun a b => cell_le a b = true) keys.

(** The column [c] of a table, when the table has it, holds no missing
    value. *)
Definition no_missing (c : string) (df : DataFrame) : Prop :=
  has_column c df = true ->
  forallb (fun r => negb (is_null (row_get c r))) (records df) = true.

(** A stress table with quarters as dates, not in order. *)
Definition stress_quarters : DataFrame :=
  {| columns := ["year"; "table"; "date"; "_fetched_at"];
     records := [ [("year", CInt 2025); ("table", CStr "Baseline");
                   ("date", CStr "2025 Q2"); ("_fetched_at", CStr "x")];
                  [("year", CInt 2024); ("table", CStr "Severely Adverse");
                   ("date", CStr "2024 Q4"); ("_fetched_at", CStr "y")];
                  [("year", CInt 2025); ("table", CStr "Baseline");
                   ("date", CStr "2025 Q1"); ("_fetched_at", CStr "z")] ] |}.

(** A stress table with columns and no rows. *)
Definition stress_no_rows : DataFrame :=
  {| columns := ["year"; "table"; "date"]; records := [] |}.

(** A news table none of whose dates parses. *)
Definition news_all_bad : DataFrame :=
  {| columns := ["title"; "link"; "published"; "feed_name"; "summary"];
     records := [news_item "a" "fed" (CStr "yesterday");
                 news_item "b" "ecb" CNull] |}.

(** ** Further vocabulary of the run *)

(** The same configuration with other declared datasets. *)
Definition with_datasets (env : Environment)
  (datasets : list (string * pydict)) : Environment :=
  {| DATASETS := datasets;
     OHLCV_DATASETS := OHLCV_DATASETS env;
     RSS_DATASETS := RSS_DATASETS env;
     FRED_DATASETS := FRED_DATASETS env;
     BLS_DATASETS := BLS_DATASETS env;
     FED_STRESS_DATASETS := FED_STRESS_DATASETS env;
     INCLUDE_RESTRICTED_DATA := INCLUDE_RESTRICTED_DATA env;
     bridge := bridge env;
     utcnow := utcnow env |}.

(** The source types that the loop knows how to fetch. *)
Definition known_source_type (t : pyval) : bool :=
  key_eqb t (PStr "yfinance") || key_eqb t (PStr "rss")
  || key_eqb t (PStr "fred") || key_eqb t (PStr "bls")
  || key_eqb t (PStr "fed_stress").

(** A declared dataset that the loop passes over before any fetch: a
    restricted one in a public build, or one of an unknown source type. *)
Definition passed_over (env : Environment) (item : string * pydict) : bool :=
  restricted env (fst item)
  || match dict_lookup (PStr "type") (snd item) with
     | Some t => negb (known_source_type t)
     | None => false
     end.

(** The keys of [config] that the fetch of a source type subscripts, in
    the order in which it reads them. *)
Definition required_keys (t : string) : list string :=
  if String.eqb t "yfinance" then ["symbols"]
  else if String.eqb t "rss" then ["feeds"]
  else if String.eqb t "fred" then ["series"]
  else if String.eqb t "bls" then ["series"]
  else if String.eqb t "fed_stress" then ["years"; "scenarios"]
  else [].

Definition lacks_key (cfg : pydict) (k : string) : bool :=
  match dict_lookup (PStr k) cfg with Some _ => false | None => true end.

(** A name that belongs to one of the five categories. *)
Definition categorized (env : Environment) (name : string) : bool :=
  mem name (OHLCV_DATASETS env) || mem name (RSS_DATASETS env)
  || mem name (FRED_DATASETS env) || mem name (BLS_DATASETS env)
  || mem name (FED_STRESS_DATASETS env).

(** The types of the documents that a public build can emit. *)
Definition public_types : list string := ["rss"; "fred"; "bls"; "fed_stress"].

(** A run in a public build: a restricted price dataset, a dataset of an
    unknown source type, and a macro dataset. *)
Definition public_env : Environment :=
  {| DATASETS :=
       [ ("us_indices",
          [(PStr "type", PStr "yfinance");
           (PStr "config", PDict [(PStr "symbols", PList [PStr "^GSPC"])])]);
         ("weather",
          [(PStr "type", PStr "noaa"); (PStr "config", PDict [])]);
         ("fred_rates",
          [(PStr "type", PStr "fred");
           (PStr "config", PDict [(PStr "series", PList [PStr "DFF"])])]) ];
     OHLCV_DATASETS := ["us_indices"];
     RSS_DATASETS := ["fed_news"];
     FRED_DATASETS := ["fred_rates"];
     BLS_DATASETS := [];
     FED_STRESS_DATASETS := [];
     INCLUDE_RESTRICTED_DATA := false;
     bridge := example_bridge;
     utcnow := fun _ => 0 |}.

(** A run whose second dataset lacks the [config] field. *)
Definition broken_env : Environment :=
  with_datasets example_env
    [ ("fred_rates",
       [(PStr "type", PStr "fred");
        (PStr "config", PDict [(PStr "series", PList [PStr "DFF"])])]);
      ("fed_news", [(PStr "type", PStr "rss")]);
      ("us_indices",
       [(PStr "type", PStr "yfinance"); (PStr "config", PDict [])]) ].

(** A run whose only dataset is fetched as a table without rows. *)
Definition empty_fetch_env : Environment :=
  {| DATASETS :=
       [ ("bls_cpi",
          [(PStr "type", PStr "bls");
           (PStr "config", PDict [(PStr "series", PList [PStr "CPI"])])]) ];
     OHLCV_DATASETS := [];
     RSS_DATASETS := [];
     FRED_DATASETS := [];
     BLS_DATASETS := ["bls_cpi"];
     FED_STRESS_DATASETS := [];
     INCLUDE_RESTRICTED_DATA := true;
     bridge := example_bridge;
     utcnow := fun _ => 0 |}.

(** * Facts about the embedding *)

(** ** Results *)

Lemma bind_Ok_inv {A B : Type} (r : result A) (k : A -> result B) (b : B) :
  bind r k = Ok b -> exists a, r = Ok a /\ k a = Ok b.
Proof.
  destruct r as [a | e]; simpl; intros H.
  - exists a; split; [reflexivity | exact H].
  - discriminate H.
Qed.

Lemma mapM_Ok_map {A B : Type} (f : A -> result B) (g : A -> B) (l : list A) :
  Forall (fun x => f x = Ok (g x)) l -> mapM f l = Ok (map g l).
Proof.
  induction 1 as [| x xs Hx _ IH]; simpl.
  - reflexivity.
  - rewrite Hx; simpl. rewrite IH; reflexivity.
Qed.

(** ** Rows *)

Lemma row_get_filter (keep : string -> bool) (c : string) (r : row) :
  keep c = true ->
  row_get c (filter (fun kv => keep (fst kv)) r) = row_get c r.
Proof.
  intros Hc. induction r as [| [k v] r IH]; simpl.
  - reflexivity.
  - destruct (String.eqb k c) eqn:E.
    + apply String.eqb_eq in E; subst k. rewrite Hc; simpl.
      rewrite String.eqb_refl; reflexivity.
    + destruct (keep k); simpl; [rewrite E |]; exact IH.
Qed.

Lemma row_get_set_same (c : string) (v : cell) (r : row) :
  row_get c (row_set c v r) = v.
Proof. unfold row_set; simpl. rewrite String.eqb_refl; reflexivity. Qed.

Lemma row_get_set_other (c d : string) (v : cell) (r : row) :
  c <> d -> row_get d (row_set c v r) = row_get d r.
Proof.
  intros Hcd. unfold row_set; simpl.
  destruct (String.eqb c d) eqn:E.
  - apply String.eqb_eq in E; contradiction.
  - apply (row_get_filter (fun k => negb (String.eqb k c))).
    rewrite String.eqb_sym, E; reflexivity.
Qed.

(** ** Dropping the internal columns *)

Lemma has_column_drop_internal (c : string) (df : DataFrame) :
  public_label c -> has_column c (drop_internal df) = has_column c df.
Proof.
  unfold public_label, has_column, drop_internal; simpl. intros Hc.
  induction (columns df) as [| k ks IH]; simpl.
  - reflexivity.
  - destruct (String.eqb c k) eqn:E.
    + apply String.eqb_eq in E; subst k. rewrite Hc; simpl.
      rewrite String.eqb_refl; reflexivity.
    + destruct (negb (startswith_underscore k)); simpl; [rewrite E |]; exact IH.
Qed.

Lemma len_drop_internal (df : DataFrame) : len (drop_internal df) = len df.
Proof. unfold len, drop_internal; simpl. apply length_map. Qed.

Lemma column_drop_internal (c : string) (df : DataFrame) :
  public_label c ->
  map (row_get c) (records (drop_internal df)) = map (row_get c) (records df).
Proof.
  intros Hc. unfold drop_internal; simpl. rewrite map_map.
  apply map_ext. intros r.
  apply (row_get_filter (fun k => negb (startswith_underscore k))).
  unfold public_label in Hc; rewrite Hc; reflexivity.
Qed.

(** ** The stable sort *)

Section Isort.

Context {A : Type}.
Variable le : A -> A -> bool.

Lemma insert_le_perm (x : A) (l : list A) :
  Permutation (insert_le le x l) (x :: l).
Proof.
  induction l as [| y ys IH]; simpl.
  - apply Permutation_refl.
  - destruct (le x y).
    + apply Permutation_refl.
    + eapply Permutation_trans; [apply perm_skip, IH | apply perm_swap].
Qed.

Lemma isort_perm (l : list A) : Permutation (isort le l) l.
Proof.
  induction l as [| x xs IH]; simpl.
  - apply Permutation_refl.
  - eapply Permutation_trans; [apply insert_le_perm | apply perm_skip, IH].
Qed.

Lemma isort_In (x : A) (l : list A) : In x (isort le l) <-> In x l.
Proof.
  split; apply Permutation_in;
    [apply isort_perm | apply Permutation_sym, isort_perm].
Qed.

Lemma isort_length (l : list A) : List.length (isort le l) = List.length l.
Proof. apply Permutation_length, isort_perm. Qed.

(** Sortedness needs [le] to be total and transitive on the elements. *)
Variable P : A -> Prop.
Hypothesis le_total : forall a b, P a -> P b -> le a b = true \/ le b a = true.
Hypothesis le_trans :
  forall a b c, P a -> P b -> P c ->
                le a b = true -> le b c = true -> le a c = true.

Lemma insert_le_sorted (x : A) (l : list A) :
  P x -> Forall P l ->
  StronglySorted (fun a b => le a b = true) l ->
  StronglySorted (fun a b => le a b = true) (insert_le le x l).
Proof.
  intros Px Pl Hs. induction Hs as [| y ys Hs IH Hy]; simpl.
  - constructor; [constructor | constructor].
  - inversion Pl as [| ? ? Py Pys]; subst.
    destruct (le x y) eqn:E.
    + constructor; [constructor; assumption |].
      constructor; [exact E |].
      rewrite Forall_forall in Hy, Pys |- *. intros z Hz.
      apply (le_trans x y z); auto.
    + constructor; [apply IH; exact Pys |].
      rewrite Forall_forall in Hy |- *. intros z Hz.
      apply (Permutation_in _ (insert_le_perm x ys)) in Hz.
      destruct Hz as [<- | Hz]; [| apply Hy, Hz].
      destruct (le_total x y Px Py) as [H | H]; [congruence | exact H].
Qed.

Lemma isort_sorted (l : list A) :
  Forall P l -> StronglySorted (fun a b => le a b = true) (isort le l).
Proof.
  induction 1 as [| x xs Px Pxs IH]; simpl.
  - constructor.
  - apply insert_le_sorted; [exact Px | | exact IH].
    rewrite Forall_forall in Pxs |- *. intros z Hz.
    apply Pxs, isort_In, Hz.
Qed.

End Isort.

(** Stability: the elements of one key class keep their relative order. *)
Lemma insert_le_filter {A : Type} (le : A -> A -> bool) (p : A -> bool)
      (x : A) (l : list A) :
  (forall a b, p a = true -> p b = true -> le a b = true) ->
  filter p (insert_le le x l) = filter p (x :: l).
Proof.
  intros Hp. induction l as [| y ys IH].
  - reflexivity.
  - cbn [insert_le]. destruct (le x y) eqn:E; [reflexivity |].
    cbn [filter] in IH |- *. rewrite IH.
    destruct (p x) eqn:Ex, (p y) eqn:Ey; try reflexivity.
    rewrite (Hp x y Ex Ey) in E; discriminate.
Qed.

Lemma isort_stable {A : Type} (le : A -> A -> bool) (p : A -> bool)
      (l : list A) :
  (forall a b, p a = true -> p b = true -> le a b = true) ->
  filter p (isort le l) = filter p l.
Proof.
  intros Hp. induction l as [| x xs IH]; simpl.
  - reflexivity.
  - rewrite (insert_le_filter le p _ _ Hp). simpl. rewrite IH; reflexivity.
Qed.

Lemma insert_le_map {A B : Type} (le : B -> B -> bool) (f : A -> B)
      (x : A) (l : list A) :
  insert_le le (f x) (map f l)
  = map f (insert_le (fun a b => le (f a) (f b)) x l).
Proof.
  induction l as [| y ys IH]; simpl.
  - reflexivity.
  - destruct (le (f x) (f y)); simpl; [reflexivity | rewrite IH; reflexivity].
Qed.

Lemma isort_map {A B : Type} (le : B -> B -> bool) (f : A -> B) (l : list A) :
  isort le (map f l) = map f (isort (fun a b => le (f a) (f b)) l).
Proof.
  induction l as [| x xs IH]; simpl.
  - reflexivity.
  - rewrite IH. apply insert_le_map.
Qed.


(** * The degenerate paths of the price and macro normalizers *)

Section Degenerate.

Variable to_datetime : list cell -> nat -> coerced.
Variable tie_rank : list cell -> nat -> nat.

Lemma degenerate_guard (key : string) (df : DataFrame) :
  public_label key ->
  records df = [] \/ has_column "date" df = false \/ has_column key df = false ->
  (len (drop_internal df) =? 0)%nat
    || negb (has_column "date" (drop_internal df))
    || negb (has_column key (drop_internal df)) = true.
Proof.
  intros Hk H.
  rewrite len_drop_internal, !has_column_drop_internal by (exact Hk || reflexivity).
  destruct H as [H | [H | H]].
  - unfold len; rewrite H; reflexivity.
  - rewrite H. apply orb_true_iff; left. apply orb_true_r.
  - rewrite H. apply orb_true_r.
Qed.

(** C2: a price table that is empty or lacks [date] or [symbol], and a
    macro table that is empty or lacks [date] or [series_id], is answered
    by a zero-record document (no data, empty key list, empty per-key
    statistics, null date range); the normalizer returns, it does not
    raise. *)
Theorem degenerate_tables_give_zero_record_documents
  (now : Z) (name : string) (df : DataFrame) (config : pydict)
  (data_type : string) :
  (records df = [] \/ has_column "date" df = false
   \/ has_column "symbol" df = false ->
   exists doc,
     prepare_ohlcv_dataset to_datetime now name df config = Ok doc
     /\ zero_record_document "symbols" "by_symbol" doc)
  /\
  (records df = [] \/ has_column "date" df = false
   \/ has_column "series_id" df = false ->
   exists doc,
     prepare_fred_dataset to_datetime tie_rank now name df config data_type = Ok doc
     /\ zero_record_document "series" "by_series" doc).
Proof.
  split; intros H.
  - unfold prepare_ohlcv_dataset.
    rewrite (degenerate_guard "symbol" df eq_refl H).
    eexists; split; [reflexivity |].
    unfold zero_record_document; repeat split; reflexivity.
  - unfold prepare_fred_dataset.
    rewrite (degenerate_guard "series_id" df eq_refl H).
    eexists; split; [reflexivity |].
    unfold zero_record_document; repeat split; reflexivity.
Qed.

End Degenerate.

Lemma degenerate_tables_witness :
  (exists doc,
     prepare_ohlcv_dataset to_datetime_plain 0 "prices" empty_table [] = Ok doc
     /\ zero_record_document "symbols" "by_symbol" doc)
  /\
  (exists doc,
     prepare_fred_dataset to_datetime_plain ties_in_order 0 "rates" empty_table [] "fred" = Ok doc
     /\ zero_record_document "series" "by_series" doc).
Proof.
  destruct (degenerate_tables_give_zero_record_documents
              to_datetime_plain ties_in_order 0 "prices" empty_table [] "fred")
    as [H1 _].
  destruct (degenerate_tables_give_zero_record_documents
              to_datetime_plain ties_in_order 0 "rates" empty_table [] "fred")
    as [_ H2].
  split; [apply H1 | apply H2]; left; reflexivity.
Defined.

(** * Sorting keys with Python's [sorted] *)

Lemma comparable_trans (x a b : cell) :
  comparable x a = true -> comparable x b = true -> comparable a b = true.
Proof.
  destruct x, a, b; cbv [comparable cell_leb cell_num]; intros; congruence.
Qed.

Lemma unique_In (y : cell) (l : list cell) : In y (unique l) -> In y l.
Proof.
  induction l as [| x xs IH]; simpl; [tauto |].
  intros [-> | H]; [left; reflexivity | right].
  apply filter_In in H as [H _]. apply IH, H.
Qed.

Lemma unique_all_null (l : list cell) :
  forallb is_null l = true -> unique l = [] \/ unique l = [CNull].
Proof.
  induction l as [| x xs IH]; simpl; intros H; [left; reflexivity |].
  apply andb_true_iff in H as [Hx Hxs]. right.
  destruct x; try discriminate Hx.
  destruct (IH Hxs) as [-> | ->]; reflexivity.
Qed.

Lemma py_sorted_comparable (l : list cell) :
  (forall a b, In a l -> In b l -> comparable a b = true) ->
  py_sorted l = Ok (isort cell_le l).
Proof.
  intros H. destruct l as [| x [| y ys]]; try reflexivity.
  unfold py_sorted.
  replace (forallb (comparable x) (x :: y :: ys)) with true; [reflexivity |].
  symmetry; apply forallb_forall. intros z Hz. apply H; [left; reflexivity | exact Hz].
Qed.

(** [sorted(column.unique().tolist())] succeeds on a sortable column. *)
Lemma py_sorted_unique_sortable (l : list cell) :
  sortable_column l = true -> exists keys, py_sorted (unique l) = Ok keys.
Proof.
  unfold sortable_column. intros H. apply orb_true_iff in H as [H | H].
  - destruct (unique_all_null l H) as [-> | ->]; eexists; reflexivity.
  - eexists. apply py_sorted_comparable. intros a b Ha Hb.
    apply unique_In in Ha, Hb.
    destruct l as [| x xs]; [destruct Ha |].
    rewrite forallb_forall in H.
    apply (comparable_trans x); apply H; assumption.
Qed.

Lemma sortable_keys_of_sortable_column (l : list cell) :
  sortable_column l = true -> sortable_keys l = true.
Proof.
  unfold sortable_column, sortable_keys. intros H.
  destruct (filter (fun c => negb (is_null c)) l) as [| y ys] eqn:E;
    [reflexivity |].
  assert (Hin : forall z, In z (y :: ys) -> In z l /\ is_null z = false).
  { intros z Hz. rewrite <- E in Hz. apply filter_In in Hz as [Hz Hn].
    split; [exact Hz | apply negb_true_iff, Hn]. }
  apply orb_true_iff in H as [H | H].
  - rewrite forallb_forall in H.
    destruct (Hin y (or_introl eq_refl)) as [Hy Hn].
    rewrite (H y Hy) in Hn; discriminate.
  - destruct l as [| x xs]; [discriminate E |].
    rewrite forallb_forall in H. apply forallb_forall. intros z Hz.
    apply (comparable_trans x); apply H, Hin; [left; reflexivity | right; exact Hz].
Qed.

(** * The stress normalizer and the news normalizer without [published] *)

Section StressAndNews.

Variable to_datetime : list cell -> nat -> coerced.
Variable str_scalar : cell -> string.
Variable tie_rank : list cell -> nat -> nat.

Lemma getcol_has (c : string) (df : DataFrame) :
  has_column c df = true -> getcol c df = Ok (map (row_get c) (records df)).
Proof. unfold getcol; intros ->; reflexivity. Qed.

Lemma getcol_missing (c : string) (df : DataFrame) :
  has_column c df = false -> getcol c df = Raise (KeyError c).
Proof. unfold getcol; intros ->; reflexivity. Qed.

(** C10: a non-empty news table without a [published] column makes the
    news normalizer raise: the date-range step reads the absent column
    (unless sorting the feed names has raised before it); the empty
    document is returned for a table without rows. *)
Theorem rss_without_published_raises
  (now : Z) (name : string) (df : DataFrame) (config : pydict) :
  (records df <> [] -> has_column "published" df = false ->
   exists e,
     prepare_rss_dataset to_datetime tie_rank now name df config = Raise e
     /\ (e = KeyError "published"
         \/ exists col, getcol "feed_name" (drop_internal df) = Ok col
                        /\ py_sorted (unique col) = Raise e))
  /\
  (records df = [] ->
   exists doc,
     prepare_rss_dataset to_datetime tie_rank now name df config = Ok doc
     /\ zero_record_document "feeds" "articles_by_feed" doc).
Proof.
  split.
  - intros Hrows Hpub. unfold prepare_rss_dataset.
    assert (Hlen : (len (drop_internal df) =? 0)%nat = false).
    { rewrite len_drop_internal. unfold len.
      destruct (records df); [contradiction | reflexivity]. }
    assert (Hpos : (0 <? len (drop_internal df))%nat = true).
    { apply Nat.eqb_neq in Hlen. apply Nat.ltb_lt. lia. }
    rewrite Hlen.
    rewrite (has_column_drop_internal "published" df eq_refl), Hpub.
    destruct (has_column "feed_name" (drop_internal df)) eqn:Hfeed.
    + rewrite (getcol_has _ _ Hfeed). cbn [bind].
      destruct (py_sorted (unique (map (row_get "feed_name")
                                       (records (drop_internal df))))) as [feeds | e] eqn:Es.
      * cbn [bind]. rewrite Hpos.
        rewrite (getcol_missing "published" (drop_internal df))
          by (rewrite has_column_drop_internal; [exact Hpub | reflexivity]).
        eexists; split; [reflexivity | left; reflexivity].
      * cbn [bind]. eexists; split; [reflexivity | right].
        eexists; split; [reflexivity | exact Es].
    + cbn [bind]. rewrite Hpos.
      rewrite (getcol_missing "published" (drop_internal df))
        by (rewrite has_column_drop_internal; [exact Hpub | reflexivity]).
      eexists; split; [reflexivity | left; reflexivity].
  - intros Hrows. unfold prepare_rss_dataset.
    rewrite len_drop_internal. unfold len at 1. rewrite Hrows. cbn [List.length Nat.eqb].
    eexists; split; [reflexivity |].
    unfold zero_record_document; repeat split; reflexivity.
Qed.

Lemma sort_values_by_Ok (by_ : list string) (df : DataFrame) :
  (forall c, In c by_ ->
             has_column c df = true
             /\ sortable_keys (map (row_get c) (records df)) = true) ->
  sort_values_by by_ df
  = Ok {| columns := columns df; records := isort (lex_le by_) (records df) |}.
Proof.
  intros H. unfold sort_values_by.
  destruct (find (fun c => negb (has_column c df)) by_) as [c |] eqn:E.
  - apply find_some in E as [Hin Hc].
    destruct (H c Hin) as [Hhas _]. rewrite Hhas in Hc; discriminate.
  - replace (forallb _ by_) with true; [reflexivity |].
    symmetry; apply forallb_forall. intros c Hin. apply H, Hin.
Qed.

Lemma sort_values_Ok (c : string) (ascending : bool) (df : DataFrame) :
  has_column c df = true ->
  sortable_keys (map (row_get c) (records df)) = true ->
  sort_values tie_rank c ascending df
  = Ok {| columns := columns df;
          records := nargsort tie_rank (row_get c) ascending (records df) |}.
Proof.
  intros Hc Hs. unfold sort_values. rewrite Hc, Hs. reflexivity.
Qed.

(** A sort by a list of labels returns when the table has the labels and
    their keys can be sorted. *)
Lemma sort_values_list_Ok (by_ : list string) (df : DataFrame) :
  (forall c, In c by_ ->
             has_column c df = true
             /\ sortable_keys (map (row_get c) (records df)) = true) ->
  exists rows,
    sort_values_list tie_rank by_ df
    = Ok {| columns := columns df; records := rows |}.
Proof.
  intros H. unfold sort_values_list.
  destruct by_ as [| c [| c' cs]].
  - eexists. apply sort_values_by_Ok, H.
  - destruct (H c (or_introl eq_refl)) as [Hc Hs].
    eexists. apply sort_values_Ok; assumption.
  - eexists. apply sort_values_by_Ok, H.
Qed.

(** C7: every document of the stress normalizer has [days] equal to 0,
    and for a table without a [date] column the bounds of the date range
    are null; the normalizer returns on every table whose sort columns can
    be sorted, a [date] column being present or not. *)
Theorem fed_stress_days_is_zero
  (now : Z) (name : string) (df : DataFrame) (config : pydict) :
  (forall doc,
     prepare_fed_stress_dataset str_scalar tie_rank now name df config = Ok doc ->
     field ["stats"; "date_range"; "days"] doc = Some (PInt 0)
     /\ (has_column "date" df = false ->
         field ["stats"; "date_range"; "min"] doc = Some PNone
         /\ field ["stats"; "date_range"; "max"] doc = Some PNone))
  /\
  (stress_scenario_table df ->
   exists doc,
     prepare_fed_stress_dataset str_scalar tie_rank now name df config = Ok doc).
Proof.
  split.
  - intros doc H. unfold prepare_fed_stress_dataset in H.
    apply bind_Ok_inv in H as (years & _ & H).
    apply bind_Ok_inv in H as (scenarios & _ & H).
    apply bind_Ok_inv in H as (bounds & Hb & H).
    apply bind_Ok_inv in H as (sample_df & _ & H).
    injection H as <-. split; [reflexivity |].
    intros Hdate.
    rewrite (has_column_drop_internal "date" df eq_refl), Hdate in Hb.
    injection Hb as <-. split; reflexivity.
  - intros (Hyear & Htable & Hdate). unfold prepare_fed_stress_dataset.
    set (df' := drop_internal df).
    assert (Hcol : forall c, public_label c ->
                             map (row_get c) (records df')
                             = map (row_get c) (records df))
      by (intros; apply column_drop_internal; assumption).
    assert (Hhas : forall c, public_label c ->
                             has_column c df' = has_column c df)
      by (intros; apply has_column_drop_internal; assumption).
    assert (Ey : exists years,
               (if has_column "year" df'
                then let* col := getcol "year" df' in py_sorted (unique col)
                else Ok []) = Ok years).
    { destruct (has_column "year" df') eqn:E; [| eexists; reflexivity].
      rewrite (getcol_has _ _ E); cbn [bind]. apply py_sorted_unique_sortable.
      rewrite Hcol by reflexivity. apply Hyear. rewrite <- Hhas by reflexivity.
      exact E. }
    destruct Ey as (years & ->). cbn [bind].
    assert (Et : exists scenarios,
               (if has_column "table" df'
                then let* col := getcol "table" df' in py_sorted (unique col)
                else Ok []) = Ok scenarios).
    { destruct (has_column "table" df') eqn:E; [| eexists; reflexivity].
      rewrite (getcol_has _ _ E); cbn [bind]. apply py_sorted_unique_sortable.
      rewrite Hcol by reflexivity. apply Htable. rewrite <- Hhas by reflexivity.
      exact E. }
    destruct Et as (scenarios & ->). cbn [bind].
    assert (Ep : exists bounds,
               (if has_column "date" df'
                then let* col := getcol "date" df' in
                     let* periods := py_sorted (unique (map (astype_str str_scalar) col)) in
                     Ok (hd_error periods, hd_error (rev periods))
                else Ok (None, None)) = Ok bounds).
    { destruct (has_column "date" df') eqn:E; [| eexists; reflexivity].
      rewrite (getcol_has _ _ E); cbn [bind].
      rewrite py_sorted_comparable; [eexists; reflexivity |].
      intros a b Ha Hb. apply unique_In in Ha, Hb.
      apply in_map_iff in Ha as (a0 & <- & _).
      apply in_map_iff in Hb as (b0 & <- & _).
      destruct a0, b0; reflexivity. }
    destruct Ep as (bounds & ->). cbn [bind].
    set (sort_cols := (if has_column "year" df' then ["year"] else [])
                        ++ (if has_column "table" df' then ["table"] else [])
                        ++ (if has_column "date" df' then ["date"] else [])).
    assert (Es : exists sample_df,
               match sort_cols with
               | [] => Ok df'
               | _ :: _ => sort_values_list tie_rank sort_cols df'
               end = Ok sample_df).
    { assert (Hs : exists rows,
                 sort_values_list tie_rank sort_cols df'
                 = Ok {| columns := columns df'; records := rows |}).
      { apply sort_values_list_Ok. intros c Hc. unfold sort_cols in Hc.
        apply in_app_or in Hc as [Hc | Hc]; [| apply in_app_or in Hc as [Hc | Hc]].
        - destruct (has_column "year" df') eqn:E; [| destruct Hc].
          destruct Hc as [<- | []]. split; [exact E |].
          rewrite Hcol by reflexivity. apply sortable_keys_of_sortable_column.
          apply Hyear. rewrite <- Hhas by reflexivity. exact E.
        - destruct (has_column "table" df') eqn:E; [| destruct Hc].
          destruct Hc as [<- | []]. split; [exact E |].
          rewrite Hcol by reflexivity. apply sortable_keys_of_sortable_column.
          apply Htable. rewrite <- Hhas by reflexivity. exact E.
        - destruct (has_column "date" df') eqn:E; [| destruct Hc].
          destruct Hc as [<- | []]. split; [exact E |].
          rewrite Hcol by reflexivity.
          apply Hdate. rewrite <- Hhas by reflexivity. exact E. }
      destruct Hs as (rows & Hs).
      destruct sort_cols; eexists; [reflexivity | exact Hs]. }
    destruct Es as (sample_df & ->). cbn [bind].
    eexists; reflexivity.
Qed.

End StressAndNews.

Lemma rss_without_published_witness :
  (exists e,
     prepare_rss_dataset to_datetime_plain ties_in_order 0 "fed_news" news_no_published []
     = Raise e)
  /\ (exists doc,
        prepare_rss_dataset to_datetime_plain ties_in_order 0 "fed_news" empty_table []
        = Ok doc).
Proof.
  split.
  - destruct (rss_without_published_raises
                to_datetime_plain ties_in_order 0 "fed_news" news_no_published [])
      as [H _].
    destruct H as (e & He & _);
      [discriminate | reflexivity | exists e; exact He].
  - destruct (rss_without_published_raises
                to_datetime_plain ties_in_order 0 "fed_news" empty_table [])
      as [_ H].
    destruct H as (doc & Hd & _); [reflexivity | exists doc; exact Hd].
Defined.

Lemma fed_stress_witness :
  exists doc,
    prepare_fed_stress_dataset (fun _ => "") ties_in_order 0 "stress" stress_no_date [] = Ok doc
    /\ field ["stats"; "date_range"; "days"] doc = Some (PInt 0)
    /\ field ["stats"; "date_range"; "min"] doc = Some PNone
    /\ field ["stats"; "date_range"; "max"] doc = Some PNone.
Proof.
  destruct (fed_stress_days_is_zero
              (fun _ => "") ties_in_order 0 "stress" stress_no_date [])
    as [Hp Ht].
  destruct Ht as (doc & Hd).
  - repeat split; intros; reflexivity.
  - exists doc. destruct (Hp doc Hd) as (H0 & Hn).
    destruct (Hn eq_refl) as (Hmin & Hmax). repeat split; assumption.
Defined.

(** * The output contract of the normalizers *)

Section Contract.

Variable to_datetime : list cell -> nat -> coerced.
Variable str_scalar : cell -> string.
Variable tie_rank : list cell -> nat -> nat.

Lemma prepare_ohlcv_canonical now name df config doc :
  prepare_ohlcv_dataset to_datetime now name df config = Ok doc ->
  canonical_document doc.
Proof.
  unfold prepare_ohlcv_dataset. intros H.
  destruct (_ || _ || _) in H.
  - injection H as <-. canonical.
  - bind_inv H. injection H as <-. canonical.
Qed.

Lemma prepare_fred_canonical now name df config data_type doc :
  prepare_fred_dataset to_datetime tie_rank now name df config data_type = Ok doc ->
  canonical_document doc.
Proof.
  unfold prepare_fred_dataset. intros H.
  destruct (_ || _ || _) in H.
  - injection H as <-. canonical.
  - bind_inv H. injection H as <-. canonical.
Qed.

Lemma prepare_rss_canonical now name df config doc :
  prepare_rss_dataset to_datetime tie_rank now name df config = Ok doc ->
  canonical_document doc.
Proof.
  unfold prepare_rss_dataset. intros H.
  destruct (_ =? _)%nat in H.
  - injection H as <-. canonical.
  - bind_inv H. injection H as <-. canonical.
Qed.

Lemma prepare_fed_stress_canonical now name df config doc :
  prepare_fed_stress_dataset str_scalar tie_rank now name df config = Ok doc ->
  canonical_document doc.
Proof.
  unfold prepare_fed_stress_dataset. intros H.
  bind_inv H. injection H as <-. canonical.
Qed.

(** The summary entry of a canonical document is the document without its
    [data] field. *)
Lemma summary_of_canonical (doc : pyval) :
  canonical_document doc -> summary_of doc = Ok (without_data doc).
Proof.
  intros (n & t & d & m & s & x & ->). reflexivity.
Qed.

Lemma without_data_fields (doc : pyval) :
  canonical_document doc ->
  field ["data"] (without_data doc) = None
  /\ forall k, In k summary_fields ->
               exists v, field [k] doc = Some v
                         /\ field [k] (without_data doc) = Some v.
Proof.
  intros (n & t & d & m & s & x & ->). split; [reflexivity |].
  intros k Hk. unfold summary_fields in Hk. simpl in Hk.
  destruct Hk as [<- | [<- | [<- | [<- | [<- | []]]]]];
    eexists; split; reflexivity.
Qed.

End Contract.

(** * The orchestrator *)

Section Run.

Variable to_datetime : list cell -> nat -> coerced.
Variable str_scalar : cell -> string.
Variable tie_rank : list cell -> nat -> nat.
Variable env : Environment.

Lemma normalize_canonical name df cfg doc :
  normalize to_datetime str_scalar tie_rank env name df cfg = Ok (Some doc) ->
  canonical_document doc.
Proof.
  unfold normalize. intros H.
  repeat match type of H with
         | (if ?b then _ else _) = _ => destruct b
         end;
    try discriminate H;
    apply bind_Ok_inv in H as (d & Hd & H); injection H as <-.
  - eapply prepare_ohlcv_canonical; exact Hd.
  - eapply prepare_rss_canonical; exact Hd.
  - eapply prepare_fred_canonical; exact Hd.
  - eapply prepare_fred_canonical; exact Hd.
  - eapply prepare_fed_stress_canonical; exact Hd.
Qed.

Lemma attempt_canonical item doc :
  attempt to_datetime str_scalar tie_rank env item = Ok (Some doc) ->
  canonical_document doc.
Proof.
  unfold attempt. destruct (restricted _ _); [discriminate |].
  destruct (dict_lookup (PStr "type") (snd item)); [| discriminate].
  destruct (dict_lookup (PStr "config") (snd item)); [| discriminate].
  unfold fetch_and_normalize. intros H.
  apply bind_Ok_inv in H as ([df |] & _ & H); [| discriminate H].
  eapply normalize_canonical; exact H.
Qed.

(** One iteration appends what the dataset gives on its own and touches
    nothing else. *)
Lemma loop_body_step (st st' : run_state) (item : string * pydict) :
  loop_body to_datetime str_scalar tie_rank env st item = Ok st' ->
  well_configured item
  /\ public_files st'
     = public_files st ++ emitted_by to_datetime str_scalar tie_rank env item
  /\ all_datasets st'
     = all_datasets st
         ++ map (fun f => without_data (snd f))
                (emitted_by to_datetime str_scalar tie_rank env item)
  /\ errors st' = errors st ++ error_of to_datetime str_scalar tie_rank env item.
Proof.
  intros H.
  assert (Hc : forall doc,
             attempt to_datetime str_scalar tie_rank env item = Ok (Some doc) ->
             canonical_document doc)
    by (intros doc; apply attempt_canonical).
  revert H Hc.
  unfold loop_body, well_configured, emitted_by, error_of, attempt, dict_getitem.
  fold (restricted env (fst item)).
  destruct (dict_lookup (PStr "type") (snd item)) as [ty |]; [| discriminate].
  destruct (dict_lookup (PStr "config") (snd item)) as [cp |]; [| discriminate].
  cbn [bind]. intros H Hc. split; [split; discriminate |].
  destruct (restricted _ _).
  - injection H as <-. cbn [map]. rewrite !app_nil_r. auto.
  - injection H as <-. unfold try_dataset.
    destruct (fetch_and_normalize _ _ _ _ _ _ _)
      as [[doc |] | e] eqn:E.
    + rewrite (summary_of_canonical doc (Hc doc eq_refl)).
      cbn. rewrite app_nil_r. auto.
    + cbn. rewrite !app_nil_r. auto.
    + cbn. rewrite !app_nil_r. auto.
Qed.

Lemma loop_run (items : list (string * pydict)) (st st' : run_state) :
  foldM (loop_body to_datetime str_scalar tie_rank env) items st = Ok st' ->
  Forall well_configured items
  /\ public_files st'
     = public_files st
         ++ flat_map (emitted_by to_datetime str_scalar tie_rank env) items
  /\ all_datasets st'
     = all_datasets st
         ++ map (fun f => without_data (snd f))
                (flat_map (emitted_by to_datetime str_scalar tie_rank env) items)
  /\ errors st'
     = errors st ++ flat_map (error_of to_datetime str_scalar tie_rank env) items.
Proof.
  revert st. induction items as [| item items IH]; intros st H.
  - injection H as <-. cbn. rewrite !app_nil_r. auto.
  - cbn [foldM] in H. apply bind_Ok_inv in H as (st1 & H1 & H).
    apply loop_body_step in H1 as (Hw & Hp & Ha & He).
    apply IH in H as (Hws & Hp' & Ha' & He').
    split; [constructor; assumption |].
    cbn [flat_map]. rewrite Hp', Ha', He', Hp, Ha, He.
    rewrite map_app, <- !app_assoc. auto.
Qed.

(** The loop cannot fail on well-configured entries: nothing raised inside
    the [try] leaves it. *)
Lemma loop_total (items : list (string * pydict)) (st : run_state) :
  Forall well_configured items ->
  exists st', foldM (loop_body to_datetime str_scalar tie_rank env) items st = Ok st'.
Proof.
  intros Hw. revert st. induction Hw as [| item items [Ht Hc] _ IH]; intros st.
  - eexists; reflexivity.
  - cbn [foldM]. unfold loop_body at 1, dict_getitem.
    destruct (dict_lookup (PStr "type") (snd item)); [| contradiction].
    destruct (dict_lookup (PStr "config") (snd item)); [| contradiction].
    cbn [bind]. destruct (_ && _); cbn [bind]; apply IH.
Qed.

(** C1: on well-configured entries the run always finishes: each declared
    dataset that is not left out is attempted whatever happened to the
    ones before it, an exception of its fetch or normalization is recorded
    as the line [name: message], the summary collection is written with the
    summaries of all the others, and the exit status is 1 exactly when an
    error was recorded, 0 otherwise. *)
Theorem run_fails_at_end :
  Forall well_configured (DATASETS env) ->
  exists st status,
    main to_datetime str_scalar tie_rank env
    = Finished st (PList (all_datasets st)) status
    /\ errors st
       = flat_map (error_of to_datetime str_scalar tie_rank env) (DATASETS env)
    /\ all_datasets st
       = map (fun f => without_data (snd f))
             (flat_map (emitted_by to_datetime str_scalar tie_rank env) (DATASETS env))
    /\ (status = 1 <-> errors st <> [])
    /\ (status = 0 <-> errors st = []).
Proof.
  intros Hw. unfold main.
  destruct (loop_total (DATASETS env)
              {| public_files := []; all_datasets := []; errors := [] |} Hw)
    as (st & Hst).
  rewrite Hst. apply loop_run in Hst as (_ & _ & Ha & He). cbn in Ha, He.
  exists st. eexists. split; [reflexivity |].
  split; [exact He |]. split; [exact Ha |].
  destruct (errors st); split; split; intros; congruence || lia.
Qed.

(** C9: in a finished run the summary collection that is written holds,
    for every document handed to the publisher and in the same order, that
    document without its [data] field: the five other fields are there
    with the same values; and every dataset fetched and normalized without
    error has its document among them. *)
Theorem summary_entry_is_document_without_data
  (st : run_state) (datasets_json : pyval) (status : Z) :
  main to_datetime str_scalar tie_rank env = Finished st datasets_json status ->
  datasets_json = PList (all_datasets st)
  /\ all_datasets st = map (fun f => without_data (snd f)) (public_files st)
  /\ Forall (fun f =>
               field ["data"] (without_data (snd f)) = None
               /\ forall k, In k summary_fields ->
                            exists v,
                              field [k] (snd f) = Some v
                              /\ field [k] (without_data (snd f)) = Some v)
            (public_files st)
  /\ (forall item doc,
        In item (DATASETS env) ->
        attempt to_datetime str_scalar tie_rank env item = Ok (Some doc) ->
        In ((fst item ++ ".json")%string, doc) (public_files st)).
Proof.
  unfold main.
  destruct (foldM _ (DATASETS env) _) as [st0 | e] eqn:Hst; [| discriminate].
  intros H; injection H as <- <- _.
  apply loop_run in Hst as (_ & Hp & Ha & _). cbn in Hp, Ha.
  split; [reflexivity |]. split; [rewrite Ha, Hp; reflexivity |].
  split.
  - rewrite Hp. apply Forall_forall. intros f Hf.
    apply in_flat_map in Hf as (item & _ & Hf).
    unfold emitted_by in Hf.
    destruct (attempt to_datetime str_scalar tie_rank env item) as [[doc |] | e] eqn:E;
      [| destruct Hf | destruct Hf].
    destruct Hf as [<- | []]. cbn [snd].
    apply without_data_fields. apply (attempt_canonical item); exact E.
  - intros item doc Hin E. rewrite Hp. apply in_flat_map.
    exists item; split; [exact Hin |].
    unfold emitted_by. rewrite E. left; reflexivity.
Qed.

End Run.

(** * Converting the date column *)

Lemma combine_map_fst {A B : Type} (l : list A) (l' : list B) :
  List.length l = List.length l' -> map fst (combine l l') = l.
Proof.
  revert l'; induction l as [| x xs IH]; intros [| y ys] H;
    try discriminate H; simpl; [reflexivity |].
  f_equal. apply IH. injection H as H; exact H.
Qed.

Lemma combine_map_snd {A B : Type} (l : list A) (l' : list B) :
  List.length l = List.length l' -> map snd (combine l l') = l'.
Proof.
  revert l'; induction l as [| x xs IH]; intros [| y ys] H;
    try discriminate H; simpl; [reflexivity |].
  f_equal. apply IH. injection H as H; exact H.
Qed.

Lemma combine_map_l {A A' B : Type} (f : A -> A') (l : list A) (l' : list B) :
  combine (map f l) l' = map (fun p => (f (fst p), snd p)) (combine l l').
Proof.
  revert l'; induction l as [| x xs IH]; intros [| y ys]; simpl;
    try reflexivity.
  rewrite IH; reflexivity.
Qed.

Section Dated.

Variable to_datetime : list cell -> nat -> coerced.

Lemma outcomes_length (c : string) (rows : list row) :
  List.length (outcomes to_datetime c rows) = List.length rows.
Proof. unfold outcomes. rewrite length_map, length_seq. reflexivity. Qed.

Lemma outcomes_ext (c : string) (rows1 rows2 : list row) :
  map (row_get c) rows1 = map (row_get c) rows2 ->
  outcomes to_datetime c rows1 = outcomes to_datetime c rows2.
Proof.
  intros H. unfold outcomes. rewrite H.
  rewrite <- (length_map (row_get c) rows1), H, length_map. reflexivity.
Qed.

Lemma dated_fst (c : string) (rows : list row) :
  map fst (dated to_datetime c rows) = rows.
Proof. apply combine_map_fst. symmetry; apply outcomes_length. Qed.

Lemma dated_snd (c : string) (rows : list row) :
  map snd (dated to_datetime c rows) = outcomes to_datetime c rows.
Proof. apply combine_map_snd. symmetry; apply outcomes_length. Qed.

(** Without an unparseable cell the raising conversion is the coercing
    one. *)
Lemma assign_datetime_Ok (c : string) (df : DataFrame) :
  has_column c df = true ->
  Forall (fun o => o <> Unparseable) (outcomes to_datetime c (records df)) ->
  assign_datetime to_datetime c df = Ok (assign_datetime_coerce to_datetime c df).
Proof.
  intros Hc Ho. unfold assign_datetime, assign_datetime_coerce.
  rewrite (getcol_has _ _ Hc). cbn [bind].
  rewrite (mapM_Ok_map _ (set_datetime_coerce c)); [reflexivity |].
  apply Forall_forall. intros [r o] Hin.
  apply in_combine_r in Hin. rewrite Forall_forall in Ho.
  specialize (Ho o Hin). unfold set_datetime, set_datetime_coerce; cbn [fst snd].
  destruct o; [reflexivity | reflexivity | contradiction].
Qed.

Lemma set_datetime_coerce_row_set (c : string) (ro : row * coerced) :
  set_datetime_coerce c ro = row_set c (stamp_cell (snd ro)) (fst ro).
Proof. destruct ro as [r [t | |]]; reflexivity. Qed.

(** The frame after dropping the internal columns and converting the
    column [c], in terms of the rows of the table. *)
Lemma working_rows (c : string) (df : DataFrame) :
  public_label c ->
  records (assign_datetime_coerce to_datetime c (drop_internal df))
  = map (working_row c) (dated to_datetime c (records df)).
Proof.
  intros Hc. unfold assign_datetime_coerce; cbn [records].
  rewrite (outcomes_ext c _ (records df)) by (apply column_drop_internal, Hc).
  unfold dated, drop_internal; cbn [records].
  rewrite combine_map_l, map_map. apply map_ext. intros [r o].
  rewrite set_datetime_coerce_row_set. reflexivity.
Qed.

Lemma working_row_date (c : string) (ro : row * coerced) :
  row_get c (working_row c ro) = stamp_cell (snd ro).
Proof. apply row_get_set_same. Qed.

Lemma working_row_other (c d : string) (ro : row * coerced) :
  c <> d -> public_label d ->
  row_get d (working_row c ro) = row_get d (fst ro).
Proof.
  intros Hcd Hd. unfold working_row. rewrite row_get_set_other by exact Hcd.
  apply (row_get_filter (fun k => negb (startswith_underscore k))).
  unfold public_label in Hd; rewrite Hd; reflexivity.
Qed.

(** A column other than the converted one, read off the working rows. *)
Lemma working_column (c d : string) (pairs : list (row * coerced)) :
  c <> d -> public_label d ->
  map (row_get d) (map (working_row c) pairs) = map (row_get d) (map fst pairs).
Proof.
  intros Hcd Hd. rewrite !map_map. apply map_ext. intros ro.
  apply working_row_other; assumption.
Qed.

Lemma rows_where_working (c d : string) (v : cell) (pairs : list (row * coerced)) :
  c <> d -> public_label d ->
  rows_where d v (map (working_row c) pairs)
  = map (working_row c)
        (filter (fun ro => series_eq (row_get d (fst ro)) v) pairs).
Proof.
  intros Hcd Hd. unfold rows_where.
  induction pairs as [| ro pairs IH]; cbn [map filter]; [reflexivity |].
  rewrite (working_row_other c d ro Hcd Hd).
  destruct (series_eq (row_get d (fst ro)) v); cbn [map]; rewrite IH;
    reflexivity.
Qed.

End Dated.

(** * Numeric columns *)

Lemma numeric_values_Ok (l : list cell) :
  forallb numeric_or_null l = true -> exists qs, numeric_values l = Ok qs.
Proof.
  induction l as [| c cs IH]; simpl; intros H; [eexists; reflexivity |].
  apply andb_true_iff in H as [Hc Hcs]. destruct (IH Hcs) as (qs & Hqs).
  destruct c; try discriminate Hc; rewrite Hqs; eexists; reflexivity.
Qed.

(** * String keys *)

Lemma cell_eqb_str (s : string) (c : cell) :
  cell_eqb (CStr s) c = true <-> c = CStr s.
Proof.
  destruct c; simpl; split; intros H; try discriminate H.
  - apply String.eqb_eq in H; subst; reflexivity.
  - injection H as ->. apply String.eqb_refl.
Qed.

Lemma series_eq_str (c : cell) (s : string) :
  series_eq c (CStr s)
  = match c with CStr t => String.eqb t s | _ => false end.
Proof. destruct c; reflexivity. Qed.

Lemma unique_str_complete (l : list cell) (s : string) :
  In (CStr s) l -> In (CStr s) (unique l).
Proof.
  induction l as [| x xs IH]; simpl; [tauto |].
  intros [-> | H]; [left; reflexivity |].
  destruct (cell_eqb x (CStr s)) eqn:E.
  - left. destruct x; simpl in E; try discriminate E.
    apply String.eqb_eq in E; subst; reflexivity.
  - right. apply filter_In. split; [apply IH, H | rewrite E; reflexivity].
Qed.

(** The values of [unique] are pairwise different. *)
Lemma unique_distinct (l : list cell) :
  ForallOrdPairs (fun a b => cell_eqb a b = false) (unique l).
Proof.
  induction l as [| x xs IH]; simpl; [constructor |].
  constructor.
  - apply Forall_forall. intros y Hy. apply filter_In in Hy as [_ Hy].
    apply negb_true_iff, Hy.
  - clear - IH. induction IH as [| y ys Hy _ IH']; simpl; [constructor |].
    destruct (negb (cell_eqb x y)); [| exact IH'].
    constructor; [| exact IH'].
    apply Forall_forall. intros z Hz. apply filter_In in Hz as [Hz _].
    rewrite Forall_forall in Hy. apply Hy, Hz.
Qed.

Lemma string_leb_trans (a b c : string) :
  String.leb a b = true -> String.leb b c = true -> String.leb a c = true.
Proof.
  unfold String.leb. intros Hab Hbc.
  destruct (String.compare a b) eqn:Eab; try discriminate Hab;
    destruct (String.compare b c) eqn:Ebc; try discriminate Hbc.
  - apply String.compare_eq_iff in Eab; subst. rewrite Ebc; reflexivity.
  - apply String.compare_eq_iff in Eab; subst. rewrite Ebc; reflexivity.
  - apply String.compare_eq_iff in Ebc; subst. rewrite Eab; reflexivity.
  - apply OrderedTypeEx.String_as_OT.cmp_lt in Eab, Ebc.
    pose proof (OrderedTypeEx.String_as_OT.lt_trans _ _ _ Eab Ebc) as H.
    apply OrderedTypeEx.String_as_OT.cmp_lt in H.
    unfold OrderedTypeEx.String_as_OT.cmp in H. rewrite H; reflexivity.
Qed.

Lemma string_leb_ltb (a b : string) :
  String.leb a b = true -> a <> b -> String.ltb a b = true.
Proof.
  unfold String.leb, String.ltb. intros H Hne.
  destruct (String.compare a b) eqn:E; try discriminate H; [| reflexivity].
  apply String.compare_eq_iff in E; contradiction.
Qed.

(** * Filling a dict in a loop *)

Lemma dict_lookup_app_None (k : pyval) (d1 d2 : pydict) :
  dict_lookup k d1 = None -> dict_lookup k (d1 ++ d2) = dict_lookup k d2.
Proof.
  induction d1 as [| [k' v] d1 IH]; simpl; [reflexivity |].
  destruct (key_eqb k' k); [discriminate | exact IH].
Qed.

Lemma dict_set_fresh (k v : pyval) (d : pydict) :
  dict_lookup k d = None -> dict_set k v d = d ++ [(k, v)].
Proof.
  induction d as [| [k' v'] d IH]; simpl; [reflexivity |].
  destruct (key_eqb k' k); [discriminate |].
  intros H. rewrite (IH H). reflexivity.
Qed.

(** A loop [for k in keys: stats[k] = f(k)] over pairwise different keys
    that are not yet in the dict appends one entry per key, in the order
    of the keys. *)
Lemma foldM_dict_set (f : cell -> result pyval) (keys : list cell) (acc : pydict) :
  ForallOrdPairs (fun a b => cell_eqb a b = false) keys ->
  (forall k, In k keys -> dict_lookup (PCell k) acc = None) ->
  (forall k, In k keys -> exists e, f k = Ok e) ->
  exists entries,
    foldM (fun stats k => let* e := f k in Ok (dict_set (PCell k) e stats))
          keys acc = Ok (acc ++ entries)
    /\ Forall2 (fun k kv => fst kv = PCell k /\ f k = Ok (snd kv)) keys entries.
Proof.
  intros Hd. revert acc. induction Hd as [| k keys Hk Hd IH]; intros acc Hfresh Hf.
  - exists []. rewrite app_nil_r. split; [reflexivity | constructor].
  - destruct (Hf k (or_introl eq_refl)) as (e & He).
    cbn [foldM]. rewrite He. cbn [bind].
    rewrite (dict_set_fresh _ _ _ (Hfresh k (or_introl eq_refl))).
    destruct (IH (acc ++ [(PCell k, e)])) as (entries & Hfold & Hall).
    + intros k' Hk'. rewrite dict_lookup_app_None
        by (apply Hfresh; right; exact Hk').
      simpl. rewrite Forall_forall in Hk. rewrite (Hk k' Hk'). reflexivity.
    + intros k' Hk'. apply Hf; right; exact Hk'.
    + exists ((PCell k, e) :: entries). rewrite Hfold, <- app_assoc.
      split; [reflexivity |]. constructor; [split; [reflexivity | exact He] |].
      exact Hall.
Qed.

Lemma cell_eqb_sym (a b : cell) : cell_eqb a b = cell_eqb b a.
Proof.
  destruct a, b; simpl; try reflexivity.
  - apply String.eqb_sym.
  - apply eq_true_iff_eq. rewrite !Qeq_bool_iff. split; intros H; symmetry; exact H.
  - apply eq_true_iff_eq. rewrite !Qeq_bool_iff. split; intros H; symmetry; exact H.
  - apply eq_true_iff_eq. rewrite !Qeq_bool_iff. split; intros H; symmetry; exact H.
  - apply eq_true_iff_eq. rewrite !Qeq_bool_iff. split; intros H; symmetry; exact H.
  - apply Z.eqb_sym.
Qed.

(** Sorting keeps pairwise different values pairwise different. *)
Lemma insert_le_distinct (le : cell -> cell -> bool) (x : cell) (l : list cell) :
  Forall (fun y => cell_eqb x y = false) l ->
  ForallOrdPairs (fun a b => cell_eqb a b = false) l ->
  ForallOrdPairs (fun a b => cell_eqb a b = false) (insert_le le x l).
Proof.
  intros Hx Hl. induction Hl as [| y ys Hy Hys IH]; simpl.
  - constructor; constructor.
  - inversion Hx as [| ? ? Hxy Hxys]; subst.
    destruct (le x y).
    + constructor; [constructor; assumption |]. constructor; assumption.
    + constructor; [| apply IH; exact Hxys].
      apply Forall_forall. intros z Hz.
      apply (Permutation_in _ (insert_le_perm le x ys)) in Hz.
      destruct Hz as [<- | Hz].
      * rewrite cell_eqb_sym; exact Hxy.
      * rewrite Forall_forall in Hy; apply Hy, Hz.
Qed.

Lemma isort_distinct (le : cell -> cell -> bool) (l : list cell) :
  ForallOrdPairs (fun a b => cell_eqb a b = false) l ->
  ForallOrdPairs (fun a b => cell_eqb a b = false) (isort le l).
Proof.
  induction 1 as [| x xs Hx Hxs IH]; simpl; [constructor |].
  apply insert_le_distinct; [| exact IH].
  rewrite Forall_forall in Hx |- *. intros z Hz. apply Hx.
  apply isort_In in Hz. exact Hz.
Qed.

Lemma sortable_keys_pairwise (l : list cell) :
  (forall a b, In a l -> In b l -> is_null a = false -> is_null b = false ->
               comparable a b = true) ->
  sortable_keys l = true.
Proof.
  intros H. unfold sortable_keys.
  destruct (filter (fun c => negb (is_null c)) l) as [| x xs] eqn:E;
    [reflexivity |].
  assert (Hin : forall z, In z (x :: xs) -> In z l /\ is_null z = false).
  { intros z Hz. rewrite <- E in Hz. apply filter_In in Hz as [Hz Hn].
    split; [exact Hz | apply negb_true_iff, Hn]. }
  apply forallb_forall. intros z Hz.
  destruct (Hin x (or_introl eq_refl)), (Hin z (or_intror Hz)). apply H; assumption.
Qed.

Lemma forallb_filter {A : Type} (p q : A -> bool) (l : list A) :
  forallb p l = true -> forallb p (filter q l) = true.
Proof.
  rewrite !forallb_forall. intros H x Hx. apply filter_In in Hx as [Hx _]. auto.
Qed.

Lemma forallb_map {A B : Type} (p : B -> bool) (f : A -> B) (l : list A) :
  forallb p (map f l) = forallb (fun x => p (f x)) l.
Proof. induction l as [| x xs IH]; simpl; [| rewrite IH]; reflexivity. Qed.

(** * The price normalizer on a well-formed table *)

Lemma has_column_same_columns (c : string) (df : DataFrame) (rows : list row) :
  has_column c {| columns := columns df; records := rows |} = has_column c df.
Proof. reflexivity. Qed.

Lemma getcol_rows (c : string) (df : DataFrame) (rows : list row) :
  has_column c df = true ->
  getcol c {| columns := columns df; records := rows |}
  = Ok (map (row_get c) rows).
Proof. intros H. unfold getcol. rewrite has_column_same_columns, H. reflexivity. Qed.

Lemma numeric_column_of_group (c d : string) (v : cell) (rows : list row) :
  forallb numeric_or_null (map (row_get c) rows) = true ->
  exists qs, numeric_values (map (row_get c) (rows_where d v rows)) = Ok qs.
Proof.
  intros H. apply numeric_values_Ok.
  rewrite forallb_map in H |- *. apply forallb_filter, H.
Qed.

(** The per-symbol statistics are defined on a frame with numeric [close]
    and [volume] columns. *)
Lemma ohlcv_symbol_stats_Ok (wf : DataFrame) (symbol : cell) :
  has_column "date" wf = true ->
  has_column "close" wf = true ->
  has_column "volume" wf = true ->
  forallb numeric_or_null (map (row_get "close") (records wf)) = true ->
  forallb numeric_or_null (map (row_get "volume") (records wf)) = true ->
  exists entry, ohlcv_symbol_stats wf symbol = Ok entry.
Proof.
  intros Hd Hc Hv Hnc Hnv. unfold ohlcv_symbol_stats.
  rewrite !getcol_rows by assumption. cbn [bind].
  destruct (numeric_column_of_group "close" "symbol" symbol _ Hnc) as (qs & Hqs).
  destruct (numeric_column_of_group "volume" "symbol" symbol _ Hnv) as (vs & Hvs).
  unfold series_mean, series_min, series_max, series_std, series_sum.
  rewrite Hqs, Hvs. cbn [bind].
  destruct (int_values _);
    destruct (1 <? _)%nat; cbn [bind]; eexists; reflexivity.
Qed.

(** What an entry of the per-symbol statistics holds. *)
Lemma ohlcv_symbol_stats_inv (wf : DataFrame) (symbol : cell) (entry : pyval) :
  ohlcv_symbol_stats wf symbol = Ok entry ->
  let rows := rows_where "symbol" symbol (records wf) in
  let close := map (row_get "close") rows in
  let volume := map (row_get "volume") rows in
  exists dmin dmax mean mn mx sd total,
    series_mean close = Ok mean
    /\ series_min close = Ok mn
    /\ series_max close = Ok mx
    /\ (if (1 <? List.length rows)%nat
        then exists s, series_std close = Ok s /\ sd = PFloat (round4 s)
        else sd = PInt 0)
    /\ series_sum volume = Ok total
    /\ entry = PDict [
         (PStr "count", PInt (Z.of_nat (List.length rows)));
         (PStr "date_min", dmin);
         (PStr "date_max", dmax);
         (PStr "close_mean", PFloat (round4 mean));
         (PStr "close_min", PFloat (round4 mn));
         (PStr "close_max", PFloat (round4 mx));
         (PStr "close_std", sd);
         (PStr "volume_total", PInt (int_of_Q total))
       ].
Proof.
  unfold ohlcv_symbol_stats. intros H.
  apply bind_Ok_inv in H as (dates & _ & H).
  apply bind_Ok_inv in H as (close & Hclose & H).
  apply bind_Ok_inv in H as (mean & Hmean & H).
  apply bind_Ok_inv in H as (mn & Hmn & H).
  apply bind_Ok_inv in H as (mx & Hmx & H).
  apply bind_Ok_inv in H as (sd & Hsd & H).
  apply bind_Ok_inv in H as (volume & Hvolume & H).
  apply bind_Ok_inv in H as (total & Htotal & H).
  injection H as <-.
  unfold getcol in Hclose, Hvolume. cbn [records] in Hclose, Hvolume.
  destruct (has_column "close" _); [| discriminate Hclose].
  destruct (has_column "volume" _); [| discriminate Hvolume].
  injection Hclose as <-. injection Hvolume as <-.
  do 7 eexists. repeat (split; [eassumption |]).
  split; [| split; [eassumption | reflexivity]].
  unfold len in Hsd; cbn [records] in Hsd.
  destruct (1 <? _)%nat.
  - apply bind_Ok_inv in Hsd as (s & Hs & Hsd). injection Hsd as <-.
    exists s; split; [exact Hs | reflexivity].
  - injection Hsd as <-. reflexivity.
Qed.

Section Price.

Variable to_datetime : list cell -> nat -> coerced.

(** The keys: the distinct symbols of the table, sorted. *)
Lemma symbols_sorted (rows : list row) :
  forallb (fun r => is_str (row_get "symbol" r)) rows = true ->
  py_sorted (unique (map (row_get "symbol") rows))
  = Ok (isort cell_le (unique (map (row_get "symbol") rows))).
Proof.
  intros H. apply py_sorted_comparable. intros a b Ha Hb.
  apply unique_In, in_map_iff in Ha as (ra & <- & Hra).
  apply unique_In, in_map_iff in Hb as (rb & <- & Hrb).
  rewrite forallb_forall in H.
  pose proof (H ra Hra) as Ea. pose proof (H rb Hrb) as Eb.
  destruct (row_get "symbol" ra), (row_get "symbol" rb);
    try discriminate Ea; try discriminate Eb; reflexivity.
Qed.

Lemma stamp_cell_comparable (a b : coerced) :
  is_null (stamp_cell a) = false -> is_null (stamp_cell b) = false ->
  comparable (stamp_cell a) (stamp_cell b) = true.
Proof. destruct a, b; simpl; intros; congruence || reflexivity. Qed.

Lemma price_table_cells (df : DataFrame) (c : string) (p : cell -> bool) :
  forallb (fun r => is_str (row_get "symbol" r)
                    && numeric_or_null (row_get "close" r)
                    && numeric_or_null (row_get "volume" r))
          (records df) = true ->
  (forall r, is_str (row_get "symbol" r) && numeric_or_null (row_get "close" r)
             && numeric_or_null (row_get "volume" r) = true ->
             p (row_get c r) = true) ->
  forallb p (map (row_get c) (records df)) = true.
Proof.
  intros H Hp. rewrite forallb_map. rewrite forallb_forall in H |- *.
  intros r Hr. apply Hp, H, Hr.
Qed.

(** On a well-formed price table the normalizer returns a document whose
    [by_symbol] has one entry per distinct symbol, in sorted order, each
    computed by [ohlcv_symbol_stats] on the working rows. *)
Lemma prepare_ohlcv_structure
  (now : Z) (name : string) (df : DataFrame) (config : pydict) :
  price_table to_datetime df ->
  exists doc stats,
    prepare_ohlcv_dataset to_datetime now name df config = Ok doc
    /\ field ["stats"; "by_symbol"] doc = Some (PDict stats)
    /\ Forall2 (fun k kv =>
                  fst kv = PCell k
                  /\ ohlcv_symbol_stats
                       {| columns := columns (drop_internal df);
                          records := map (working_row "date")
                                         (dated to_datetime "date" (records df)) |}
                       k = Ok (snd kv))
               (isort cell_le (unique (map (row_get "symbol") (records df))))
               stats.
Proof.
  intros (Hrows & Hcols & Hcells & Hdates).
  cbn [forallb] in Hcols.
  repeat (apply andb_true_iff in Hcols as [?Hc Hcols]).
  assert (Hhas : forall c, public_label c -> has_column c df = true ->
                           has_column c (drop_internal df) = true)
    by (intros c Hp Hc'; rewrite has_column_drop_internal; assumption).
  unfold prepare_ohlcv_dataset.
  set (df' := drop_internal df).
  replace ((len df' =? 0)%nat || negb (has_column "date" df')
           || negb (has_column "symbol" df')) with false.
  2:{ unfold df'. rewrite len_drop_internal, !Hhas by (assumption || reflexivity).
      unfold len. destruct (records df); [contradiction | reflexivity]. }
  rewrite assign_datetime_Ok.
  2:{ apply Hhas; [reflexivity | assumption]. }
  2:{ unfold df'. rewrite (outcomes_ext _ _ _ (records df))
        by (apply column_drop_internal; reflexivity). exact Hdates. }
  cbn [bind].
  set (df1 := assign_datetime_coerce to_datetime "date" df').
  assert (Hrows1 : records df1
                   = map (working_row "date")
                         (dated to_datetime "date" (records df)))
    by (apply working_rows; reflexivity).
  assert (Hdf1 : df1 = {| columns := columns df';
                          records := map (working_row "date")
                                         (dated to_datetime "date" (records df)) |}).
  { rewrite <- Hrows1. reflexivity. }
  assert (Hcol1 : forall d, "date" <> d -> public_label d ->
                            map (row_get d) (records df1)
                            = map (row_get d) (records df)).
  { intros d Hd Hp. rewrite Hrows1, working_column by assumption.
    rewrite dated_fst. reflexivity. }
  assert (Hhas1 : forall c, public_label c -> has_column c df = true ->
                            has_column c df1 = true)
    by (intros c Hp Hc'; apply (Hhas c Hp Hc')).
  rewrite (getcol_has "symbol" df1) by (apply Hhas1; [reflexivity | assumption]).
  cbn [bind]. rewrite Hcol1 by (discriminate || reflexivity).
  rewrite symbols_sorted.
  2:{ rewrite forallb_forall in Hcells |- *. intros r Hr.
      specialize (Hcells r Hr).
      apply andb_true_iff in Hcells as [Hcells _].
      apply andb_true_iff in Hcells as [Hcells _]. exact Hcells. }
  cbn [bind].
  destruct (foldM_dict_set (ohlcv_symbol_stats df1)
              (isort cell_le (unique (map (row_get "symbol") (records df)))) [])
    as (stats & Hfold & Hstats).
  { apply isort_distinct, unique_distinct. }
  { reflexivity. }
  { intros k _. apply ohlcv_symbol_stats_Ok.
    - apply Hhas1; [reflexivity | assumption].
    - apply Hhas1; [reflexivity | assumption].
    - apply Hhas1; [reflexivity | assumption].
    - rewrite Hcol1 by (discriminate || reflexivity).
      apply (price_table_cells df "close" numeric_or_null Hcells).
      intros r Hr. apply andb_true_iff in Hr as [Hr _].
      apply andb_true_iff in Hr as [_ Hr]. exact Hr.
    - rewrite Hcol1 by (discriminate || reflexivity).
      apply (price_table_cells df "volume" numeric_or_null Hcells).
      intros r Hr. apply andb_true_iff in Hr as [_ Hr]. exact Hr. }
  rewrite Hfold. cbn [bind app].
  rewrite (getcol_has "date" df1) by (apply Hhas1; [reflexivity | assumption]).
  cbn [bind].
  rewrite (sort_values_by_Ok ["symbol"; "date"] df1).
  2:{ intros c [<- | [<- | []]].
      - split; [apply Hhas1; [reflexivity | assumption] |].
        rewrite Hcol1 by (discriminate || reflexivity).
        apply sortable_keys_pairwise. intros a b Ha Hb _ _.
        apply in_map_iff in Ha as (ra & <- & Hra).
        apply in_map_iff in Hb as (rb & <- & Hrb).
        rewrite forallb_forall in Hcells.
        pose proof (Hcells ra Hra) as Ea. pose proof (Hcells rb Hrb) as Eb.
        destruct (row_get "symbol" ra), (row_get "symbol" rb);
          try discriminate Ea; try discriminate Eb; reflexivity.
      - split; [apply Hhas1; [reflexivity | assumption] |].
        apply sortable_keys_pairwise. intros a b Ha Hb Hna Hnb.
        rewrite Hrows1, map_map in Ha, Hb.
        apply in_map_iff in Ha as (pa & <- & _).
        apply in_map_iff in Hb as (pb & <- & _).
        rewrite working_row_date in *.
        apply stamp_cell_comparable; assumption. }
  cbn [bind].
  unfold select.
  match goal with
  | |- context [find ?p ?l] => replace (find p l) with (@None string)
  end.
  2:{ cbn [find]. rewrite !has_column_same_columns.
      rewrite !Hhas1 by (assumption || reflexivity). reflexivity. }
  cbn [bind].
  eexists. exists stats. split; [reflexivity |]. split; [reflexivity |].
  rewrite <- Hdf1. exact Hstats.
Qed.

End Price.

(** * The keys and counts of the per-symbol statistics *)

Lemma map_filter_comm {A B : Type} (f : A -> B) (q : B -> bool) (l : list A) :
  map f (filter (fun x => q (f x)) l) = filter q (map f l).
Proof.
  induction l as [| x xs IH]; simpl; [reflexivity |].
  destruct (q (f x)); simpl; rewrite IH; reflexivity.
Qed.

Lemma strings_of_map (l : list cell) :
  forallb is_str l = true -> map CStr (strings_of l) = l.
Proof.
  induction l as [| c cs IH]; simpl; intros H; [reflexivity |].
  apply andb_true_iff in H as [Hc Hcs].
  destruct c; try discriminate Hc. simpl. rewrite (IH Hcs). reflexivity.
Qed.

Lemma cell_le_str_sorted (names : list string) :
  StronglySorted (fun a b => cell_le a b = true) (map CStr names) ->
  ForallOrdPairs (fun a b => cell_eqb a b = false) (map CStr names) ->
  StronglySorted (fun a b => String.ltb a b = true) names.
Proof.
  induction names as [| s names IH]; simpl; intros Hs Hd; [constructor |].
  inversion Hs as [| ? ? Hs' Hle]; subst.
  inversion Hd as [| ? ? Hne Hd']; subst.
  constructor; [apply IH; assumption |].
  rewrite Forall_forall in Hle, Hne |- *. intros t Ht.
  assert (Hin : In (CStr t) (map CStr names)) by (apply in_map, Ht).
  apply string_leb_ltb.
  - exact (Hle _ Hin).
  - intros ->. specialize (Hne _ Hin). simpl in Hne.
    rewrite String.eqb_refl in Hne. discriminate.
Qed.

Lemma rows_carrying_nonempty (c s : string) (rows : list row) :
  rows_carrying c s rows <> [] <-> In (CStr s) (map (row_get c) rows).
Proof.
  unfold rows_carrying. split.
  - intros H. destruct (filter _ rows) as [| r rs] eqn:E; [contradiction |].
    assert (Hr : In r (filter (fun r => match row_get c r with
                                        | CStr t => String.eqb t s
                                        | _ => false
                                        end) rows))
      by (rewrite E; left; reflexivity).
    apply filter_In in Hr as [Hr Hs]. apply in_map_iff. exists r.
    split; [| exact Hr].
    destruct (row_get c r); try discriminate Hs.
    apply String.eqb_eq in Hs; subst; reflexivity.
  - intros H. apply in_map_iff in H as (r & Hs & Hr).
    assert (Hin : In r (filter (fun r => match row_get c r with
                                         | CStr t => String.eqb t s
                                         | _ => false
                                         end) rows)).
    { apply filter_In. split; [exact Hr |]. rewrite Hs. apply String.eqb_refl. }
    intros E. rewrite E in Hin. destruct Hin.
Qed.

Lemma in_map_iff_str (s : string) (names : list string) :
  In (CStr s) (map CStr names) <-> In s names.
Proof.
  split.
  - intros H. apply in_map_iff in H as (t & Ht & Hin). injection Ht as ->. exact Hin.
  - apply in_map.
Qed.

Section Groups.

Variable to_datetime : list cell -> nat -> coerced.

(** The group of a string key among the working rows is made of the rows
    of the table carrying that key, in table order. *)
Lemma group_of_key (c d s : string) (rows : list row) :
  c <> d -> public_label d ->
  exists pairs,
    rows_where d (CStr s) (map (working_row c) (dated to_datetime c rows))
    = map (working_row c) pairs
    /\ pairs = filter (fun ro => match row_get d (fst ro) with
                                 | CStr t => String.eqb t s
                                 | _ => false
                                 end) (dated to_datetime c rows)
    /\ map fst pairs = rows_carrying d s rows.
Proof.
  intros Hcd Hd. eexists. split; [| split; [reflexivity |]].
  - rewrite rows_where_working by assumption. f_equal.
    apply filter_ext. intros ro. apply series_eq_str.
  - rewrite (map_filter_comm fst (fun r => match row_get d r with
                                           | CStr t => String.eqb t s
                                           | _ => false
                                           end)).
    rewrite dated_fst. reflexivity.
Qed.

(** C3: on a non-empty price table with [date] and [symbol] columns that
    is well formed ([price_table]: the seven columns of the category,
    string symbols, dates that convert, numeric or missing [close] and
    [volume]) the normalizer returns a document whose [by_symbol] is keyed
    by the distinct symbols of the table in ascending order (the order of
    the entries, not the order of the table), and the [count] of an entry
    is the number of rows of the table carrying its symbol. *)
Theorem by_symbol_sorted_unique_with_counts
  (now : Z) (name : string) (df : DataFrame) (config : pydict) :
  price_table to_datetime df ->
  exists doc stats names,
    prepare_ohlcv_dataset to_datetime now name df config = Ok doc
    /\ field ["stats"; "by_symbol"] doc = Some (PDict stats)
    /\ map fst stats = map PStr names
    /\ StronglySorted (fun a b => String.ltb a b = true) names
    /\ (forall s, In s names <-> rows_carrying "symbol" s (records df) <> [])
    /\ (forall s entry,
          In (PStr s, entry) stats ->
          field ["count"] entry
          = Some (PInt (Z.of_nat
                          (List.length (rows_carrying "symbol" s (records df)))))).
Proof.
  intros Hpt.
  destruct (prepare_ohlcv_structure to_datetime now name df config Hpt)
    as (doc & stats & Hdoc & Hfield & Hstats).
  destruct Hpt as (_ & _ & Hcells & _).
  set (col := map (row_get "symbol") (records df)) in *.
  set (keys := isort cell_le (unique col)) in *.
  assert (Hcol : forallb is_str col = true).
  { unfold col. rewrite forallb_map. rewrite forallb_forall in Hcells |- *.
    intros r Hr. specialize (Hcells r Hr).
    apply andb_true_iff in Hcells as [Hcells _].
    apply andb_true_iff in Hcells as [Hcells _]. exact Hcells. }
  assert (Hkeys : forallb is_str keys = true).
  { rewrite forallb_forall in Hcol |- *. intros k Hk.
    apply Hcol, unique_In. apply isort_In in Hk. exact Hk. }
  exists doc, stats, (strings_of keys).
  split; [exact Hdoc |]. split; [exact Hfield |].
  pose proof (strings_of_map keys Hkeys) as Hnames.
  split; [| split; [| split]].
  - rewrite <- (map_map CStr PCell), Hnames.
    clear - Hstats. induction Hstats as [| k kv ks kvs [Hk _] _ IH]; simpl;
      [reflexivity | rewrite Hk, IH; reflexivity].
  - apply cell_le_str_sorted; rewrite Hnames.
    + apply (isort_sorted cell_le (fun c => is_str c = true)).
      * intros [] [] Ha Hb; try discriminate. apply String.leb_total.
      * intros [] [] [] Ha Hb Hc; try discriminate. apply string_leb_trans.
      * rewrite forallb_forall in Hcol. apply Forall_forall. intros k Hk.
        apply Hcol, unique_In, Hk.
    + apply isort_distinct, unique_distinct.
  - intros s. rewrite rows_carrying_nonempty. fold col.
    rewrite <- (in_map_iff_str s (strings_of keys)), Hnames.
    unfold keys. rewrite isort_In. split.
    + apply unique_In.
    + apply unique_str_complete.
  - intros s entry Hin.
    assert (He : ohlcv_symbol_stats
                   {| columns := columns (drop_internal df);
                      records := map (working_row "date")
                                     (dated to_datetime "date" (records df)) |}
                   (CStr s) = Ok entry).
    { clear - Hstats Hin. induction Hstats as [| k kv ks kvs [Hk He] _ IH];
        [destruct Hin |].
      destruct Hin as [-> | Hin]; [| apply IH, Hin].
      cbn [fst snd] in Hk, He. injection Hk as <-. exact He. }
    apply ohlcv_symbol_stats_inv in He
      as (dmin & dmax & mean & mn & mx & sd & total & _ & _ & _ & _ & _ & ->).
    cbn [records].
    destruct (group_of_key "date" "symbol" s (records df))
      as (pairs & -> & _ & <-); [discriminate | reflexivity |].
    rewrite !length_map. reflexivity.
Qed.

End Groups.

Lemma by_symbol_witness :
  price_table to_datetime_plain scenario_prices
  /\ exists doc stats names,
       prepare_ohlcv_dataset to_datetime_plain 0 "prices" scenario_prices []
       = Ok doc
       /\ field ["stats"; "by_symbol"] doc = Some (PDict stats)
       /\ map fst stats = map PStr names
       /\ StronglySorted (fun a b => String.ltb a b = true) names
       /\ (forall s, In s names
                     <-> rows_carrying "symbol" s (records scenario_prices) <> [])
       /\ (forall s entry,
             In (PStr s, entry) stats ->
             field ["count"] entry
             = Some (PInt (Z.of_nat
                             (List.length
                                (rows_carrying "symbol" s
                                               (records scenario_prices)))))).
Proof.
  assert (H : price_table to_datetime_plain scenario_prices).
  { repeat split; try reflexivity; try discriminate.
    vm_compute. repeat constructor; discriminate. }
  split; [exact H |].
  exact (by_symbol_sorted_unique_with_counts
           to_datetime_plain 0 "prices" scenario_prices [] H).
Defined.

(** * The scenario of the three closes 1, 2, 3 *)

Lemma field_app (p q : list string) (v : pyval) :
  field (p ++ q) v
  = match field p v with Some w => field q w | None => None end.
Proof.
  revert v; induction p as [| k p IH]; intros v; simpl; [reflexivity |].
  destruct v; try reflexivity.
  destruct (dict_lookup (PStr k) d); [apply IH | reflexivity].
Qed.

(** Looking a string key up in the per-key statistics. *)
Lemma lookup_entry (f : cell -> result pyval) (keys : list cell)
      (stats : pydict) (s : string) :
  Forall2 (fun k kv => fst kv = PCell k /\ f k = Ok (snd kv)) keys stats ->
  In (CStr s) keys ->
  exists entry, dict_lookup (PStr s) stats = Some entry /\ f (CStr s) = Ok entry.
Proof.
  induction 1 as [| k [k' e] keys stats [Hk He] _ IH]; intros Hin;
    [destruct Hin |].
  cbn [fst snd] in Hk, He. subst k'. cbn [dict_lookup key_eqb PStr].
  destruct (cell_eqb k (CStr s)) eqn:E.
  - exists e. split; [reflexivity |].
    rewrite cell_eqb_sym in E. apply cell_eqb_str in E. subst k. exact He.
  - destruct Hin as [-> | Hin]; [| apply IH, Hin].
    simpl in E. rewrite String.eqb_refl in E. discriminate.
Qed.



Section Scenario.

Variable to_datetime : list cell -> nat -> coerced.


End Scenario.



(** * The order of cells *)

Lemma cell_le_total (a b : cell) :
  comparable a b = true -> cell_le a b = true \/ cell_le b a = true.
Proof.
  destruct a, b; cbv [comparable cell_le cell_leb cell_num]; try discriminate;
    intros _; rewrite ?Qle_bool_iff, ?Z.leb_le.
  - apply String.leb_total.
  - destruct (Qlt_le_dec (inject_Z z) (inject_Z z0));
      [left; apply Qlt_le_weak; assumption | right; assumption].
  - destruct (Qlt_le_dec (inject_Z z) q);
      [left; apply Qlt_le_weak; assumption | right; assumption].
  - destruct (Qlt_le_dec q (inject_Z z));
      [left; apply Qlt_le_weak; assumption | right; assumption].
  - destruct (Qlt_le_dec q q0);
      [left; apply Qlt_le_weak; assumption | right; assumption].
  - lia.
Qed.

Lemma cell_le_trans (a b c : cell) :
  cell_le a b = true -> cell_le b c = true -> cell_le a c = true.
Proof.
  destruct a, b, c; cbv [cell_le cell_leb cell_num]; try discriminate;
    rewrite ?Qle_bool_iff, ?Z.leb_le;
    first [ apply string_leb_trans | apply Qle_trans | lia ].
Qed.

(** The non-missing cells of a column that can be sorted are mutually
    comparable. *)
Lemma sortable_keys_comparable (l : list cell) (a b : cell) :
  sortable_keys l = true -> In a l -> In b l ->
  is_null a = false -> is_null b = false -> comparable a b = true.
Proof.
  unfold sortable_keys. intros H Ha Hb Na Nb.
  assert (Ha' : In a (filter (fun c => negb (is_null c)) l))
    by (apply filter_In; split; [exact Ha | rewrite Na; reflexivity]).
  assert (Hb' : In b (filter (fun c => negb (is_null c)) l))
    by (apply filter_In; split; [exact Hb | rewrite Nb; reflexivity]).
  destruct (filter (fun c => negb (is_null c)) l) as [| x xs] eqn:E;
    [destruct Ha' |].
  assert (Hx : is_null x = false).
  { assert (Hin : In x (filter (fun c => negb (is_null c)) l))
      by (rewrite E; left; reflexivity).
    apply filter_In in Hin as [_ Hn]. apply negb_true_iff, Hn. }
  assert (Hc : forall y, In y (x :: xs) -> is_null y = false ->
                         comparable x y = true).
  { rewrite forallb_forall in H. intros y [<- | Hy] Ny; [| apply H, Hy].
    destruct x; try discriminate Hx; reflexivity. }
  apply (comparable_trans x); apply Hc; assumption.
Qed.

Lemma insert_le_ext {A : Type} (le le' : A -> A -> bool) (x : A) (l : list A) :
  (forall a b, le a b = le' a b) -> insert_le le x l = insert_le le' x l.
Proof.
  intros H. induction l as [| y ys IH]; [reflexivity |].
  cbn [insert_le]. rewrite H, IH. reflexivity.
Qed.

Lemma isort_ext {A : Type} (le le' : A -> A -> bool) (l : list A) :
  (forall a b, le a b = le' a b) -> isort le l = isort le' l.
Proof.
  intros H. induction l as [| x xs IH]; [reflexivity |].
  cbn [isort]. rewrite IH. apply insert_le_ext, H.
Qed.

(** * Sorted lists *)

Lemma sorted_snoc {A : Type} (R : A -> A -> Prop) (l : list A) (x : A) :
  StronglySorted R (l ++ [x]) -> Forall (fun y => R y x) l.
Proof.
  induction l as [| a l IH]; simpl; intros H; [constructor |].
  inversion H as [| ? ? Hs Ha]; subst.
  constructor; [| apply IH, Hs].
  rewrite Forall_forall in Ha. apply Ha, in_or_app. right; left; reflexivity.
Qed.

Lemma sorted_app {A : Type} (R : A -> A -> Prop) (l l' : list A) :
  StronglySorted R l -> StronglySorted R l' ->
  (forall a b, In a l -> In b l' -> R a b) ->
  StronglySorted R (l ++ l').
Proof.
  intros Hl Hl' Hc. induction Hl as [| a l Hs IH Ha]; [exact Hl' |].
  cbn [app]. constructor.
  - apply IH. intros x y Hx Hy. apply Hc; [right; exact Hx | exact Hy].
  - apply Forall_app. split; [exact Ha |].
    apply Forall_forall. intros y Hy. apply Hc; [left; reflexivity | exact Hy].
Qed.

Lemma sorted_snoc_intro {A : Type} (R : A -> A -> Prop) (l : list A) (x : A) :
  StronglySorted R l -> Forall (fun y => R y x) l ->
  StronglySorted R (l ++ [x]).
Proof.
  intros Hs Hx. apply sorted_app; [exact Hs | repeat constructor |].
  intros a b Ha [<- | []]. rewrite Forall_forall in Hx. apply Hx, Ha.
Qed.

Lemma sorted_rev {A : Type} (R : A -> A -> Prop) (l : list A) :
  StronglySorted R l -> StronglySorted (fun a b => R b a) (rev l).
Proof.
  induction 1 as [| a l Hs IH Ha]; simpl; [constructor |].
  apply sorted_snoc_intro; [exact IH |].
  apply Forall_rev. exact Ha.
Qed.

Lemma sorted_impl {A : Type} (R R' : A -> A -> Prop) (l : list A) :
  (forall a b, R a b -> R' a b) -> StronglySorted R l -> StronglySorted R' l.
Proof.
  intros H. induction 1 as [| a l Hs IH Ha]; constructor; [exact IH |].
  rewrite Forall_forall in Ha |- *. intros b Hb. apply H, Ha, Hb.
Qed.

Lemma sorted_map {A B : Type} (R : B -> B -> Prop) (f : A -> B) (l : list A) :
  StronglySorted (fun a b => R (f a) (f b)) l -> StronglySorted R (map f l).
Proof.
  induction 1 as [| a l Hs IH Ha]; cbn [map]; constructor; [exact IH |].
  apply Forall_map. exact Ha.
Qed.

Lemma filter_all {A : Type} (p : A -> bool) (l : list A) :
  forallb p l = true -> filter p l = l.
Proof.
  induction l as [| x xs IH]; simpl; intros H; [reflexivity |].
  apply andb_true_iff in H as [Hx Hxs]. rewrite Hx, (IH Hxs). reflexivity.
Qed.

Lemma filter_none {A : Type} (p : A -> bool) (l : list A) :
  forallb (fun x => negb (p x)) l = true -> filter p l = [].
Proof.
  induction l as [| x xs IH]; simpl; intros H; [reflexivity |].
  apply andb_true_iff in H as [Hx Hxs].
  apply negb_true_iff in Hx. rewrite Hx. apply IH, Hxs.
Qed.

(** The two parts that a test splits a list into hold its elements. *)
Lemma filter_split_perm {A : Type} (p : A -> bool) (l : list A) :
  Permutation (filter (fun x => negb (p x)) l ++ filter p l) l.
Proof.
  induction l as [| x xs IH]; [constructor |]. cbn [filter].
  destruct (p x); cbn [negb app].
  - eapply Permutation_trans; [apply Permutation_sym, Permutation_middle |].
    apply perm_skip, IH.
  - apply perm_skip, IH.
Qed.

(** * The default sort kind of numpy

    Whatever the order in which it leaves equal keys, the sort rearranges
    its items and puts their keys in ascending order. *)

Section Argsorted.

Context {A : Type}.
Variable tie_rank : list cell -> nat -> nat.

Lemma ranks_length (key : A -> cell) (l : list A) :
  List.length l
  = List.length (map (tie_rank (map key l)) (seq 0 (List.length l))).
Proof. rewrite length_map, length_seq. reflexivity. Qed.

Lemma argsorted_perm (key : A -> cell) (l : list A) :
  Permutation (argsorted tie_rank key l) l.
Proof.
  unfold argsorted.
  eapply Permutation_trans; [apply Permutation_map, isort_perm |].
  rewrite combine_map_fst by apply ranks_length. apply Permutation_refl.
Qed.

Lemma argsorted_In (key : A -> cell) (l : list A) (x : A) :
  In x (argsorted tie_rank key l) <-> In x l.
Proof.
  split; apply Permutation_in;
    [apply argsorted_perm | apply Permutation_sym, argsorted_perm].
Qed.

Lemma ranked_le_total (key : A -> cell) (a b : A * nat) :
  comparable (key (fst a)) (key (fst b)) = true ->
  ranked_le key a b = true \/ ranked_le key b a = true.
Proof.
  intros Hc. unfold ranked_le.
  destruct (cell_le (key (fst a)) (key (fst b))) eqn:E1,
           (cell_le (key (fst b)) (key (fst a))) eqn:E2.
  - destruct (Nat.leb_spec (snd a) (snd b)) as [H | H]; [left; reflexivity |].
    right. apply Nat.leb_le. apply Nat.lt_le_incl, H.
  - left; reflexivity.
  - right; reflexivity.
  - destruct (cell_le_total _ _ Hc); congruence.
Qed.

Lemma ranked_le_trans (key : A -> cell) (a b c : A * nat) :
  ranked_le key a b = true -> ranked_le key b c = true ->
  ranked_le key a c = true.
Proof.
  unfold ranked_le.
  destruct (cell_le (key (fst a)) (key (fst b))) eqn:Eab; [| discriminate].
  destruct (cell_le (key (fst b)) (key (fst c))) eqn:Ebc;
    [| intros _; discriminate].
  rewrite (cell_le_trans _ _ _ Eab Ebc).
  destruct (cell_le (key (fst c)) (key (fst a))) eqn:Eca; [| reflexivity].
  rewrite (cell_le_trans _ _ _ Ebc Eca), (cell_le_trans _ _ _ Eca Eab).
  rewrite !Nat.leb_le. apply Nat.le_trans.
Qed.

Lemma ranked_le_key (key : A -> cell) (a b : A * nat) :
  ranked_le key a b = true -> cell_le (key (fst a)) (key (fst b)) = true.
Proof.
  unfold ranked_le. destruct (cell_le (key (fst a)) (key (fst b)));
    [reflexivity | discriminate].
Qed.

Lemma argsorted_sorted (key : A -> cell) (l : list A) :
  (forall a b, In a l -> In b l -> comparable (key a) (key b) = true) ->
  StronglySorted (fun a b => cell_le (key a) (key b) = true)
                 (argsorted tie_rank key l).
Proof.
  intros Hc. unfold argsorted. apply sorted_map.
  apply (sorted_impl (fun a b => ranked_le key a b = true));
    [apply ranked_le_key |].
  apply (isort_sorted (ranked_le key) (fun p => In (fst p) l)).
  - intros a b Ha Hb. apply ranked_le_total, Hc; assumption.
  - intros a b c _ _ _. apply ranked_le_trans.
  - apply Forall_forall. intros [x n] Hx. apply in_combine_l in Hx. exact Hx.
Qed.

Lemma argsorted_ext (key key' : A -> cell) (l : list A) :
  (forall x, key x = key' x) ->
  argsorted tie_rank key l = argsorted tie_rank key' l.
Proof.
  intros H. unfold argsorted.
  rewrite (map_ext key key' H). f_equal. apply isort_ext.
  intros a b. unfold ranked_le. rewrite !H. reflexivity.
Qed.

End Argsorted.

Lemma argsorted_map {A B : Type} (tie_rank : list cell -> nat -> nat)
      (key : B -> cell) (f : A -> B) (l : list A) :
  argsorted tie_rank key (map f l)
  = map f (argsorted tie_rank (fun x => key (f x)) l).
Proof.
  unfold argsorted. rewrite map_map, length_map, combine_map_l.
  rewrite (isort_map (ranked_le key) (fun p : A * nat => (f (fst p), snd p))).
  rewrite !map_map. reflexivity.
Qed.

(** * Sorting rows by one label *)

Section Nargsort.

Variable tie_rank : list cell -> nat -> nat.

Lemma nargsort_perm (key : row -> cell) (ascending : bool) (rows : list row) :
  Permutation (nargsort tie_rank key ascending rows) rows.
Proof.
  unfold nargsort.
  eapply Permutation_trans;
    [| apply (filter_split_perm (fun r => is_null (key r)))].
  apply Permutation_app_tail. destruct ascending.
  - apply argsorted_perm.
  - eapply Permutation_trans; [apply Permutation_sym, Permutation_rev |].
    eapply Permutation_trans; [apply argsorted_perm |].
    apply Permutation_sym, Permutation_rev.
Qed.

Lemma nargsort_In (key : row -> cell) (ascending : bool) (rows : list row)
      (r : row) :
  In r (nargsort tie_rank key ascending rows) <-> In r rows.
Proof.
  split; apply Permutation_in;
    [apply nargsort_perm | apply Permutation_sym, nargsort_perm].
Qed.

(** An ascending sort puts the rows in the order of their keys, the
    missing keys last. *)
Lemma nargsort_sorted (key : row -> cell) (rows : list row) :
  sortable_keys (map key rows) = true ->
  StronglySorted (fun a b => na_last_le (key a) (key b) = true)
                 (nargsort tie_rank key true rows).
Proof.
  intros Hs. unfold nargsort. apply sorted_app.
  - apply (sorted_impl (fun a b => In a rows /\ In b rows
                                   /\ is_null (key a) = false
                                   /\ is_null (key b) = false
                                   /\ cell_le (key a) (key b) = true)).
    { intros a b (_ & _ & Na & Nb & H). unfold na_last_le.
      rewrite Na, Nb. exact H. }
    assert (Hin : forall x,
               In x (argsorted tie_rank key
                       (filter (fun r => negb (is_null (key r))) rows)) ->
               In x rows /\ is_null (key x) = false).
    { intros x Hx. apply argsorted_In, filter_In in Hx as [Hx Hn].
      split; [exact Hx | apply negb_true_iff, Hn]. }
    assert (Hsorted := argsorted_sorted tie_rank key
                         (filter (fun r => negb (is_null (key r))) rows)).
    lapply Hsorted.
    + clear Hsorted. intros Hsorted.
      induction Hsorted as [| a l Hl IH Ha]; constructor.
      * apply IH. intros x Hx. apply Hin. right; exact Hx.
      * rewrite Forall_forall in Ha |- *. intros b Hb.
        destruct (Hin a (or_introl eq_refl)) as [Ia Na].
        destruct (Hin b (or_intror Hb)) as [Ib Nb].
        repeat split; try assumption. apply Ha, Hb.
    + intros a b Ha Hb.
      apply filter_In in Ha as [Ha Na]. apply filter_In in Hb as [Hb Nb].
      apply (sortable_keys_comparable (map key rows));
        [exact Hs | apply in_map, Ha | apply in_map, Hb
         | apply negb_true_iff, Na | apply negb_true_iff, Nb].
  - assert (Hn : Forall (fun r => is_null (key r) = true)
                        (filter (fun r => is_null (key r)) rows)).
    { apply Forall_forall. intros r Hr. apply filter_In in Hr as [_ Hr].
      exact Hr. }
    induction Hn as [| a l Ha Hl IH]; constructor; [exact IH |].
    apply Forall_forall. intros b Hb. rewrite Forall_forall in Hl.
    unfold na_last_le. rewrite (Hl b Hb).
    destruct (is_null (key a)); reflexivity.
  - intros a b _ Hb. apply filter_In in Hb as [_ Hb].
    unfold na_last_le. rewrite Hb. destruct (is_null (key a)); reflexivity.
Qed.

Lemma nargsort_ext (key key' : row -> cell) (ascending : bool)
      (rows : list row) :
  (forall r, key r = key' r) ->
  nargsort tie_rank key ascending rows = nargsort tie_rank key' ascending rows.
Proof.
  intros H. unfold nargsort.
  rewrite (filter_ext (fun r => negb (is_null (key r)))
                      (fun r => negb (is_null (key' r))))
    by (intros r; rewrite H; reflexivity).
  rewrite (filter_ext (fun r => is_null (key r)) (fun r => is_null (key' r)))
    by (intros r; rewrite H; reflexivity).
  f_equal. destruct ascending; [| f_equal]; apply argsorted_ext, H.
Qed.

(** A sort sees the rows through their keys alone. *)
Lemma nargsort_map (key : row -> cell) (f : row -> row) (ascending : bool)
      (rows : list row) :
  nargsort tie_rank key ascending (map f rows)
  = map f (nargsort tie_rank (fun r => key (f r)) ascending rows).
Proof.
  unfold nargsort. rewrite map_app, !filter_map_swap. f_equal.
  destruct ascending.
  - apply argsorted_map.
  - rewrite <- map_rev, argsorted_map, map_rev. reflexivity.
Qed.

End Nargsort.

(** * The last row *)

Lemma last_row_Ok (rows : list row) :
  rows <> [] -> exists r, last_row rows = Ok r.
Proof.
  intros H. unfold last_row. destruct (rev rows) as [| r rest] eqn:E.
  - apply (f_equal (@List.length row)) in E. rewrite length_rev in E.
    destruct rows; [contradiction | discriminate E].
  - exists r; reflexivity.
Qed.

Lemma last_row_inv (rows : list row) (r : row) :
  last_row rows = Ok r -> exists front, rows = front ++ [r].
Proof.
  unfold last_row. destruct (rev rows) as [| x rest] eqn:E; [discriminate |].
  intros H; injection H as <-. exists (rev rest).
  rewrite <- (rev_involutive rows), E. reflexivity.
Qed.

Lemma last_row_In (rows : list row) (r : row) :
  last_row rows = Ok r -> In r rows.
Proof.
  intros H. apply last_row_inv in H as (front & ->).
  apply in_or_app. right; left; reflexivity.
Qed.

(** The last row of a sorted list is a row that every row is below. *)
Lemma last_row_of_sorted (R : row -> row -> Prop) (rows : list row) (r : row) :
  StronglySorted R rows -> last_row rows = Ok r -> R r r ->
  forall x, In x rows -> R x r.
Proof.
  intros Hs H Hr x Hx. apply last_row_inv in H as (front & ->).
  apply in_app_or in Hx as [Hx | [<- | []]]; [| exact Hr].
  apply sorted_snoc in Hs. rewrite Forall_forall in Hs. apply Hs, Hx.
Qed.

(** * The latest value of a macro series *)

Lemma na_last_le_stamps (a b : coerced) :
  na_last_le (stamp_cell a) (stamp_cell b) = true -> date_le a b.
Proof.
  destruct a as [s | |], b as [t | |]; cbn; try discriminate; try tauto.
  apply Z.leb_le.
Qed.

Section Macro.

Variable to_datetime : list cell -> nat -> coerced.
Variable tie_rank : list cell -> nat -> nat.

(** The rows of a group, sorted by date: the last one is a row of the
    group that no row of the group comes after, a missing date coming
    after every timestamp. *)
Lemma latest_of_group (wf : DataFrame) (pairs : list (row * coerced)) :
  has_column "date" wf = true ->
  pairs <> [] ->
  exists by_date r o,
    sort_values tie_rank "date" true
                {| columns := columns wf;
                   records := map (working_row "date") pairs |} = Ok by_date
    /\ last_row (records by_date) = Ok (working_row "date" (r, o))
    /\ In (r, o) pairs
    /\ forall r' o', In (r', o') pairs -> date_le o' o.
Proof.
  intros Hdate Hne.
  set (rows := map (working_row "date") pairs).
  assert (Hs : sortable_keys (map (row_get "date") rows) = true).
  { apply sortable_keys_pairwise. intros a b Ha Hb Na Nb.
    unfold rows in Ha, Hb. rewrite map_map in Ha, Hb.
    apply in_map_iff in Ha as (pa & <- & _).
    apply in_map_iff in Hb as (pb & <- & _).
    rewrite working_row_date in *.
    apply stamp_cell_comparable; assumption. }
  rewrite (sort_values_Ok tie_rank "date" true
             {| columns := columns wf; records := rows |} Hdate Hs).
  cbn [records].
  destruct (last_row_Ok (nargsort tie_rank (row_get "date") true rows))
    as (x & Hlast).
  { intros E. apply (f_equal (@List.length row)) in E.
    rewrite (Permutation_length (nargsort_perm tie_rank _ true rows)) in E.
    unfold rows in E. rewrite length_map in E.
    destruct pairs; [contradiction | discriminate E]. }
  assert (Hx : In x rows) by (eapply nargsort_In, last_row_In, Hlast).
  unfold rows in Hx. apply in_map_iff in Hx as ([r o] & Ex & Hin).
  subst x. eexists. exists r, o. split; [reflexivity |]. cbn [records].
  split; [exact Hlast |]. split; [exact Hin |].
  intros r' o' Hin'.
  pose proof (last_row_of_sorted
                (fun a b => na_last_le (row_get "date" a) (row_get "date" b) = true)
                _ _ (nargsort_sorted tie_rank (row_get "date") rows Hs) Hlast)
    as Hmax.
  cbv beta in Hmax. rewrite working_row_date in Hmax.
  assert (Hrefl : na_last_le (stamp_cell (snd (r, o))) (stamp_cell (snd (r, o)))
                  = true).
  { cbn [snd]. destruct o as [t | |]; cbn; try reflexivity. apply Z.leb_refl. }
  specialize (Hmax Hrefl (working_row "date" (r', o'))).
  rewrite working_row_date in Hmax. cbn [snd] in Hmax.
  apply na_last_le_stamps, Hmax.
  apply nargsort_In. unfold rows. apply in_map, Hin'.
Qed.

End Macro.

Section MacroSeries.

Variable to_datetime : list cell -> nat -> coerced.
Variable tie_rank : list cell -> nat -> nat.

Lemma py_float_numeric (c : cell) :
  numeric_or_null c = true -> exists x, py_float c = Ok x.
Proof. destruct c; try discriminate; intros _; eexists; reflexivity. Qed.

(** The statistics of one series on the working rows of a table:
    [value_latest] is the rounded value of a row of the series that no
    row of the series comes after in the order of the dates, a missing
    date coming after every timestamp. *)
Lemma fred_series_stats_latest (wf : DataFrame) (rows : list row) (s : string) :
  records wf = map (working_row "date") (dated to_datetime "date" rows) ->
  has_column "date" wf = true ->
  has_column "value" wf = true ->
  forallb (fun r => numeric_or_null (row_get "value" r)) rows = true ->
  rows_carrying "series_id" s rows <> [] ->
  exists entry r o x,
    fred_series_stats tie_rank wf (CStr s) = Ok entry
    /\ In (r, o) (dated to_datetime "date" rows)
    /\ row_get "series_id" r = CStr s
    /\ (forall r' o', In (r', o') (dated to_datetime "date" rows) ->
                      row_get "series_id" r' = CStr s -> date_le o' o)
    /\ py_float (row_get "value" r) = Ok x
    /\ field ["value_latest"] entry = Some (PFloat (round4 x)).
Proof.
  intros Hrec Hdate Hvalue Hnum Hgroup.
  destruct (group_of_key to_datetime "date" "series_id" s rows)
    as (pairs & Hwhere & Hpairs & Hfst); [discriminate | reflexivity |].
  assert (Hin : forall ro, In ro pairs ->
                           In ro (dated to_datetime "date" rows)
                           /\ row_get "series_id" (fst ro) = CStr s).
  { intros ro Hro. rewrite Hpairs in Hro. apply filter_In in Hro as [Hro Hs].
    split; [exact Hro |].
    destruct (row_get "series_id" (fst ro)); try discriminate Hs.
    apply String.eqb_eq in Hs; subst; reflexivity. }
  assert (Hne : pairs <> []).
  { intros E. rewrite E in Hfst. simpl in Hfst. symmetry in Hfst. contradiction. }
  destruct (latest_of_group tie_rank wf pairs Hdate Hne)
    as (by_date & r & o & Hsort & Hlast & Hrt & Hmax).
  destruct (numeric_values_Ok (map (row_get "value") (rows_carrying "series_id" s rows)))
    as (qs & Hqs).
  { rewrite forallb_map. apply forallb_filter, Hnum. }
  destruct (py_float_numeric (row_get "value" r)) as (x & Hx).
  { rewrite forallb_forall in Hnum. apply Hnum.
    destruct (Hin _ Hrt) as [Hd _].
    rewrite <- (dated_fst to_datetime "date" rows).
    apply (in_map fst) in Hd. exact Hd. }
  unfold fred_series_stats. rewrite Hrec, Hwhere.
  rewrite !getcol_rows by assumption. cbn [bind].
  rewrite working_column, Hfst by (discriminate || reflexivity).
  unfold series_mean, series_min, series_max. rewrite Hqs. cbn [bind].
  rewrite Hsort. cbn [bind]. rewrite Hlast. cbn [bind].
  rewrite working_row_other by (discriminate || reflexivity).
  cbn [fst]. rewrite Hx. cbn [bind].
  eexists. exists r, o, x. split; [reflexivity |].
  destruct (Hin _ Hrt) as [Hd Hs]. split; [exact Hd |]. split; [exact Hs |].
  split; [| split; [exact Hx | reflexivity]].
  intros r' o' Hd' Hs'. apply (Hmax r' o').
  rewrite Hpairs. apply filter_In. split; [exact Hd' |].
  cbn [fst]. rewrite Hs'. apply String.eqb_refl.
Qed.

Lemma macro_table_gaps (df : DataFrame) :
  macro_table to_datetime df -> macro_table_with_gaps to_datetime df.
Proof.
  intros (Hrows & Hcols & Hcells & Hdates).
  split; [exact Hrows |]. split; [exact Hcols |]. split; [exact Hcells |].
  rewrite forallb_forall in Hdates. apply Forall_forall.
  intros o Ho E. specialize (Hdates o Ho). rewrite E in Hdates.
  discriminate Hdates.
Qed.

(** On a macro table whose dates convert, to a timestamp or to NaT, the
    normalizer returns a document whose [by_series] has one entry per
    distinct series id, in sorted order, each computed by
    [fred_series_stats] on the working rows. *)
Lemma prepare_fred_structure
  (now : Z) (name : string) (df : DataFrame) (config : pydict)
  (data_type : string) :
  macro_table_with_gaps to_datetime df ->
  exists doc stats,
    prepare_fred_dataset to_datetime tie_rank now name df config data_type = Ok doc
    /\ field ["stats"; "by_series"] doc = Some (PDict stats)
    /\ Forall2 (fun k kv =>
                  fst kv = PCell k
                  /\ fred_series_stats tie_rank
                       {| columns := columns (drop_internal df);
                          records := map (working_row "date")
                                         (dated to_datetime "date" (records df)) |}
                       k = Ok (snd kv))
               (isort cell_le (unique (map (row_get "series_id") (records df))))
               stats.
Proof.
  intros (Hrows & Hcols & Hcells & Hdates).
  cbn [forallb] in Hcols.
  repeat (apply andb_true_iff in Hcols as [?Hc Hcols]).
  assert (Hstr : forallb (fun r => is_str (row_get "series_id" r)) (records df) = true).
  { rewrite forallb_forall in Hcells |- *. intros r Hr.
    specialize (Hcells r Hr). apply andb_true_iff in Hcells as [H _]. exact H. }
  assert (Hnum : forallb (fun r => numeric_or_null (row_get "value" r)) (records df) = true).
  { rewrite forallb_forall in Hcells |- *. intros r Hr.
    specialize (Hcells r Hr). apply andb_true_iff in Hcells as [_ H]. exact H. }
  assert (Hhas : forall c, public_label c -> has_column c df = true ->
                           has_column c (drop_internal df) = true)
    by (intros c Hp Hc'; rewrite has_column_drop_internal; assumption).
  unfold prepare_fred_dataset.
  set (df' := drop_internal df).
  replace ((len df' =? 0)%nat || negb (has_column "date" df')
           || negb (has_column "series_id" df')) with false.
  2:{ unfold df'. rewrite len_drop_internal, !Hhas by (assumption || reflexivity).
      unfold len. destruct (records df); [contradiction | reflexivity]. }
  rewrite assign_datetime_Ok.
  2:{ apply Hhas; [reflexivity | assumption]. }
  2:{ unfold df'. rewrite (outcomes_ext _ _ _ (records df))
        by (apply column_drop_internal; reflexivity).
      exact Hdates. }
  cbn [bind].
  set (df1 := assign_datetime_coerce to_datetime "date" df').
  assert (Hrows1 : records df1
                   = map (working_row "date")
                         (dated to_datetime "date" (records df)))
    by (apply working_rows; reflexivity).
  assert (Hdf1 : df1 = {| columns := columns df';
                          records := map (working_row "date")
                                         (dated to_datetime "date" (records df)) |}).
  { rewrite <- Hrows1. reflexivity. }
  assert (Hcol1 : forall d, "date" <> d -> public_label d ->
                            map (row_get d) (records df1)
                            = map (row_get d) (records df)).
  { intros d Hd Hp. rewrite Hrows1, working_column by assumption.
    rewrite dated_fst. reflexivity. }
  assert (Hhas1 : forall c, public_label c -> has_column c df = true ->
                            has_column c df1 = true)
    by (intros c Hp Hc'; apply (Hhas c Hp Hc')).
  rewrite (getcol_has "series_id" df1) by (apply Hhas1; [reflexivity | assumption]).
  cbn [bind]. rewrite Hcol1 by (discriminate || reflexivity).
  rewrite py_sorted_comparable.
  2:{ intros a b Ha Hb.
      apply unique_In, in_map_iff in Ha as (ra & <- & Hra).
      apply unique_In, in_map_iff in Hb as (rb & <- & Hrb).
      rewrite forallb_forall in Hstr.
      pose proof (Hstr ra Hra) as Ea. pose proof (Hstr rb Hrb) as Eb.
      destruct (row_get "series_id" ra), (row_get "series_id" rb);
        try discriminate Ea; try discriminate Eb; reflexivity. }
  cbn [bind].
  destruct (foldM_dict_set (fred_series_stats tie_rank df1)
              (isort cell_le (unique (map (row_get "series_id") (records df)))) [])
    as (stats & Hfold & Hstats).
  { apply isort_distinct, unique_distinct. }
  { reflexivity. }
  { intros k Hk. apply isort_In in Hk.
    assert (Hs : exists s, k = CStr s).
    { apply unique_In, in_map_iff in Hk as (r & <- & Hr).
      rewrite forallb_forall in Hstr. specialize (Hstr r Hr).
      destruct (row_get "series_id" r); try discriminate Hstr.
      eexists; reflexivity. }
    destruct Hs as (s & ->).
    destruct (fred_series_stats_latest df1 (records df) s)
      as (entry & _ & _ & _ & He & _); try assumption.
    - apply Hhas1; [reflexivity | assumption].
    - apply Hhas1; [reflexivity | assumption].
    - apply rows_carrying_nonempty, unique_In, Hk.
    - exists entry; exact He. }
  rewrite Hfold. cbn [bind app].
  rewrite (getcol_has "date" df1) by (apply Hhas1; [reflexivity | assumption]).
  cbn [bind].
  rewrite (sort_values_by_Ok ["series_id"; "date"] df1).
  2:{ intros c [<- | [<- | []]].
      - split; [apply Hhas1; [reflexivity | assumption] |].
        rewrite Hcol1 by (discriminate || reflexivity).
        apply sortable_keys_pairwise. intros a b Ha Hb _ _.
        apply in_map_iff in Ha as (ra & <- & Hra).
        apply in_map_iff in Hb as (rb & <- & Hrb).
        rewrite forallb_forall in Hstr.
        pose proof (Hstr ra Hra) as Ea. pose proof (Hstr rb Hrb) as Eb.
        destruct (row_get "series_id" ra), (row_get "series_id" rb);
          try discriminate Ea; try discriminate Eb; reflexivity.
      - split; [apply Hhas1; [reflexivity | assumption] |].
        apply sortable_keys_pairwise. intros a b Ha Hb Hna Hnb.
        rewrite Hrows1, map_map in Ha, Hb.
        apply in_map_iff in Ha as (pa & <- & _).
        apply in_map_iff in Hb as (pb & <- & _).
        rewrite working_row_date in *.
        apply stamp_cell_comparable; assumption. }
  cbn [bind].
  unfold select.
  match goal with
  | |- context [find ?p ?l] => replace (find p l) with (@None string)
  end.
  2:{ cbn [find]. rewrite !has_column_same_columns.
      rewrite !Hhas1 by (assumption || reflexivity). reflexivity. }
  cbn [bind].
  eexists. exists stats. split; [reflexivity |]. split; [reflexivity |].
  rewrite <- Hdf1. exact Hstats.
Qed.

End MacroSeries.

(** * The news normalizer in terms of the usable rows *)

Lemma row_get_projection (f : string -> cell) (cols : list string) (c : string) :
  In c cols -> row_get c (map (fun c' => (c', f c')) cols) = f c.
Proof.
  induction cols as [| k ks IH]; simpl; [tauto |].
  intros H. destruct (String.eqb k c) eqn:E.
  - apply String.eqb_eq in E; subst; reflexivity.
  - destruct H as [-> | H]; [rewrite String.eqb_refl in E; discriminate |].
    apply IH, H.
Qed.

Lemma stamps_of_times (ts : list Z) : stamps (map CTime ts) = ts.
Proof. induction ts as [| t ts IH]; simpl; [| rewrite IH]; reflexivity. Qed.

Section News.

Variable to_datetime : list cell -> nat -> coerced.
Variable tie_rank : list cell -> nat -> nat.

(** After the coercion and [dropna] the frame holds the usable rows. *)
Lemma usable_working_rows (df : DataFrame) :
  records (dropna "published"
                  (assign_datetime_coerce to_datetime "published"
                                          (drop_internal df)))
  = map news_row (usable to_datetime (records df)).
Proof.
  unfold dropna; cbn [records].
  rewrite working_rows by reflexivity. unfold usable.
  induction (dated to_datetime "published" (records df)) as [| [r o] pairs IH];
    cbn [map filter flat_map]; [reflexivity |].
  rewrite working_row_date. cbn [snd fst].
  destruct o as [t | |]; cbn [stamp_cell is_null negb app map];
    first [exact IH | rewrite IH; reflexivity].
Qed.

Lemma news_row_published (rt : row * Z) :
  row_get "published" (news_row rt) = CTime (snd rt).
Proof. exact (working_row_date "published" (fst rt, Stamp (snd rt))). Qed.

Lemma news_row_other (d : string) (rt : row * Z) :
  "published" <> d -> public_label d ->
  row_get d (news_row rt) = row_get d (fst rt).
Proof.
  intros H1 H2.
  exact (working_row_other "published" d (fst rt, Stamp (snd rt)) H1 H2).
Qed.

(** Descending sort of the working rows, in terms of the usable rows. *)
Lemma nargsort_newest_first (kept : list (row * Z)) :
  nargsort tie_rank (row_get "published") false (map news_row kept)
  = map news_row (newest_first tie_rank kept).
Proof.
  unfold nargsort, newest_first.
  assert (Hnn : forallb (fun r => negb (is_null (row_get "published" r)))
                        (map news_row kept) = true).
  { rewrite forallb_map. apply forallb_forall. intros rt _.
    rewrite news_row_published. reflexivity. }
  rewrite (filter_all _ _ Hnn).
  rewrite (filter_none (fun r => is_null (row_get "published" r)) _ Hnn).
  rewrite app_nil_r, <- map_rev, argsorted_map, <- map_rev.
  reflexivity.
Qed.

Lemma available_cols_recent (df : DataFrame) (c : string) :
  In c (available_cols df) -> In c recent_cols /\ has_column c df = true.
Proof. unfold available_cols. intros H. apply filter_In in H. exact H. Qed.

(** The record of a usable row, as [to_dict] renders it. *)
Lemma rendered_record (df : DataFrame) (rt : row * Z) :
  PDict (map (fun c =>
                (PStr c,
                 render_published_minute
                   c (row_get c (map (fun c' => (c', row_get c' (news_row rt)))
                                     (available_cols df)))))
             (available_cols df))
  = published_record df rt.
Proof.
  unfold published_record. f_equal. apply map_ext_in. intros c Hc.
  rewrite (row_get_projection (fun c' => row_get c' (news_row rt))) by exact Hc.
  apply available_cols_recent in Hc as [Hc _].
  unfold render_published_minute.
  unfold recent_cols in Hc. simpl in Hc.
  destruct Hc as [<- | [<- | [<- | [<- | [<- | []]]]]];
    cbn [String.eqb Ascii.eqb Bool.eqb];
    rewrite ?news_row_published, ?news_row_other by (discriminate || reflexivity);
    reflexivity.
Qed.

(** The news normalizer on a table with a [published] column: it fails
    only when the feed names cannot be sorted, and its document is
    [rss_document] on the usable rows. *)
Lemma prepare_rss_structure
  (now : Z) (name : string) (df : DataFrame) (config : pydict) :
  has_column "published" df = true ->
  prepare_rss_dataset to_datetime tie_rank now name df config
  = let kept := usable to_datetime (records df) in
    let* feeds := (if has_column "feed_name" df
                   then py_sorted (unique (feed_names kept))
                   else Ok []) in
    Ok (rss_document tie_rank now name df config kept feeds).
Proof.
  intros Hpub. unfold prepare_rss_dataset.
  set (df' := drop_internal df).
  assert (Hhas : forall c, public_label c -> has_column c df' = has_column c df)
    by (intros; apply has_column_drop_internal; assumption).
  destruct (len df' =? 0)%nat eqn:Hlen.
  - (* no rows at all *)
    apply Nat.eqb_eq in Hlen. unfold df' in Hlen. rewrite len_drop_internal in Hlen.
    unfold len in Hlen. apply length_zero_iff_nil in Hlen.
    cbv zeta. rewrite Hlen. unfold usable, dated. cbn [combine flat_map].
    unfold feed_names, rss_document, published_days, groupby_size, newest_first.
    cbn [map filter unique isort rev app firstn List.length Z.of_nat].
    assert (Hcols : (if (0 <? List.length (columns df'))%nat
                     then list_columns df' else PList []) = list_columns df').
    { unfold list_columns. destruct (columns df'); reflexivity. }
    rewrite Hcols.
    destruct (has_column "feed_name" df); reflexivity.
  - (* some rows: coercion, then dropna *)
    rewrite (Hhas "published" eq_refl), Hpub.
    set (df2 := dropna "published"
                       (assign_datetime_coerce to_datetime "published" df')).
    set (kept := usable to_datetime (records df)).
    assert (Hrows2 : records df2 = map news_row kept)
      by (apply usable_working_rows).
    assert (Hhas2 : forall c, public_label c -> has_column c df2 = has_column c df)
      by (intros c Hc; rewrite <- (Hhas c Hc); reflexivity).
    assert (Hlen2 : len df2 = List.length kept)
      by (unfold len; rewrite Hrows2; apply length_map).
    assert (Hfeedcol : map (row_get "feed_name") (records df2) = feed_names kept).
    { rewrite Hrows2, map_map. apply map_ext. intros rt.
      apply news_row_other; [discriminate | reflexivity]. }
    assert (Hpubcol : getcol "published" df2 = Ok (map CTime (map snd kept))).
    { rewrite getcol_has by (rewrite Hhas2; [exact Hpub | reflexivity]).
      rewrite Hrows2, !map_map. reflexivity. }
    assert (E1 : (if has_column "feed_name" df2
                  then let* col := getcol "feed_name" df2 in py_sorted (unique col)
                  else Ok [])
                 = (if has_column "feed_name" df
                    then py_sorted (unique (feed_names kept))
                    else Ok [])).
    { rewrite (Hhas2 "feed_name" eq_refl).
      destruct (has_column "feed_name" df) eqn:Hfeed; [| reflexivity].
      rewrite getcol_has by (rewrite Hhas2; [exact Hfeed | reflexivity]).
      cbn [bind]. rewrite Hfeedcol. reflexivity. }
    assert (E2 : (if has_column "feed_name" df2
                  then let* col := getcol "feed_name" df2 in
                       Ok (map feed_entry (groupby_size col))
                  else Ok [])
                 = Ok (if has_column "feed_name" df
                       then map feed_entry (groupby_size (feed_names kept))
                       else [])).
    { rewrite (Hhas2 "feed_name" eq_refl).
      destruct (has_column "feed_name" df) eqn:Hfeed; [| reflexivity].
      rewrite getcol_has by (rewrite Hhas2; [exact Hfeed | reflexivity]).
      cbn [bind]. rewrite Hfeedcol. reflexivity. }
    assert (E3 : (if (0 <? len df2)%nat
                  then let* col := getcol "published" df2 in
                       Ok (Some (stamp_min col))
                  else Ok None)
                 = Ok (match map snd kept with
                       | [] => None
                       | t :: ts => Some (Some (fold_left Z.min ts t))
                       end)).
    { rewrite Hlen2, Hpubcol. cbn [bind]. unfold stamp_min.
      rewrite stamps_of_times. destruct kept; reflexivity. }
    assert (E4 : (if (0 <? len df2)%nat
                  then let* col := getcol "published" df2 in
                       Ok (Some (stamp_max col))
                  else Ok None)
                 = Ok (match map snd kept with
                       | [] => None
                       | t :: ts => Some (Some (fold_left Z.max ts t))
                       end)).
    { rewrite Hlen2, Hpubcol. cbn [bind]. unfold stamp_max.
      rewrite stamps_of_times. destruct kept; reflexivity. }
    assert (E5 : (if (0 <? len df2)%nat
                  then let* col := getcol "published" df2 in
                       Ok (map day_entry (groupby_size (map dt_date col)))
                  else Ok [])
                 = Ok (map day_entry (groupby_size (published_days kept)))).
    { rewrite Hlen2, Hpubcol. cbn [bind]. unfold published_days.
      rewrite !map_map. destruct kept; reflexivity. }
    assert (E6 : sort_values tie_rank "published" false df2
                 = Ok {| columns := columns df2;
                         records := map news_row (newest_first tie_rank kept) |}).
    { unfold sort_values.
      rewrite (Hhas2 "published" eq_refl), Hpub. cbn [negb].
      replace (sortable_keys (map (row_get "published") (records df2))) with true.
      - cbn [negb]. rewrite Hrows2, nargsort_newest_first. reflexivity.
      - symmetry. apply sortable_keys_pairwise. intros a b Ha Hb _ _.
        rewrite Hrows2, map_map in Ha, Hb.
        apply in_map_iff in Ha as (ra & <- & _).
        apply in_map_iff in Hb as (rb & <- & _).
        rewrite !news_row_published. reflexivity. }
    assert (Eav : filter (fun c => has_column c df2) recent_cols
                  = available_cols df).
    { unfold available_cols. apply filter_ext_in. intros c Hc.
      apply Hhas2. unfold recent_cols in Hc. simpl in Hc.
      destruct Hc as [<- | [<- | [<- | [<- | [<- | []]]]]]; reflexivity. }
    cbv zeta.
    rewrite E1.
    destruct (if has_column "feed_name" df
              then py_sorted (unique (feed_names kept))
              else Ok []) as [feeds | e]; [| reflexivity].
    cbn [bind]. rewrite E2. cbn [bind]. rewrite E3. cbn [bind].
    rewrite E4. cbn [bind]. rewrite E5. cbn [bind].
    rewrite E6. cbn [bind records columns]. rewrite Eav.
    unfold select.
    match goal with
    | |- context [find ?p ?l] => replace (find p l) with (@None string)
    end.
    2:{ symmetry.
        match goal with
        | |- find ?p ?l = None => destruct (find p l) as [c |] eqn:E
        end; [| reflexivity].
        apply find_some in E as [Hin Hc].
        apply available_cols_recent in Hin as [Hrec Hin].
        rewrite has_column_same_columns, Hhas2 in Hc.
        - rewrite Hin in Hc. discriminate Hc.
        - unfold recent_cols in Hrec. simpl in Hrec.
          destruct Hrec as [<- | [<- | [<- | [<- | [<- | []]]]]]; reflexivity. }
    cbn [bind]. unfold rss_document, to_records. cbn [records columns].
    rewrite Hlen2, firstn_map, !map_map.
    rewrite (map_ext _ (published_record df) (rendered_record df)).
    destruct (map snd kept); reflexivity.
Qed.

End News.

(** * The order of the recent articles *)

(** [newest_first] is a rearrangement of the usable rows by descending
    timestamp, whatever the order in which the sort leaves equal
    timestamps. *)
Lemma newest_first_spec (tie_rank : list cell -> nat -> nat)
      (kept : list (row * Z)) :
  Permutation (newest_first tie_rank kept) kept
  /\ StronglySorted (fun a b => snd b <= snd a) (newest_first tie_rank kept).
Proof.
  unfold newest_first. split.
  - eapply Permutation_trans; [apply Permutation_sym, Permutation_rev |].
    eapply Permutation_trans; [apply argsorted_perm |].
    apply Permutation_sym, Permutation_rev.
  - apply (sorted_rev (fun a b => snd a <= snd b)).
    apply (sorted_impl
             (fun a b : row * Z => cell_le (CTime (snd a)) (CTime (snd b)) = true)).
    { intros a b. apply Z.leb_le. }
    apply (argsorted_sorted tie_rank (fun rt : row * Z => CTime (snd rt))).
    intros a b _ _. reflexivity.
Qed.



Lemma In_firstn {A : Type} (n : nat) (l : list A) (x : A) :
  In x (firstn n l) -> In x l.
Proof.
  intros H. rewrite <- (firstn_skipn n l). apply in_or_app. left; exact H.
Qed.

Section NewsClaims.

Variable to_datetime : list cell -> nat -> coerced.
Variable tie_rank : list cell -> nat -> nat.

Lemma prepare_rss_Ok_inv now name df config doc :
  has_column "published" df = true ->
  prepare_rss_dataset to_datetime tie_rank now name df config = Ok doc ->
  exists feeds,
    doc = rss_document tie_rank now name df config (usable to_datetime (records df)) feeds.
Proof.
  intros Hpub H. rewrite (prepare_rss_structure to_datetime tie_rank now name df config Hpub) in H.
  cbv zeta in H. apply bind_Ok_inv in H as (feeds & _ & H).
  injection H as <-. exists feeds; reflexivity.
Qed.

Lemma prepare_rss_returns now name df config :
  has_column "published" df = true ->
  (has_column "feed_name" df = true ->
   sortable_column (feed_names (usable to_datetime (records df))) = true) ->
  exists doc, prepare_rss_dataset to_datetime tie_rank now name df config = Ok doc.
Proof.
  intros Hpub Hfeed.
  rewrite (prepare_rss_structure to_datetime tie_rank now name df config Hpub). cbv zeta.
  destruct (has_column "feed_name" df).
  - destruct (py_sorted_unique_sortable _ (Hfeed eq_refl)) as (feeds & ->).
    eexists; reflexivity.
  - eexists; reflexivity.
Qed.

(** C5: in the document of a news table with a [published] column, only
    the usable rows (those whose [published] cell converts to a
    timestamp) are seen: [record_count] is their number, every record of
    [data] is the record of one of them, the counts of [articles_by_feed]
    and [articles_by_day] count them alone, and the date range is taken
    over their timestamps.  The normalizer returns whenever the feed names
    of the usable rows can be sorted. *)
Theorem unparseable_published_rows_are_dropped
  (now : Z) (name : string) (df : DataFrame) (config : pydict) :
  has_column "published" df = true ->
  let kept := usable to_datetime (records df) in
  (forall doc,
     prepare_rss_dataset to_datetime tie_rank now name df config = Ok doc ->
     field ["meta"; "record_count"] doc = Some (PInt (Z.of_nat (List.length kept)))
     /\ (exists data,
           field ["data"] doc = Some (PList data)
           /\ forall d, In d data ->
                        exists rt, In rt kept /\ d = published_record df rt)
     /\ (exists by_feed,
           field ["stats"; "articles_by_feed"] doc = Some (PDict by_feed)
           /\ forall k n, In (k, n) by_feed ->
                          exists c, k = PCell c
                                    /\ In c (feed_names kept)
                                    /\ n = PInt (Z.of_nat
                                                   (count_eq c (feed_names kept))))
     /\ (exists by_day,
           field ["stats"; "articles_by_day"] doc = Some (PDict by_day)
           /\ forall k n, In (k, n) by_day ->
                          exists d, k = PDay d
                                    /\ In (CInt d) (published_days kept)
                                    /\ n = PInt (Z.of_nat
                                                   (count_eq (CInt d)
                                                             (published_days kept))))
     /\ field ["stats"; "date_range"; "min"] doc
        = Some (match map snd kept with
                | [] => PNone
                | t :: ts => PIso (fold_left Z.min ts t)
                end)
     /\ field ["stats"; "date_range"; "max"] doc
        = Some (match map snd kept with
                | [] => PNone
                | t :: ts => PIso (fold_left Z.max ts t)
                end))
  /\ ((has_column "feed_name" df = true ->
       sortable_column (feed_names kept) = true) ->
      exists doc, prepare_rss_dataset to_datetime tie_rank now name df config = Ok doc).
Proof.
  intros Hpub kept. split; [| apply prepare_rss_returns; exact Hpub].
  intros doc Hdoc.
  destruct (prepare_rss_Ok_inv now name df config doc Hpub Hdoc) as (feeds & ->).
  fold kept. split; [reflexivity |].
  split; [| split; [| split; [| split; reflexivity]]].
  - eexists. split; [reflexivity |]. intros d Hd.
    apply in_map_iff in Hd as (rt & <- & Hrt). exists rt. split; [| reflexivity].
    apply In_firstn in Hrt.
    destruct (newest_first_spec tie_rank kept) as (Hperm & _).
    apply (Permutation_in _ Hperm), Hrt.
  - eexists. split; [reflexivity |]. intros k n Hin.
    destruct (has_column "feed_name" df); [| destruct Hin].
    apply in_map_iff in Hin as ([c m] & E & Hin). unfold feed_entry in E.
    cbn [fst snd] in E. injection E as <- <-.
    unfold groupby_size in Hin. apply in_map_iff in Hin as (c' & E & Hin).
    injection E as -> <-. exists c. split; [reflexivity |].
    split; [| reflexivity].
    apply isort_In, unique_In, filter_In in Hin as [Hin _]. exact Hin.
  - eexists. split; [reflexivity |]. intros k n Hin.
    apply in_map_iff in Hin as ([c m] & E & Hin).
    unfold groupby_size in Hin. apply in_map_iff in Hin as (c' & E' & Hin).
    injection E' as -> <-.
    apply isort_In, unique_In, filter_In in Hin as [Hin _].
    pose proof Hin as Hin'. unfold published_days in Hin'.
    apply in_map_iff in Hin' as (rt & <- & _).
    unfold day_entry in E. cbn [fst snd] in E. injection E as <- <-.
    eexists. split; [reflexivity |]. split; [exact Hin | reflexivity].
Qed.


End NewsClaims.

Lemma unparseable_published_witness :
  exists doc,
    prepare_rss_dataset to_datetime_plain ties_in_order 0 "fed_news" scenario_news [] = Ok doc
    /\ field ["meta"; "record_count"] doc = Some (PInt 5)
    /\ field ["stats"; "articles_by_feed"] doc
       = Some (PDict [(PStr "ecb", PInt 2); (PStr "fed", PInt 3)]).
Proof.
  destruct (unparseable_published_rows_are_dropped
              to_datetime_plain ties_in_order 0 "fed_news" scenario_news []
              eq_refl)
    as [Hp Ht].
  destruct Ht as (doc & Hdoc); [reflexivity |].
  exists doc. split; [exact Hdoc |].
  destruct (Hp doc Hdoc) as (Hcount & _). split; [exact Hcount |].
  vm_compute in Hdoc. injection Hdoc as <-. reflexivity.
Defined.



(** * The small run *)

Lemma run_fails_at_end_witness :
  exists st,
    example_run = Finished st (PList (all_datasets st)) 1
    /\ errors st = ["fed_news: feed unreachable"; "us_indices: 'symbols'"]
    /\ List.length (all_datasets st) = 1%nat.
Proof.
  destruct (run_fails_at_end to_datetime_plain (fun _ => "") ties_in_order example_env)
    as (st & status & Hmain & Herr & Hall & H1 & _).
  - repeat constructor; discriminate.
  - assert (Hst : status = 1).
    { apply H1. rewrite Herr. vm_compute. discriminate. }
    subst status. exists st. split; [exact Hmain |].
    split; [rewrite Herr; vm_compute; reflexivity |].
    rewrite Hall. vm_compute. reflexivity.
Defined.

Lemma summary_entry_witness :
  exists st datasets_json status,
    example_run = Finished st datasets_json status
    /\ datasets_json = PList (all_datasets st)
    /\ all_datasets st = map (fun f => without_data (snd f)) (public_files st)
    /\ map fst (public_files st) = ["fred_rates.json"].
Proof.
  destruct example_run as [e | st datasets_json status] eqn:E.
  - vm_compute in E. discriminate E.
  - exists st, datasets_json, status. split; [reflexivity |].
    destruct (summary_entry_is_document_without_data
                to_datetime_plain (fun _ => "") ties_in_order example_env
                st datasets_json status E)
      as (Hjson & Hall & _).
    split; [exact Hjson |]. split; [exact Hall |].
    vm_compute in E. injection E as <- _ _. reflexivity.
Defined.

(** * What a returned document tells about the steps that built it *)

Lemma mapM_Ok_inv {A B : Type} (f : A -> result B) (l : list A) (ys : list B) :
  mapM f l = Ok ys -> Forall2 (fun x y => f x = Ok y) l ys.
Proof.
  revert ys; induction l as [| x xs IH]; intros ys H; cbn [mapM] in H.
  - injection H as <-. constructor.
  - apply bind_Ok_inv in H as (y & Hy & H).
    apply bind_Ok_inv in H as (ys' & Hys & H). injection H as <-.
    constructor; [exact Hy | apply IH, Hys].
Qed.

Lemma mapM_Raise {A B : Type} (f : A -> result B) (l : list A) (x : A) (e : exn) :
  In x l -> f x = Raise e -> exists e', mapM f l = Raise e'.
Proof.
  induction l as [| y ys IH]; intros Hin Hx; [destruct Hin |].
  cbn [mapM]. destruct Hin as [-> | Hin].
  - rewrite Hx. eexists; reflexivity.
  - destruct (f y); [| eexists; reflexivity]. cbn [bind].
    destruct (IH Hin Hx) as (e' & ->). eexists; reflexivity.
Qed.

Lemma py_sorted_inv (l keys : list cell) :
  py_sorted l = Ok keys -> keys = isort cell_le l.
Proof.
  destruct l as [| x [| y ys]]; cbn [py_sorted].
  - intros H; injection H as <-; reflexivity.
  - intros H; injection H as <-; reflexivity.
  - destruct (forallb _ _); [| discriminate].
    intros H; injection H as <-; reflexivity.
Qed.

Lemma sort_values_by_inv (by_ : list string) (df s : DataFrame) :
  sort_values_by by_ df = Ok s ->
  (forall c, In c by_ ->
             has_column c df = true
             /\ sortable_keys (map (row_get c) (records df)) = true)
  /\ s = {| columns := columns df; records := isort (lex_le by_) (records df) |}.
Proof.
  unfold sort_values_by.
  destruct (find _ by_) as [c |] eqn:E; [discriminate |].
  destruct (forallb _ by_) eqn:F; [| discriminate].
  intros H; injection H as <-. split; [| reflexivity].
  intros c Hc. split.
  - apply (find_none _ _ E) in Hc. apply negb_false_iff, Hc.
  - rewrite forallb_forall in F. apply F, Hc.
Qed.

Lemma select_inv (cols : list string) (df s : DataFrame) :
  select cols df = Ok s ->
  (forall c, In c cols -> has_column c df = true)
  /\ s = {| columns := cols;
            records := map (fun r => map (fun c => (c, row_get c r)) cols)
                           (records df) |}.
Proof.
  unfold select. destruct (find _ cols) as [c |] eqn:E; [discriminate |].
  intros H; injection H as <-. split; [| reflexivity].
  intros c Hc. apply (find_none _ _ E) in Hc. apply negb_false_iff, Hc.
Qed.

Lemma select_missing (cols : list string) (df : DataFrame) (c : string) :
  In c cols -> has_column c df = false -> exists e, select cols df = Raise e.
Proof.
  intros Hin Hc. unfold select.
  destruct (find _ cols) as [c' |] eqn:E; [eexists; reflexivity |].
  apply (find_none _ _ E) in Hin. rewrite Hc in Hin. discriminate Hin.
Qed.

(** A loop that fills a dict holds, under each key it wrote, a value that
    the body computed. *)
Lemma dict_set_In (k v : pyval) (d : pydict) (kv : pyval * pyval) :
  In kv (dict_set k v d) -> snd kv = v \/ In kv d.
Proof.
  induction d as [| [k' v'] d IH]; cbn [dict_set].
  - intros [<- | []]. left; reflexivity.
  - destruct (key_eqb k' k).
    + intros [<- | H]; [left; reflexivity | right; right; exact H].
    + intros [<- | H]; [right; left; reflexivity |].
      destruct (IH H) as [E | Hin]; [left; exact E | right; right; exact Hin].
Qed.

Lemma foldM_dict_set_values (f : cell -> result pyval) (keys : list cell)
      (acc stats : pydict) :
  foldM (fun stats k => let* e := f k in Ok (dict_set (PCell k) e stats))
        keys acc = Ok stats ->
  forall kv, In kv stats ->
             In kv acc \/ exists k, In k keys /\ f k = Ok (snd kv).
Proof.
  revert acc. induction keys as [| k keys IH]; intros acc H kv Hin.
  - injection H as <-. left; exact Hin.
  - cbn [foldM] in H. apply bind_Ok_inv in H as (acc' & Hstep & H).
    apply bind_Ok_inv in Hstep as (e & He & Hstep). injection Hstep as <-.
    destruct (IH _ H kv Hin) as [Hacc | (k' & Hk' & Hf)].
    + apply dict_set_In in Hacc as [E | Hacc]; [| left; exact Hacc].
      right. exists k. split; [left; reflexivity | rewrite E; exact He].
    + right. exists k'. split; [right; exact Hk' | exact Hf].
Qed.

Section Inversions.

Variable to_datetime : list cell -> nat -> coerced.

(** The raising conversion returns only when no cell is unparseable, and
    then agrees with the coercing one. *)
Lemma assign_datetime_inv (c : string) (df wf : DataFrame) :
  assign_datetime to_datetime c df = Ok wf ->
  has_column c df = true
  /\ Forall (fun o => o <> Unparseable) (outcomes to_datetime c (records df))
  /\ wf = assign_datetime_coerce to_datetime c df.
Proof.
  unfold assign_datetime. intros H.
  apply bind_Ok_inv in H as (col & Hcol & H).
  apply bind_Ok_inv in H as (rows & Hrows & H). injection H as <-.
  assert (Hc : has_column c df = true).
  { unfold getcol in Hcol. destruct (has_column c df); [reflexivity | discriminate]. }
  assert (Ho : Forall (fun o => o <> Unparseable)
                      (outcomes to_datetime c (records df))).
  { apply Forall_forall. intros o Hin ->.
    rewrite <- (dated_snd to_datetime c (records df)) in Hin.
    apply in_map_iff in Hin as ([r o] & Eo & Hin). cbn [snd] in Eo. subst o.
    destruct (mapM_Raise (set_datetime c) _ (r, Unparseable)
                         (ValueError "Unknown datetime string format")
                         Hin eq_refl) as (e' & He').
    unfold dated in He'. rewrite He' in Hrows. discriminate Hrows. }
  split; [exact Hc |]. split; [exact Ho |].
  pose proof (assign_datetime_Ok to_datetime c df Hc Ho) as E.
  unfold assign_datetime in E. rewrite Hcol in E. cbn [bind] in E.
  rewrite Hrows in E. cbn [bind] in E. injection E as E.
  unfold assign_datetime_coerce. rewrite <- E. reflexivity.
Qed.

Lemma assign_datetime_unparseable (c : string) (df : DataFrame) :
  In Unparseable (outcomes to_datetime c (records df)) ->
  exists e, assign_datetime to_datetime c df = Raise e.
Proof.
  intros Hin.
  destruct (assign_datetime to_datetime c df) as [wf | e] eqn:E;
    [| eexists; reflexivity].
  apply assign_datetime_inv in E as (_ & Ho & _).
  rewrite Forall_forall in Ho. destruct (Ho _ Hin eq_refl).
Qed.

(** The frame that the price and macro normalizers work on, for a table
    that passes the guard and whose dates convert. *)
Lemma working_frame (df wf : DataFrame) :
  assign_datetime to_datetime "date" (drop_internal df) = Ok wf ->
  has_column "date" df = true
  /\ Forall (fun o => o <> Unparseable)
            (outcomes to_datetime "date" (records df))
  /\ wf = {| columns := columns (drop_internal df);
             records := map (working_row "date")
                            (dated to_datetime "date" (records df)) |}.
Proof.
  intros H. apply assign_datetime_inv in H as (Hc & Ho & ->).
  rewrite has_column_drop_internal in Hc by reflexivity.
  rewrite (outcomes_ext to_datetime "date" _ (records df)) in Ho
    by (apply column_drop_internal; reflexivity).
  split; [exact Hc |]. split; [exact Ho |].
  rewrite <- (working_rows to_datetime "date" df) by reflexivity. reflexivity.
Qed.

End Inversions.

(** * The price normalizer past its guard *)

Section PricePastGuard.

Variable to_datetime : list cell -> nat -> coerced.

Lemma guard_passed (key : string) (df : DataFrame) :
  public_label key ->
  records df <> [] -> has_column "date" df = true -> has_column key df = true ->
  (len (drop_internal df) =? 0)%nat
  || negb (has_column "date" (drop_internal df))
  || negb (has_column key (drop_internal df)) = false.
Proof.
  intros Hk Hrows Hd Hkey.
  rewrite len_drop_internal, !has_column_drop_internal by (exact Hk || reflexivity).
  rewrite Hd, Hkey. unfold len. destruct (records df); [contradiction | reflexivity].
Qed.

(** The records of [data], from the sorted working rows. *)
Lemma dated_records (cols : list string) (df : DataFrame)
      (pairs : list (row * coerced)) :
  Forall public_label cols ->
  to_records render_date_day
    {| columns := cols;
       records := map (fun r => map (fun c => (c, row_get c r)) cols)
                      (map (working_row "date") pairs) |}
  = PList (map (dated_record cols) pairs).
Proof.
  intros Hpub. unfold to_records; cbn [columns records]. f_equal.
  rewrite !map_map. apply map_ext. intros ro.
  unfold dated_record. f_equal. apply map_ext_in. intros c Hc.
  rewrite (row_get_projection (fun c' => row_get c' (working_row "date" ro)))
    by exact Hc.
  unfold render_date_day. destruct (String.eqb c "date") eqn:E.
  - apply String.eqb_eq in E; subst c. rewrite working_row_date.
    destruct (snd ro); reflexivity.
  - rewrite working_row_other; [reflexivity | |].
    + intros <-. rewrite String.eqb_refl in E. discriminate.
    + rewrite Forall_forall in Hpub. apply Hpub, Hc.
Qed.

Lemma working_dates (pairs : list (row * coerced)) :
  map (row_get "date") (map (working_row "date") pairs)
  = map stamp_cell (map snd pairs).
Proof.
  rewrite !map_map. apply map_ext. intros ro. apply working_row_date.
Qed.

Lemma prepare_ohlcv_inv
  (now : Z) (name : string) (df : DataFrame) (config : pydict) (doc : pyval) :
  records df <> [] -> has_column "date" df = true ->
  has_column "symbol" df = true ->
  prepare_ohlcv_dataset to_datetime now name df config = Ok doc ->
  let pairs := dated to_datetime "date" (records df) in
  let wf := {| columns := columns (drop_internal df);
               records := map (working_row "date") pairs |} in
  let dates := map stamp_cell (outcomes to_datetime "date" (records df)) in
  exists stats,
    Forall (fun o => o <> Unparseable) (outcomes to_datetime "date" (records df))
    /\ py_sorted (unique (map (row_get "symbol") (records df)))
       = Ok (isort cell_le (unique (map (row_get "symbol") (records df))))
    /\ foldM (fun stats symbol =>
                let* entry := ohlcv_symbol_stats wf symbol in
                Ok (dict_set (PCell symbol) entry stats))
             (isort cell_le (unique (map (row_get "symbol") (records df)))) []
       = Ok stats
    /\ (forall c, In c ["symbol"; "date"] ->
                  sortable_keys (map (row_get c) (records wf)) = true)
    /\ (forall c, In c price_columns -> has_column c df = true)
    /\ doc = PDict [
         (PStr "name", PStr name);
         (PStr "type", PStr "ohlcv");
         (PStr "description", dict_get_default "description" (PStr "") config);
         (PStr "meta", PDict [
           (PStr "name", PStr name);
           (PStr "source_id", PStr name);
           (PStr "location", PStr "bridge");
           (PStr "format", PStr "dataframe");
           (PStr "record_count", PInt (Z.of_nat (List.length (records df))));
           (PStr "columns", list_columns (drop_internal df));
           (PStr "primary_keys",
              dict_get_default "primary_keys" (PList []) config);
           (PStr "fetched_at", PIso now);
           (PStr "description", dict_get_default "description" (PStr "") config);
           (PStr "symbols",
              PList (map PCell
                         (isort cell_le
                                (unique (map (row_get "symbol") (records df))))))
         ]);
         (PStr "stats", PDict [
           (PStr "date_range", PDict [
             (PStr "min", isoformat (stamp_min dates));
             (PStr "max", isoformat (stamp_max dates));
             (PStr "days", delta_days (stamp_max dates) (stamp_min dates))
           ]);
           (PStr "by_symbol", PDict stats)
         ]);
         (PStr "data",
            PList (map (dated_record price_columns)
                       (isort (by_key_then_date "symbol") pairs)))
       ].
Proof.
  intros Hrows Hd Hs H pairs wf dates. unfold prepare_ohlcv_dataset in H.
  cbv zeta in H.
  rewrite (guard_passed "symbol" df eq_refl Hrows Hd Hs) in H.
  apply bind_Ok_inv in H as (wf0 & Hwf & H).
  apply working_frame in Hwf as (_ & Ho & Ewf). fold pairs in Ewf. fold wf in Ewf.
  subst wf0.
  assert (Hcol : forall c, "date" <> c -> public_label c ->
                           map (row_get c) (records wf)
                           = map (row_get c) (records df)).
  { intros c Hc Hp. unfold wf; cbn [records].
    rewrite working_column by assumption. unfold pairs. rewrite dated_fst.
    reflexivity. }
  assert (Hhas : forall c, public_label c -> has_column c wf = has_column c df).
  { intros c Hp. unfold wf. rewrite has_column_same_columns.
    apply has_column_drop_internal, Hp. }
  apply bind_Ok_inv in H as (col & Ecol & H).
  rewrite getcol_has in Ecol by (rewrite Hhas; [exact Hs | reflexivity]).
  injection Ecol as <-. rewrite Hcol in H by (discriminate || reflexivity).
  apply bind_Ok_inv in H as (symbols & Esym & H).
  pose proof (py_sorted_inv _ _ Esym) as ->.
  apply bind_Ok_inv in H as (stats & Estats & H).
  apply bind_Ok_inv in H as (dcol & Edcol & H).
  rewrite getcol_has in Edcol by (rewrite Hhas; [exact Hd | reflexivity]).
  injection Edcol as <-.
  apply bind_Ok_inv in H as (sorted_df & Esort & H).
  apply sort_values_by_inv in Esort as (Hsortable & ->).
  apply bind_Ok_inv in H as (sample_df & Esel & H).
  apply select_inv in Esel as (Hsel & ->).
  injection H as <-.
  exists stats. split; [exact Ho |]. split; [exact Esym |].
  split; [exact Estats |].
  split; [intros c Hc; apply Hsortable, Hc |].
  split.
  { intros c Hc. rewrite <- Hhas.
    - apply (Hsel c Hc).
    - unfold price_columns in Hc. simpl in Hc.
      destruct Hc as [<- | [<- | [<- | [<- | [<- | [<- | [<- | []]]]]]]];
        reflexivity. }
  assert (Elen : len wf = List.length (records df)).
  { unfold len, wf; cbn [records]. rewrite length_map. unfold pairs, dated.
    rewrite length_combine, outcomes_length. apply Nat.min_id. }
  assert (Edates : map (row_get "date") (records wf) = dates).
  { unfold wf; cbn [records]. rewrite working_dates. unfold pairs.
    rewrite dated_snd. reflexivity. }
  assert (Edata :
            to_records render_date_day
              {| columns := price_columns;
                 records := map (fun r => map (fun c => (c, row_get c r))
                                              price_columns)
                                (isort (lex_le ["symbol"; "date"]) (records wf)) |}
            = PList (map (dated_record price_columns)
                         (isort (by_key_then_date "symbol") pairs))).
  { unfold wf; cbn [records].
    rewrite (isort_map (lex_le ["symbol"; "date"]) (working_row "date")).
    apply (dated_records price_columns df). repeat constructor. }
  rewrite <- Edata, <- Edates, <- Elen. reflexivity.
Qed.

End PricePastGuard.

(** * The macro normalizer past its guard *)

Section MacroPastGuard.

Variable to_datetime : list cell -> nat -> coerced.
Variable tie_rank : list cell -> nat -> nat.

Lemma prepare_fred_inv
  (now : Z) (name : string) (df : DataFrame) (config : pydict)
  (data_type : string) (doc : pyval) :
  records df <> [] -> has_column "date" df = true ->
  has_column "series_id" df = true ->
  prepare_fred_dataset to_datetime tie_rank now name df config data_type = Ok doc ->
  let pairs := dated to_datetime "date" (records df) in
  let wf := {| columns := columns (drop_internal df);
               records := map (working_row "date") pairs |} in
  let dates := map stamp_cell (outcomes to_datetime "date" (records df)) in
  exists stats,
    Forall (fun o => o <> Unparseable) (outcomes to_datetime "date" (records df))
    /\ py_sorted (unique (map (row_get "series_id") (records df)))
       = Ok (isort cell_le (unique (map (row_get "series_id") (records df))))
    /\ foldM (fun stats series_id =>
                let* entry := fred_series_stats tie_rank wf series_id in
                Ok (dict_set (PCell series_id) entry stats))
             (isort cell_le (unique (map (row_get "series_id") (records df)))) []
       = Ok stats
    /\ (forall c, In c ["series_id"; "date"] ->
                  sortable_keys (map (row_get c) (records wf)) = true)
    /\ (forall c, In c macro_columns -> has_column c df = true)
    /\ doc = PDict [
         (PStr "name", PStr name);
         (PStr "type", PStr data_type);
         (PStr "description", dict_get_default "description" (PStr "") config);
         (PStr "meta", PDict [
           (PStr "name", PStr name);
           (PStr "source_id", PStr name);
           (PStr "location", PStr "bridge");
           (PStr "format", PStr "dataframe");
           (PStr "record_count", PInt (Z.of_nat (List.length (records df))));
           (PStr "columns", list_columns (drop_internal df));
           (PStr "primary_keys",
              dict_get_default "primary_keys" (PList []) config);
           (PStr "fetched_at", PIso now);
           (PStr "description", dict_get_default "description" (PStr "") config);
           (PStr "series",
              PList (map PCell
                         (isort cell_le
                                (unique (map (row_get "series_id") (records df))))))
         ]);
         (PStr "stats", PDict [
           (PStr "date_range", PDict [
             (PStr "min", isoformat (stamp_min dates));
             (PStr "max", isoformat (stamp_max dates));
             (PStr "days", delta_days (stamp_max dates) (stamp_min dates))
           ]);
           (PStr "by_series", PDict stats)
         ]);
         (PStr "data",
            PList (map (dated_record macro_columns)
                       (isort (by_key_then_date "series_id") pairs)))
       ].
Proof.
  intros Hrows Hd Hs H pairs wf dates. unfold prepare_fred_dataset in H.
  cbv zeta in H.
  rewrite (guard_passed "series_id" df eq_refl Hrows Hd Hs) in H.
  apply bind_Ok_inv in H as (wf0 & Hwf & H).
  apply (working_frame to_datetime) in Hwf as (_ & Ho & Ewf).
  fold pairs in Ewf. fold wf in Ewf. subst wf0.
  assert (Hcol : forall c, "date" <> c -> public_label c ->
                           map (row_get c) (records wf)
                           = map (row_get c) (records df)).
  { intros c Hc Hp. unfold wf; cbn [records].
    rewrite working_column by assumption. unfold pairs. rewrite dated_fst.
    reflexivity. }
  assert (Hhas : forall c, public_label c -> has_column c wf = has_column c df).
  { intros c Hp. unfold wf. rewrite has_column_same_columns.
    apply has_column_drop_internal, Hp. }
  apply bind_Ok_inv in H as (col & Ecol & H).
  rewrite getcol_has in Ecol by (rewrite Hhas; [exact Hs | reflexivity]).
  injection Ecol as <-. rewrite Hcol in H by (discriminate || reflexivity).
  apply bind_Ok_inv in H as (series_ids & Esym & H).
  pose proof (py_sorted_inv _ _ Esym) as ->.
  apply bind_Ok_inv in H as (stats & Estats & H).
  apply bind_Ok_inv in H as (dcol & Edcol & H).
  rewrite getcol_has in Edcol by (rewrite Hhas; [exact Hd | reflexivity]).
  injection Edcol as <-.
  apply bind_Ok_inv in H as (sorted_df & Esort & H).
  apply sort_values_by_inv in Esort as (Hsortable & ->).
  apply bind_Ok_inv in H as (sample_df & Esel & H).
  apply select_inv in Esel as (Hsel & ->).
  injection H as <-.
  exists stats. split; [exact Ho |]. split; [exact Esym |].
  split; [exact Estats |].
  split; [intros c Hc; apply Hsortable, Hc |].
  split.
  { intros c Hc. rewrite <- Hhas.
    - apply (Hsel c Hc).
    - unfold macro_columns in Hc. simpl in Hc.
      destruct Hc as [<- | [<- | [<- | [<- | [<- | []]]]]]; reflexivity. }
  assert (Elen : len wf = List.length (records df)).
  { unfold len, wf; cbn [records]. rewrite length_map. unfold pairs, dated.
    rewrite length_combine, outcomes_length. apply Nat.min_id. }
  assert (Edates : map (row_get "date") (records wf) = dates).
  { unfold wf; cbn [records]. rewrite working_dates. unfold pairs.
    rewrite dated_snd. reflexivity. }
  assert (Edata :
            to_records render_date_day
              {| columns := macro_columns;
                 records := map (fun r => map (fun c => (c, row_get c r))
                                              macro_columns)
                                (isort (lex_le ["series_id"; "date"])
                                       (records wf)) |}
            = PList (map (dated_record macro_columns)
                         (isort (by_key_then_date "series_id") pairs))).
  { unfold wf; cbn [records].
    rewrite (isort_map (lex_le ["series_id"; "date"]) (working_row "date")).
    apply (dated_records macro_columns df). repeat constructor. }
  rewrite <- Edata, <- Edates, <- Elen. reflexivity.
Qed.

End MacroPastGuard.

(** * The order of the emitted rows *)

Lemma string_compare_leb (s t : string) :
  String.leb s t = match String.compare s t with Gt => false | _ => true end.
Proof. reflexivity. Qed.

Lemma sorted_impl_in {A : Type} (R R' : A -> A -> Prop) (l : list A) :
  (forall a b, In a l -> In b l -> R a b -> R' a b) ->
  StronglySorted R l -> StronglySorted R' l.
Proof.
  intros H Hs. induction Hs as [| x xs Hs IH Hx]; [constructor |].
  constructor.
  - apply IH. intros a b Ha Hb. apply H; right; assumption.
  - rewrite Forall_forall in Hx |- *. intros y Hy.
    apply H; [left; reflexivity | right; exact Hy | apply Hx, Hy].
Qed.

(** The comparison of the sort, on rows whose key is a string. *)
Lemma by_key_then_date_spec (key : string) (x y : row * coerced) :
  public_label key -> "date" <> key ->
  is_str (row_get key (fst x)) = true -> is_str (row_get key (fst y)) = true ->
  by_key_then_date key x y = true <-> key_then_date key x y.
Proof.
  intros Hp Hk Hx Hy. unfold by_key_then_date, key_then_date, key_of.
  cbn [lex_le]. rewrite !working_row_other by assumption.
  rewrite !working_row_date.
  destruct (row_get key (fst x)) as [| s | | |]; try discriminate Hx.
  destruct (row_get key (fst y)) as [| t | | |]; try discriminate Hy.
  cbn [na_last_le is_null cell_le cell_leb].
  unfold String.ltb. rewrite !string_compare_leb.
  rewrite (String.compare_antisym s t).
  destruct (String.compare t s) eqn:E; cbn [CompOpp].
  - apply String.compare_eq_iff in E; subst t.
    assert (Hd : na_last_le (stamp_cell (snd x)) (stamp_cell (snd y)) = true
                 <-> date_le (snd x) (snd y)).
    { destruct (snd x), (snd y); cbn; rewrite ?Z.leb_le; intuition congruence. }
    destruct (na_last_le (stamp_cell (snd x)) (stamp_cell (snd y))).
    + destruct (na_last_le (stamp_cell (snd y)) (stamp_cell (snd x)));
        split; intros _; try reflexivity; right; split; try reflexivity;
        apply Hd; reflexivity.
    + split; [discriminate |]. intros [H | [_ H]]; [discriminate H |].
      apply Hd in H. discriminate H.
  - split; [discriminate |]. intros [H | [H _]]; [discriminate H |].
    subst t. pose proof (String.compare_antisym s s) as A.
    rewrite E in A. discriminate A.
  - split; [intros _; left; reflexivity | reflexivity].
Qed.

Lemma string_ltb_trans (a b c : string) :
  String.ltb a b = true -> String.ltb b c = true -> String.ltb a c = true.
Proof.
  unfold String.ltb. intros Hab Hbc.
  destruct (String.compare a b) eqn:Eab; try discriminate Hab.
  destruct (String.compare b c) eqn:Ebc; try discriminate Hbc.
  apply OrderedTypeEx.String_as_OT.cmp_lt in Eab, Ebc.
  pose proof (OrderedTypeEx.String_as_OT.lt_trans _ _ _ Eab Ebc) as H.
  apply OrderedTypeEx.String_as_OT.cmp_lt in H.
  unfold OrderedTypeEx.String_as_OT.cmp in H. rewrite H; reflexivity.
Qed.

Lemma string_trichotomy (a b : string) :
  String.ltb a b = true \/ a = b \/ String.ltb b a = true.
Proof.
  unfold String.ltb. rewrite (String.compare_antisym b a).
  destruct (String.compare a b) eqn:E; cbn [CompOpp]; auto.
  right; left. apply String.compare_eq_iff, E.
Qed.

Lemma date_le_total (a b : coerced) : date_le a b \/ date_le b a.
Proof. destruct a, b; cbn; auto; lia. Qed.

Lemma date_le_trans (a b c : coerced) :
  date_le a b -> date_le b c -> date_le a c.
Proof. destruct a, b, c; cbn; auto; try lia; tauto. Qed.

Lemma key_then_date_total (key : string) (x y : row * coerced) :
  key_then_date key x y \/ key_then_date key y x.
Proof.
  unfold key_then_date.
  destruct (string_trichotomy (key_of key (fst x)) (key_of key (fst y)))
    as [H | [H | H]]; auto.
  destruct (date_le_total (snd x) (snd y)); [left | right]; right; auto.
Qed.

Lemma key_then_date_trans (key : string) (x y z : row * coerced) :
  key_then_date key x y -> key_then_date key y z -> key_then_date key x z.
Proof.
  unfold key_then_date. intros [Hxy | [Exy Dxy]] [Hyz | [Eyz Dyz]].
  - left. eapply string_ltb_trans; eassumption.
  - left. rewrite <- Eyz. exact Hxy.
  - left. rewrite Exy. exact Hyz.
  - right. split; [congruence | eapply date_le_trans; eassumption].
Qed.

(** The sort by a string key and the date: a rearrangement of the rows,
    ascending by key and then by date with missing dates last, that keeps
    rows of equal key and date in table order. *)
Lemma sorted_by_key_then_date (key : string) (pairs : list (row * coerced)) :
  public_label key -> "date" <> key ->
  Forall (fun ro => is_str (row_get key (fst ro)) = true) pairs ->
  Permutation (isort (by_key_then_date key) pairs) pairs
  /\ StronglySorted (key_then_date key) (isort (by_key_then_date key) pairs)
  /\ forall s o,
       filter (same_sort_key key s o) (isort (by_key_then_date key) pairs)
       = filter (same_sort_key key s o) pairs.
Proof.
  intros Hp Hk Hstr. split; [apply isort_perm |]. split.
  - apply (sorted_impl_in (fun a b => by_key_then_date key a b = true)).
    + intros a b Ha Hb. apply isort_In in Ha, Hb.
      rewrite Forall_forall in Hstr. apply by_key_then_date_spec; auto.
    + apply (isort_sorted (by_key_then_date key)
                          (fun ro => is_str (row_get key (fst ro)) = true)).
      * intros a b Ha Hb. rewrite !by_key_then_date_spec by assumption.
        apply key_then_date_total.
      * intros a b c Ha Hb Hc. rewrite !by_key_then_date_spec by assumption.
        apply key_then_date_trans.
      * exact Hstr.
  - intros s o. apply isort_stable. intros a b Ha Hb.
    unfold same_sort_key in Ha, Hb.
    apply andb_true_iff in Ha as [Ka Da]. apply andb_true_iff in Hb as [Kb Db].
    destruct (row_get key (fst a)) as [| ka | | |] eqn:Ea; try discriminate Ka.
    destruct (row_get key (fst b)) as [| kb | | |] eqn:Eb; try discriminate Kb.
    apply String.eqb_eq in Ka, Kb. subst ka kb.
    apply by_key_then_date_spec; try assumption;
      try (rewrite ?Ea, ?Eb; reflexivity).
    right. unfold key_of. rewrite Ea, Eb. split; [reflexivity |].
    destruct (snd a), (snd b), o; cbn in Da, Db |- *;
      try discriminate; auto.
    apply Z.eqb_eq in Da, Db. lia.
Qed.

Section DataOrder.

Variable to_datetime : list cell -> nat -> coerced.
Variable tie_rank : list cell -> nat -> nat.

Lemma dated_length (c : string) (rows : list row) :
  List.length (dated to_datetime c rows) = List.length rows.
Proof.
  unfold dated. rewrite length_combine, outcomes_length. apply Nat.min_id.
Qed.

Lemma dated_keys (key : string) (p : cell -> bool) (rows : list row) :
  forallb (fun r => p (row_get key r)) rows = true ->
  Forall (fun ro => p (row_get key (fst ro)) = true)
         (dated to_datetime "date" rows).
Proof.
  intros H. apply Forall_forall. intros ro Hin.
  rewrite forallb_forall in H. apply H.
  rewrite <- (dated_fst to_datetime "date" rows). apply in_map, Hin.
Qed.

(** X1: on a well-formed price table the normalizer returns a document
    whose [data] holds one record per row of the table, and
    [record_count] is their number; the records are in ascending order of
    symbol and, within a symbol, of date, a missing date coming after the
    dated rows of its symbol; rows of the same symbol and date stay in
    table order. *)
Theorem price_data_is_sorted_by_symbol_then_date
  (now : Z) (name : string) (df : DataFrame) (config : pydict) :
  price_table to_datetime df ->
  exists doc sorted,
    prepare_ohlcv_dataset to_datetime now name df config = Ok doc
    /\ field ["data"] doc
       = Some (PList (map (dated_record price_columns) sorted))
    /\ field ["meta"; "record_count"] doc
       = Some (PInt (Z.of_nat (List.length (records df))))
    /\ Permutation sorted (dated to_datetime "date" (records df))
    /\ StronglySorted (key_then_date "symbol") sorted
    /\ forall s o,
         filter (same_sort_key "symbol" s o) sorted
         = filter (same_sort_key "symbol" s o)
                  (dated to_datetime "date" (records df)).
Proof.
  intros Hpt.
  destruct (prepare_ohlcv_structure to_datetime now name df config Hpt)
    as (doc & _ & Hdoc & _).
  destruct Hpt as (Hrows & Hcols & Hcells & _).
  cbn [forallb] in Hcols.
  repeat (apply andb_true_iff in Hcols as [?Hc Hcols]).
  destruct (prepare_ohlcv_inv to_datetime now name df config doc
                              Hrows Hc0 Hc Hdoc)
    as (stats & _ & _ & _ & _ & _ & Edoc).
  exists doc, (isort (by_key_then_date "symbol")
                     (dated to_datetime "date" (records df))).
  split; [exact Hdoc |]. subst doc.
  split; [reflexivity |]. split; [reflexivity |].
  apply sorted_by_key_then_date; [reflexivity | discriminate |].
  apply (dated_keys "symbol" is_str).
  rewrite forallb_forall in Hcells |- *. intros r Hr.
  specialize (Hcells r Hr).
  apply andb_true_iff in Hcells as [Hcells _].
  apply andb_true_iff in Hcells as [Hcells _]. exact Hcells.
Qed.

(** X2: on a well-formed macro table the normalizer returns a document
    whose [data] holds one record per row of the table, and
    [record_count] is their number; the records are in ascending order of
    series id and, within a series, of date; rows of the same series and
    date stay in table order. *)
Theorem macro_data_is_sorted_by_series_then_date
  (now : Z) (name : string) (df : DataFrame) (config : pydict)
  (data_type : string) :
  macro_table to_datetime df ->
  exists doc sorted,
    prepare_fred_dataset to_datetime tie_rank now name df config data_type = Ok doc
    /\ field ["data"] doc
       = Some (PList (map (dated_record macro_columns) sorted))
    /\ field ["meta"; "record_count"] doc
       = Some (PInt (Z.of_nat (List.length (records df))))
    /\ Permutation sorted (dated to_datetime "date" (records df))
    /\ StronglySorted (key_then_date "series_id") sorted
    /\ forall s o,
         filter (same_sort_key "series_id" s o) sorted
         = filter (same_sort_key "series_id" s o)
                  (dated to_datetime "date" (records df)).
Proof.
  intros Hmt.
  destruct (prepare_fred_structure to_datetime tie_rank now name df config data_type
              (macro_table_gaps to_datetime df Hmt))
    as (doc & _ & Hdoc & _).
  destruct Hmt as (Hrows & Hcols & Hcells & _).
  cbn [forallb] in Hcols.
  repeat (apply andb_true_iff in Hcols as [?Hc Hcols]).
  destruct (prepare_fred_inv to_datetime tie_rank now name df config data_type doc
                             Hrows Hc0 Hc Hdoc)
    as (stats & _ & _ & _ & _ & _ & Edoc).
  exists doc, (isort (by_key_then_date "series_id")
                     (dated to_datetime "date" (records df))).
  split; [exact Hdoc |]. subst doc.
  split; [reflexivity |]. split; [reflexivity |].
  apply sorted_by_key_then_date; [reflexivity | discriminate |].
  apply (dated_keys "series_id" is_str).
  rewrite forallb_forall in Hcells |- *. intros r Hr.
  specialize (Hcells r Hr).
  apply andb_true_iff in Hcells as [Hcells _]. exact Hcells.
Qed.

End DataOrder.

Lemma price_data_witness :
  price_table to_datetime_plain scenario_prices
  /\ exists doc data,
       prepare_ohlcv_dataset to_datetime_plain 0 "us_indices" scenario_prices []
       = Ok doc
       /\ field ["data"] doc = Some (PList data)
       /\ map (fun d => (field ["symbol"] d, field ["date"] d)) data
          = [(Some (PStr "AAA"), Some (PDay 1)); (Some (PStr "AAA"), Some (PDay 2));
             (Some (PStr "AAA"), Some (PDay 3)); (Some (PStr "ZZZ"), Some (PDay 1));
             (Some (PStr "ZZZ"), Some (PDay 2)); (Some (PStr "ZZZ"), Some (PDay 3))].
Proof.
  assert (H : price_table to_datetime_plain scenario_prices).
  { repeat split; try reflexivity; try discriminate.
    repeat constructor; discriminate. }
  split; [exact H |].
  destruct (price_data_is_sorted_by_symbol_then_date
              to_datetime_plain 0 "us_indices" scenario_prices [] H)
    as (doc & sorted & Hdoc & _).
  exists doc. eexists. split; [exact Hdoc |].
  vm_compute in Hdoc. injection Hdoc as <-.
  split; vm_compute; reflexivity.
Defined.

Lemma macro_data_witness :
  macro_table to_datetime_plain scenario_macro
  /\ exists doc data,
       prepare_fred_dataset to_datetime_plain ties_in_order 0 "fred_rates" scenario_macro []
                            "fred" = Ok doc
       /\ field ["data"] doc = Some (PList data)
       /\ map (field ["date"]) data
          = [Some (PDay 1); Some (PDay 2); Some (PDay 3); Some (PDay 4);
             Some (PDay 5)].
Proof.
  assert (H : macro_table to_datetime_plain scenario_macro)
    by (repeat split; try reflexivity; discriminate).
  split; [exact H |].
  destruct (macro_data_is_sorted_by_series_then_date
              to_datetime_plain ties_in_order 0 "fred_rates" scenario_macro [] "fred" H)
    as (doc & sorted & Hdoc & _).
  exists doc. eexists. split; [exact Hdoc |].
  vm_compute in Hdoc. injection Hdoc as <-.
  split; vm_compute; reflexivity.
Defined.

(** * Counting rows by key *)

Lemma cell_eqb_refl (a : cell) : cell_eqb a a = true.
Proof.
  destruct a; simpl; try reflexivity.
  - apply String.eqb_refl.
  - apply Qeq_bool_iff. reflexivity.
  - apply Qeq_bool_iff. reflexivity.
  - apply Z.eqb_refl.
Qed.

Lemma cell_eqb_trans (a b c : cell) :
  cell_eqb a b = true -> cell_eqb b c = true -> cell_eqb a c = true.
Proof.
  destruct a, b, c; simpl; try discriminate; try (intros; reflexivity);
    rewrite ?String.eqb_eq, ?Z.eqb_eq, ?Qeq_bool_iff;
    try congruence;
    intros H1 H2; rewrite H1; exact H2.
Qed.

(** Each cell has a representative among the distinct values. *)
Lemma unique_complete (l : list cell) (c : cell) :
  In c l -> exists k, In k (unique l) /\ cell_eqb k c = true.
Proof.
  induction l as [| x xs IH]; simpl; [tauto |].
  intros [-> | H].
  - exists c. split; [left; reflexivity | apply cell_eqb_refl].
  - destruct (IH H) as (k & Hk & Ek).
    destruct (cell_eqb x k) eqn:E.
    + exists x. split; [left; reflexivity |].
      eapply cell_eqb_trans; eassumption.
    + exists k. split; [| exact Ek]. right. apply filter_In.
      split; [exact Hk | rewrite E; reflexivity].
Qed.

Lemma series_eq_cell_eqb (c k : cell) :
  series_eq c k = true -> is_null c = false /\ cell_eqb c k = true.
Proof.
  unfold series_eq. intros H.
  apply andb_true_iff in H as [H E]. apply andb_true_iff in H as [H _].
  split; [apply negb_true_iff, H | exact E].
Qed.

(** Among pairwise different keys a cell matches at most one. *)
Lemma matches_of_cell (c : cell) (ks : list cell) :
  ForallOrdPairs (fun a b => cell_eqb a b = false) ks ->
  fold_right (fun k acc => ((if series_eq c k then 1 else 0) + acc)%nat) 0%nat ks
  = if existsb (series_eq c) ks then 1%nat else 0%nat.
Proof.
  induction 1 as [| k ks Hk _ IH]; cbn [fold_right existsb]; [reflexivity |].
  rewrite IH. destruct (series_eq c k) eqn:E; cbn [orb]; [| reflexivity].
  replace (existsb (series_eq c) ks) with false; [reflexivity |].
  symmetry. apply not_true_is_false. intros Hex.
  apply existsb_exists in Hex as (k' & Hin & E').
  apply series_eq_cell_eqb in E as [_ E]. apply series_eq_cell_eqb in E' as [_ E'].
  rewrite Forall_forall in Hk. specialize (Hk k' Hin).
  rewrite cell_eqb_sym in E.
  rewrite (cell_eqb_trans _ _ _ E E') in Hk. discriminate Hk.
Qed.

(** The counts of pairwise different keys add up to the number of cells
    that match one of them. *)
Lemma count_partition (ks l : list cell) :
  ForallOrdPairs (fun a b => cell_eqb a b = false) ks ->
  fold_right (fun k acc => (count_eq k l + acc)%nat) 0%nat ks
  = List.length (filter (fun c => existsb (series_eq c) ks) l).
Proof.
  intros Hd. induction l as [| c l IH].
  - cbn [filter List.length]. clear Hd.
    induction ks as [| k ks IHk]; [reflexivity | exact IHk].
  - cbn [filter].
    assert (E : fold_right (fun k acc => (count_eq k (c :: l) + acc)%nat) 0%nat ks
                = (fold_right (fun k acc =>
                                 ((if series_eq c k then 1 else 0) + acc)%nat)
                              0%nat ks
                   + fold_right (fun k acc => (count_eq k l + acc)%nat) 0%nat ks)%nat).
    { clear. induction ks as [| k ks IHk]; [reflexivity |].
      cbn [fold_right]. rewrite IHk. unfold count_eq. cbn [filter].
      destruct (series_eq c k); cbn [List.length]; lia. }
    rewrite E, IH, (matches_of_cell c ks Hd).
    destruct (existsb (series_eq c) ks); reflexivity.
Qed.

(** The counts of the sorted distinct values of a column add up to the
    number of its cells that are not missing. *)
Lemma count_by_sorted_unique (l : list cell) :
  fold_right (fun k acc => (count_eq k l + acc)%nat) 0%nat
             (isort cell_le (unique l))
  = List.length (filter (fun c => negb (is_null c)) l).
Proof.
  rewrite count_partition by (apply isort_distinct, unique_distinct).
  f_equal. apply filter_ext_in. intros c Hc.
  destruct (is_null c) eqn:En; cbn [negb].
  - apply not_true_is_false. intros Hex.
    apply existsb_exists in Hex as (k & _ & E).
    apply series_eq_cell_eqb in E as [E _]. congruence.
  - apply existsb_exists.
    destruct (unique_complete l c Hc) as (k & Hk & Ek).
    exists k. split; [apply isort_In, Hk |].
    unfold series_eq. rewrite En. cbn [negb andb].
    rewrite cell_eqb_sym, Ek, andb_true_r.
    destruct k; try reflexivity.
    destruct c; discriminate.
Qed.

Lemma count_eq_nonnull (k : cell) (l : list cell) :
  count_eq k (filter (fun c => negb (is_null c)) l) = count_eq k l.
Proof.
  unfold count_eq. induction l as [| c l IH]; [reflexivity |].
  cbn [filter]. destruct (is_null c) eqn:En; cbn [negb filter].
  - replace (series_eq c k) with false; [exact IH |].
    unfold series_eq. rewrite En. reflexivity.
  - destruct (series_eq c k); cbn [List.length]; rewrite IH; reflexivity.
Qed.

Lemma filter_idem {A : Type} (p : A -> bool) (l : list A) :
  filter p (filter p l) = filter p l.
Proof.
  induction l as [| x xs IH]; [reflexivity |].
  cbn [filter]. destruct (p x) eqn:E; cbn [filter]; rewrite ?E, IH; reflexivity.
Qed.

(** The sizes of the groups of [groupby] add up to the number of cells
    that are not missing. *)
Lemma groupby_size_total (entry : cell * nat -> pyval * pyval) (l : list cell) :
  (forall kv, int_value (snd (entry kv)) = Z.of_nat (snd kv)) ->
  sum_of int_value (map entry (groupby_size l))
  = Z.of_nat (List.length (filter (fun c => negb (is_null c)) l)).
Proof.
  intros Hentry. unfold groupby_size.
  set (l' := filter (fun c => negb (is_null c)) l).
  replace (List.length l')
    with (List.length (filter (fun c => negb (is_null c)) l'))
    by (unfold l'; rewrite filter_idem; reflexivity).
  rewrite <- (count_by_sorted_unique l').
  induction (isort cell_le (unique l')) as [| k ks IH]; [reflexivity |].
  cbn [map sum_of fold_right]. rewrite Hentry. cbn [snd].
  fold (sum_of int_value (map entry (map (fun k => (k, count_eq k l)) ks))).
  rewrite IH. unfold l' at 2. rewrite count_eq_nonnull. lia.
Qed.

Section Counts.

Variable to_datetime : list cell -> nat -> coerced.
Variable tie_rank : list cell -> nat -> nat.

(** X3: in every document of a news table with a [published] column the
    counts of [articles_by_day] add up to [record_count], the number of
    usable rows; the counts of [articles_by_feed] add up to the number of
    usable rows whose feed name is not missing, which is at most
    [record_count]. *)
Theorem article_counts_add_up
  (now : Z) (name : string) (df : DataFrame) (config : pydict) (doc : pyval) :
  has_column "published" df = true ->
  prepare_rss_dataset to_datetime tie_rank now name df config = Ok doc ->
  let kept := usable to_datetime (records df) in
  exists by_day by_feed,
    field ["stats"; "articles_by_day"] doc = Some (PDict by_day)
    /\ field ["stats"; "articles_by_feed"] doc = Some (PDict by_feed)
    /\ field ["meta"; "record_count"] doc
       = Some (PInt (Z.of_nat (List.length kept)))
    /\ sum_of int_value by_day = Z.of_nat (List.length kept)
    /\ sum_of int_value by_feed
       = (if has_column "feed_name" df
          then Z.of_nat (List.length
                           (filter (fun c => negb (is_null c)) (feed_names kept)))
          else 0)
    /\ sum_of int_value by_feed <= Z.of_nat (List.length kept).
Proof.
  intros Hpub Hdoc kept.
  destruct (prepare_rss_Ok_inv to_datetime tie_rank now name df config doc Hpub Hdoc)
    as (feeds & ->).
  fold kept. unfold rss_document.
  do 2 eexists. split; [reflexivity |]. split; [reflexivity |].
  split; [reflexivity |].
  assert (Hday : sum_of int_value (map day_entry (groupby_size (published_days kept)))
                 = Z.of_nat (List.length kept)).
  { rewrite groupby_size_total.
    - f_equal. unfold published_days. rewrite filter_all.
      + apply length_map.
      + rewrite forallb_map. apply forallb_forall. reflexivity.
    - intros kv. reflexivity. }
  assert (Hfeed : sum_of int_value (map feed_entry (groupby_size (feed_names kept)))
                  = Z.of_nat (List.length
                                (filter (fun c => negb (is_null c))
                                        (feed_names kept)))).
  { apply groupby_size_total. intros kv. reflexivity. }
  split; [exact Hday |].
  destruct (has_column "feed_name" df).
  - split; [exact Hfeed |]. rewrite Hfeed. apply inj_le.
    etransitivity; [apply filter_length_le |].
    unfold feed_names. rewrite length_map. apply Nat.le_refl.
  - split; [reflexivity |]. cbn. lia.
Qed.

Lemma group_size (c d : string) (k : cell) (pairs : list (row * coerced)) :
  c <> d -> public_label d ->
  List.length (rows_where d k (map (working_row c) pairs))
  = count_eq k (map (row_get d) (map fst pairs)).
Proof.
  intros Hcd Hd. rewrite rows_where_working by assumption.
  rewrite length_map. unfold count_eq. rewrite map_map.
  rewrite <- (map_filter_comm (fun ro => row_get d (fst ro))
                              (fun v => series_eq v k)).
  rewrite length_map. reflexivity.
Qed.

(** X4: on a well-formed price table the [count]s of the entries of
    [by_symbol] add up to [record_count], the number of rows of the
    table: every row is counted under exactly one symbol. *)
Theorem symbol_counts_add_up
  (now : Z) (name : string) (df : DataFrame) (config : pydict) :
  price_table to_datetime df ->
  exists doc stats,
    prepare_ohlcv_dataset to_datetime now name df config = Ok doc
    /\ field ["stats"; "by_symbol"] doc = Some (PDict stats)
    /\ field ["meta"; "record_count"] doc
       = Some (PInt (Z.of_nat (List.length (records df))))
    /\ sum_of count_field stats = Z.of_nat (List.length (records df)).
Proof.
  intros Hpt.
  destruct (prepare_ohlcv_structure to_datetime now name df config Hpt)
    as (doc & stats & Hdoc & Hfield & Hstats).
  destruct Hpt as (Hrows & Hcols & Hcells & _).
  cbn [forallb] in Hcols.
  repeat (apply andb_true_iff in Hcols as [?Hc Hcols]).
  destruct (prepare_ohlcv_inv to_datetime now name df config doc
                              Hrows Hc0 Hc Hdoc)
    as (stats' & _ & _ & _ & _ & _ & Edoc).
  exists doc, stats. split; [exact Hdoc |]. split; [exact Hfield |].
  split; [rewrite Edoc; reflexivity |].
  set (col := map (row_get "symbol") (records df)) in *.
  assert (Hsum : sum_of count_field stats
                 = Z.of_nat (fold_right (fun k acc => (count_eq k col + acc)%nat)
                                        0%nat (isort cell_le (unique col)))).
  { clear - Hstats. induction Hstats as [| k kv ks kvs [_ He] _ IH];
      [reflexivity |].
    cbn [sum_of fold_right]. fold (sum_of count_field kvs). rewrite IH.
    apply ohlcv_symbol_stats_inv in He
      as (dmin & dmax & mean & mn & mx & sd & total & _ & _ & _ & _ & _ & ->).
    cbn [records]. rewrite group_size by (discriminate || reflexivity).
    rewrite dated_fst. fold col.
    unfold count_field. cbn [field dict_lookup key_eqb PStr cell_eqb String.eqb
                             Ascii.eqb Bool.eqb andb int_value PInt].
    lia. }
  rewrite Hsum, count_by_sorted_unique. f_equal.
  rewrite filter_all; [apply length_map |].
  unfold col. rewrite forallb_map. rewrite forallb_forall in Hcells |- *.
  intros r Hr. specialize (Hcells r Hr).
  apply andb_true_iff in Hcells as [Hcells _].
  apply andb_true_iff in Hcells as [Hcells _].
  destruct (row_get "symbol" r); try discriminate Hcells. reflexivity.
Qed.

End Counts.

Lemma article_counts_witness :
  exists doc by_day,
    prepare_rss_dataset to_datetime_plain ties_in_order 0 "fed_news" scenario_news [] = Ok doc
    /\ field ["stats"; "articles_by_day"] doc = Some (PDict by_day)
    /\ sum_of int_value by_day = 5.
Proof.
  destruct (prepare_rss_dataset to_datetime_plain ties_in_order 0 "fed_news" scenario_news [])
    as [doc | e] eqn:Hdoc; [| vm_compute in Hdoc; discriminate Hdoc].
  destruct (article_counts_add_up to_datetime_plain ties_in_order 0 "fed_news" scenario_news
                                  [] doc eq_refl Hdoc)
    as (by_day & by_feed & Hday & _ & _ & Hsum & _).
  exists doc, by_day. split; [reflexivity |]. split; [exact Hday |].
  rewrite Hsum. reflexivity.
Defined.

Lemma symbol_counts_witness :
  price_table to_datetime_plain scenario_prices
  /\ exists doc stats,
       prepare_ohlcv_dataset to_datetime_plain 0 "us_indices" scenario_prices []
       = Ok doc
       /\ field ["stats"; "by_symbol"] doc = Some (PDict stats)
       /\ sum_of count_field stats = 6.
Proof.
  assert (H : price_table to_datetime_plain scenario_prices).
  { repeat split; try reflexivity; try discriminate.
    repeat constructor; discriminate. }
  split; [exact H |].
  destruct (symbol_counts_add_up
              to_datetime_plain 0 "us_indices" scenario_prices [] H)
    as (doc & stats & Hdoc & Hstats & _ & Hsum).
  exists doc, stats. split; [exact Hdoc |]. split; [exact Hstats |].
  rewrite Hsum. reflexivity.
Defined.

(** * Rounding and the extremes of a column *)

Lemma round_half_even_comp (x y : Q) :
  (x == y)%Q -> round_half_even x = round_half_even y.
Proof.
  intros E. unfold round_half_even.
  rewrite (Qfloor_comp x y E).
  assert (E' : (x - inject_Z (Qfloor y) == y - inject_Z (Qfloor y))%Q)
    by (rewrite E; reflexivity).
  rewrite (Qcompare_comp _ _ E' (1 # 2) (1 # 2) (Qeq_refl _)). reflexivity.
Qed.

Lemma round4_comp (x y : Q) :
  (x == y)%Q -> round4 (FRat x) = round4 (FRat y).
Proof.
  intros E. unfold round4.
  rewrite (round_half_even_comp (x * 10000) (y * 10000)); [reflexivity |].
  rewrite E. reflexivity.
Qed.

Lemma round_half_even_bounds (q : Q) :
  Qfloor q <= round_half_even q <= Qfloor q + 1.
Proof.
  unfold round_half_even.
  destruct (Qcompare _ _); [destruct (Z.even _) | |]; lia.
Qed.

Lemma round_half_even_mono (x y : Q) :
  (x <= y)%Q -> round_half_even x <= round_half_even y.
Proof.
  intros Hxy. pose proof (Qfloor_resp_le x y Hxy) as Hf.
  destruct (Z.eq_dec (Qfloor x) (Qfloor y)) as [E | N].
  - unfold round_half_even. rewrite E.
    assert (Hd : (x - inject_Z (Qfloor y) <= y - inject_Z (Qfloor y))%Q)
      by (apply Qplus_le_l; exact Hxy).
    destruct (Qcompare_spec (x - inject_Z (Qfloor y)) (1 # 2)) as [Ex | Lx | Gx];
      destruct (Qcompare_spec (y - inject_Z (Qfloor y)) (1 # 2)) as [Ey | Ly | Gy];
      try destruct (Z.even (Qfloor y)); try lia.
    all: exfalso; apply (Qlt_irrefl (1 # 2));
      first [ eapply Qle_lt_trans; [| exact Ly]; rewrite <- Ex; exact Hd
            | eapply Qlt_le_trans; [exact Gx |]; rewrite <- Ey; exact Hd
            | eapply Qlt_trans; [exact Gx |];
              eapply Qle_lt_trans; [exact Hd | exact Ly] ].
  - pose proof (round_half_even_bounds x). pose proof (round_half_even_bounds y).
    lia.
Qed.

(** [round(x, 4)] is monotone. *)
Lemma round4_mono (x y a b : Q) :
  (x <= y)%Q -> round4 (FRat x) = FRat a -> round4 (FRat y) = FRat b ->
  (a <= b)%Q.
Proof.
  intros Hxy Ha Hb.
  assert (Ea : a = Qred (round_half_even (x * 10000) # 10000))
    by (injection Ha as <-; reflexivity).
  assert (Eb : b = Qred (round_half_even (y * 10000) # 10000))
    by (injection Hb as <-; reflexivity).
  subst a b.
  apply Qle_trans with (round_half_even (x * 10000) # 10000);
    [apply Qle_lteq; right; apply Qred_correct |].
  apply Qle_trans with (round_half_even (y * 10000) # 10000);
    [| apply Qle_lteq; right; symmetry; apply Qred_correct].
  unfold Qle; cbn [Qnum Qden].
  apply Z.mul_le_mono_nonneg_r; [lia |].
  apply round_half_even_mono. apply Qmult_le_compat_r; [exact Hxy | discriminate].
Qed.

Lemma fold_min_init (qs : list Q) (q0 : Q) : (fold_left Qmin qs q0 <= q0)%Q.
Proof.
  revert q0. induction qs as [| a qs IH]; intros q0; cbn [fold_left].
  - apply Qle_refl.
  - eapply Qle_trans; [apply IH | apply Q.le_min_l].
Qed.

Lemma fold_max_init (qs : list Q) (q0 : Q) : (q0 <= fold_left Qmax qs q0)%Q.
Proof.
  revert q0. induction qs as [| a qs IH]; intros q0; cbn [fold_left].
  - apply Qle_refl.
  - eapply Qle_trans; [apply Q.le_max_l | apply IH].
Qed.

Lemma fold_min_le (qs : list Q) (q0 x : Q) :
  In x (q0 :: qs) -> (fold_left Qmin qs q0 <= x)%Q.
Proof.
  revert q0. induction qs as [| a qs IH]; intros q0 Hin; cbn [fold_left].
  - destruct Hin as [E | []]. rewrite <- E. apply Qle_refl.
  - destruct Hin as [E | [E | Hin]].
    + rewrite <- E. apply (fold_min_init (a :: qs) q0).
    + rewrite <- E. eapply Qle_trans; [apply fold_min_init | apply Q.le_min_r].
    + apply IH. right; exact Hin.
Qed.

Lemma fold_max_ge (qs : list Q) (q0 x : Q) :
  In x (q0 :: qs) -> (x <= fold_left Qmax qs q0)%Q.
Proof.
  revert q0. induction qs as [| a qs IH]; intros q0 Hin; cbn [fold_left].
  - destruct Hin as [E | []]. rewrite <- E. apply Qle_refl.
  - destruct Hin as [E | [E | Hin]].
    + rewrite <- E. apply (fold_max_init (a :: qs) q0).
    + rewrite <- E. eapply Qle_trans; [apply Q.le_max_r | apply fold_max_init].
    + apply IH. right; exact Hin.
Qed.

(** A number of a column is among the values that its aggregates see. *)
Lemma numeric_values_In (l : list cell) (qs : list Q) (c : cell) (q : Q) :
  numeric_values l = Ok qs -> In c l -> cell_num c = Some q -> In q qs.
Proof.
  revert qs. induction l as [| x xs IH]; intros qs H Hin Hq; [destruct Hin |].
  cbn [numeric_values] in H.
  destruct x; try discriminate H.
  - destruct Hin as [<- | Hin]; [discriminate Hq | eapply IH; eassumption].
  - apply bind_Ok_inv in H as (qs' & Hqs' & H). injection H as <-.
    destruct Hin as [<- | Hin].
    + injection Hq as <-. left; reflexivity.
    + right. eapply IH; eauto.
  - apply bind_Ok_inv in H as (qs' & Hqs' & H). injection H as <-.
    destruct Hin as [<- | Hin].
    + injection Hq as <-. left; reflexivity.
    + right. eapply IH; eauto.
Qed.

Lemma round4_finite (x : pyfloat) (b : Q) :
  round4 x = FRat b -> (exists q, x = FRat q) \/ (exists q, x = FSqrt q).
Proof.
  destruct x as [| q | q]; [discriminate | left | right]; eexists; reflexivity.
Qed.

(** The latest value of a series lies between its least and its greatest
    value. *)
Lemma fred_series_stats_bounds (tie_rank : list cell -> nat -> nat)
      (wf : DataFrame) (k : cell) (entry : pyval) (a b c : Q) :
  fred_series_stats tie_rank wf k = Ok entry ->
  field ["value_min"] entry = Some (PFloat (FRat a)) ->
  field ["value_latest"] entry = Some (PFloat (FRat b)) ->
  field ["value_max"] entry = Some (PFloat (FRat c)) ->
  (a <= b <= c)%Q.
Proof.
  unfold fred_series_stats. intros H.
  apply bind_Ok_inv in H as (dates & _ & H).
  apply bind_Ok_inv in H as (value & Hvalue & H).
  apply bind_Ok_inv in H as (mean & _ & H).
  apply bind_Ok_inv in H as (mn & Hmn & H).
  apply bind_Ok_inv in H as (mx & Hmx & H).
  apply bind_Ok_inv in H as (by_date & Hsort & H).
  apply bind_Ok_inv in H as (latest_row & Hlast & H).
  apply bind_Ok_inv in H as (latest & Hlatest & H).
  injection H as <-.
  cbn [field dict_lookup key_eqb PStr cell_eqb String.eqb Ascii.eqb Bool.eqb andb].
  intros Ha Hb Hc. injection Ha as Ha. injection Hb as Hb. injection Hc as Hc.
  set (rows := rows_where "series_id" k (records wf)) in *.
  assert (Ev : value = map (row_get "value") rows).
  { unfold getcol in Hvalue. destruct (has_column "value" _); [| discriminate].
    injection Hvalue as <-. reflexivity. }
  assert (Hin : In (row_get "value" latest_row) value).
  { rewrite Ev. apply in_map. apply last_row_In in Hlast.
    unfold sort_values in Hsort.
    destruct (negb (has_column "date" _)); [discriminate |].
    destruct (negb (sortable_keys _)); [discriminate |].
    injection Hsort as <-. cbn [records] in Hlast.
    apply nargsort_In in Hlast. exact Hlast. }
  unfold series_min in Hmn. unfold series_max in Hmx.
  destruct (numeric_values value) as [qs | e] eqn:Hqs; [| discriminate].
  cbn [bind] in Hmn, Hmx. injection Hmn as <-. injection Hmx as <-.
  destruct (row_get "value" latest_row) as [| s | z | q | t] eqn:El;
    cbn [py_float] in Hlatest; try discriminate Hlatest;
    injection Hlatest as <-; try discriminate Hb.
  - assert (Hq : In (inject_Z z) qs)
      by (eapply numeric_values_In; [exact Hqs | exact Hin | reflexivity]).
    destruct qs as [| q0 qs]; [destruct Hq |].
    split.
    + eapply round4_mono; [| exact Ha | exact Hb]. apply fold_min_le, Hq.
    + eapply round4_mono; [| exact Hb | exact Hc]. apply fold_max_ge, Hq.
  - assert (Hq : In q qs)
      by (eapply numeric_values_In; [exact Hqs | exact Hin | reflexivity]).
    destruct qs as [| q0 qs]; [destruct Hq |].
    split.
    + eapply round4_mono; [| exact Ha | exact Hb]. apply fold_min_le, Hq.
    + eapply round4_mono; [| exact Hb | exact Hc]. apply fold_max_ge, Hq.
Qed.

Section Extremes.

Variable to_datetime : list cell -> nat -> coerced.
Variable tie_rank : list cell -> nat -> nat.

(** A table is either stopped by the guard of the price and macro
    normalizers or has rows and the two columns that the guard asks for. *)
Lemma guard_cases (key : string) (df : DataFrame) :
  public_label key ->
  (len (drop_internal df) =? 0)%nat
  || negb (has_column "date" (drop_internal df))
  || negb (has_column key (drop_internal df)) = true
  \/ (records df <> [] /\ has_column "date" df = true
      /\ has_column key df = true).
Proof.
  intros Hk.
  rewrite len_drop_internal, !has_column_drop_internal by (exact Hk || reflexivity).
  unfold len. destruct (records df) as [| r rs]; [left; reflexivity |].
  destruct (has_column "date" df); [| left; reflexivity].
  destruct (has_column key df); [| left; reflexivity].
  right. repeat split; discriminate.
Qed.

(** X5: in every document of the macro normalizer and for every series,
    [value_latest] lies between [value_min] and [value_max] whenever the
    three are numbers (a series without a value has none, a missing
    latest value is not a number). *)
Theorem value_latest_lies_between_min_and_max
  (now : Z) (name : string) (df : DataFrame) (config : pydict)
  (data_type : string) (doc : pyval) (stats : pydict) :
  prepare_fred_dataset to_datetime tie_rank now name df config data_type = Ok doc ->
  field ["stats"; "by_series"] doc = Some (PDict stats) ->
  forall series entry a b c,
    In (series, entry) stats ->
    field ["value_min"] entry = Some (PFloat (FRat a)) ->
    field ["value_latest"] entry = Some (PFloat (FRat b)) ->
    field ["value_max"] entry = Some (PFloat (FRat c)) ->
    (a <= b <= c)%Q.
Proof.
  intros Hdoc Hstats series entry a b c Hin Ha Hb Hc.
  destruct (guard_cases "series_id" df eq_refl) as [G | (Hrows & Hd & Hs)].
  - unfold prepare_fred_dataset in Hdoc. cbv zeta in Hdoc. rewrite G in Hdoc.
    injection Hdoc as <-. cbn in Hstats. injection Hstats as <-.
    destruct Hin.
  - destruct (prepare_fred_inv to_datetime tie_rank now name df config data_type doc
                               Hrows Hd Hs Hdoc)
      as (stats' & _ & _ & Hfold & _ & _ & Edoc).
    rewrite Edoc in Hstats. cbn in Hstats. injection Hstats as <-.
    destruct (foldM_dict_set_values _ _ _ _ Hfold _ Hin)
      as [[] | (k & _ & Hk)].
    cbn [snd] in Hk.
    exact (fred_series_stats_bounds tie_rank _ k entry a b c Hk Ha Hb Hc).
Qed.

End Extremes.

Lemma value_latest_bounds_witness :
  exists doc stats entry,
    prepare_fred_dataset to_datetime_plain ties_in_order 0 "fred_rates" scenario_macro []
                         "fred" = Ok doc
    /\ field ["stats"; "by_series"] doc = Some (PDict stats)
    /\ In (PStr "DFF", entry) stats
    /\ field ["value_min"] entry = Some (PFloat (FRat 1))
    /\ field ["value_latest"] entry = Some (PFloat (FRat 5))
    /\ field ["value_max"] entry = Some (PFloat (FRat 5))
    /\ (1 <= 5 <= 5)%Q.
Proof.
  destruct (prepare_fred_dataset to_datetime_plain ties_in_order 0 "fred_rates"
                                 scenario_macro [] "fred")
    as [doc | e] eqn:Hdoc; [| vm_compute in Hdoc; discriminate Hdoc].
  pose proof Hdoc as Hd. vm_compute in Hd. injection Hd as Hd. subst doc.
  eexists. do 2 eexists.
  split; [reflexivity |]. split; [vm_compute; reflexivity |].
  split; [left; reflexivity |].
  do 3 (split; [vm_compute; reflexivity |]).
  eapply (value_latest_lies_between_min_and_max
            to_datetime_plain ties_in_order 0 "fred_rates" scenario_macro [] "fred" _ _ Hdoc).
  - vm_compute; reflexivity.
  - left; reflexivity.
  - vm_compute; reflexivity.
  - vm_compute; reflexivity.
  - vm_compute; reflexivity.
Defined.

(** * Tables that the price and macro normalizers refuse *)

Section Refused.

Variable to_datetime : list cell -> nat -> coerced.
Variable tie_rank : list cell -> nat -> nat.

(** X6: a price table with rows and the [date] and [symbol] columns that
    lacks one of the seven columns of the category is never normalized:
    the normalizer raises, whatever the rows hold. *)
Theorem price_table_without_a_column_is_refused
  (now : Z) (name : string) (df : DataFrame) (config : pydict) (c : string) :
  records df <> [] -> has_column "date" df = true ->
  has_column "symbol" df = true ->
  In c price_columns -> has_column c df = false ->
  exists e, prepare_ohlcv_dataset to_datetime now name df config = Raise e.
Proof.
  intros Hrows Hd Hs Hc Hmiss.
  destruct (prepare_ohlcv_dataset to_datetime now name df config)
    as [doc | e] eqn:Hdoc; [| exists e; reflexivity].
  destruct (prepare_ohlcv_inv to_datetime now name df config doc
                              Hrows Hd Hs Hdoc)
    as (stats & _ & _ & _ & _ & Hall & _).
  rewrite (Hall c Hc) in Hmiss. discriminate Hmiss.
Qed.

(** X7: a macro table with rows and the [date] and [series_id] columns
    that lacks [value], [title] or [units] is never normalized: the
    normalizer raises.  The defaults that the per-series loop holds ready
    for a table without [title] or [units] (the series id, the empty
    string) therefore reach no document. *)
Theorem macro_table_without_a_column_is_refused
  (now : Z) (name : string) (df : DataFrame) (config : pydict)
  (data_type c : string) :
  records df <> [] -> has_column "date" df = true ->
  has_column "series_id" df = true ->
  In c macro_columns -> has_column c df = false ->
  exists e,
    prepare_fred_dataset to_datetime tie_rank now name df config data_type = Raise e.
Proof.
  intros Hrows Hd Hs Hc Hmiss.
  destruct (prepare_fred_dataset to_datetime tie_rank now name df config data_type)
    as [doc | e] eqn:Hdoc; [| exists e; reflexivity].
  destruct (prepare_fred_inv to_datetime tie_rank now name df config data_type doc
                             Hrows Hd Hs Hdoc)
    as (stats & _ & _ & _ & _ & Hall & _).
  rewrite (Hall c Hc) in Hmiss. discriminate Hmiss.
Qed.

(** X8: one date that does not parse fails the whole table in the price
    and in the macro normalizer: the normalizer raises and no document is
    produced (the news normalizer drops such a row instead). *)
Theorem unparseable_date_fails_the_table
  (now : Z) (name : string) (df : DataFrame) (config : pydict) :
  records df <> [] -> has_column "date" df = true ->
  In Unparseable (outcomes to_datetime "date" (records df)) ->
  (has_column "symbol" df = true ->
   exists e, prepare_ohlcv_dataset to_datetime now name df config = Raise e)
  /\ (has_column "series_id" df = true ->
      forall data_type,
      exists e,
        prepare_fred_dataset to_datetime tie_rank now name df config data_type = Raise e).
Proof.
  intros Hrows Hd Hbad. split.
  - intros Hs.
    destruct (prepare_ohlcv_dataset to_datetime now name df config)
      as [doc | e] eqn:Hdoc; [| exists e; reflexivity].
    destruct (prepare_ohlcv_inv to_datetime now name df config doc
                                Hrows Hd Hs Hdoc) as (stats & Ho & _).
    rewrite Forall_forall in Ho. destruct (Ho _ Hbad eq_refl).
  - intros Hs data_type.
    destruct (prepare_fred_dataset to_datetime tie_rank now name df config data_type)
      as [doc | e] eqn:Hdoc; [| exists e; reflexivity].
    destruct (prepare_fred_inv to_datetime tie_rank now name df config data_type doc
                               Hrows Hd Hs Hdoc) as (stats & Ho & _).
    rewrite Forall_forall in Ho. destruct (Ho _ Hbad eq_refl).
Qed.

End Refused.

Lemma price_table_without_a_column_witness :
  exists e,
    prepare_ohlcv_dataset to_datetime_plain 0 "us_indices" prices_no_open []
    = Raise e.
Proof.
  apply (price_table_without_a_column_is_refused
           to_datetime_plain 0 "us_indices" prices_no_open [] "open").
  - discriminate.
  - reflexivity.
  - reflexivity.
  - right; right; left; reflexivity.
  - reflexivity.
Defined.

Lemma macro_table_without_a_column_witness :
  exists e,
    prepare_fred_dataset to_datetime_plain ties_in_order 0 "fred_rates" macro_no_title []
                         "fred" = Raise e.
Proof.
  apply (macro_table_without_a_column_is_refused
           to_datetime_plain ties_in_order 0 "fred_rates" macro_no_title [] "fred" "title").
  - discriminate.
  - reflexivity.
  - reflexivity.
  - right; right; right; left; reflexivity.
  - reflexivity.
Defined.

Lemma unparseable_date_witness :
  (exists e,
     prepare_ohlcv_dataset to_datetime_plain 0 "us_indices" prices_bad_date []
     = Raise e)
  /\ (exists e,
        prepare_fred_dataset to_datetime_plain ties_in_order 0 "fred_rates" macro_bad_date []
                             "fred" = Raise e).
Proof.
  split.
  - apply (unparseable_date_fails_the_table
             to_datetime_plain ties_in_order 0 "us_indices" prices_bad_date []).
    + discriminate.
    + reflexivity.
    + right; left; reflexivity.
    + reflexivity.
  - apply (unparseable_date_fails_the_table
             to_datetime_plain ties_in_order 0 "fred_rates" macro_bad_date []).
    + discriminate.
    + reflexivity.
    + right; left; reflexivity.
    + reflexivity.
Defined.

(** * A symbol with a single row *)

Lemma Qmean_single (q : Q) : (Qmean [q] == q)%Q.
Proof. unfold Qmean, Qsum, Qcount. cbn. field. Qed.

Lemma aggregates_of_single (c : cell) (q : Q) :
  cell_num c = Some q ->
  exists mean,
    series_mean [c] = Ok mean /\ round4 mean = round4 (FRat q)
    /\ series_min [c] = Ok (FRat q) /\ series_max [c] = Ok (FRat q).
Proof.
  intros Hq. unfold series_mean, series_min, series_max.
  assert (E : numeric_values [c] = Ok [q]).
  { destruct c; try discriminate Hq; injection Hq as <-; reflexivity. }
  rewrite E. cbn [bind fold_left]. eexists. split; [reflexivity |].
  split; [| split; reflexivity].
  apply round4_comp. rewrite Qred_correct. apply Qmean_single.
Qed.

Section SingleRow.

Variable to_datetime : list cell -> nat -> coerced.

(** X9: on a well-formed price table, the entry of a symbol that a single
    row carries has [count] 1 and [close_std] 0, the integer that the
    normalizer puts in place of the undefined deviation of one value; if
    the [close] of that row is a number then [close_mean], [close_min] and
    [close_max] are that number rounded to 4 decimals. *)
Theorem single_row_symbol_statistics
  (now : Z) (name : string) (df : DataFrame) (config : pydict)
  (s : string) (r : row) :
  price_table to_datetime df ->
  rows_carrying "symbol" s (records df) = [r] ->
  exists doc entry,
    prepare_ohlcv_dataset to_datetime now name df config = Ok doc
    /\ field ["stats"; "by_symbol"; s] doc = Some entry
    /\ field ["count"] entry = Some (PInt 1)
    /\ field ["close_std"] entry = Some (PInt 0)
    /\ forall q,
         cell_num (row_get "close" r) = Some q ->
         field ["close_mean"] entry = Some (PFloat (round4 (FRat q)))
         /\ field ["close_min"] entry = Some (PFloat (round4 (FRat q)))
         /\ field ["close_max"] entry = Some (PFloat (round4 (FRat q))).
Proof.
  intros Hpt Hone.
  destruct (prepare_ohlcv_structure to_datetime now name df config Hpt)
    as (doc & stats & Hdoc & Hfield & Hstats).
  destruct (lookup_entry _ _ _ s Hstats) as (entry & Hlook & He).
  { apply isort_In, unique_str_complete, rows_carrying_nonempty.
    rewrite Hone. discriminate. }
  exists doc, entry. split; [exact Hdoc |].
  split.
  { change ["stats"; "by_symbol"; s] with (["stats"; "by_symbol"] ++ [s]).
    rewrite field_app, Hfield. cbn [field]. rewrite Hlook. reflexivity. }
  apply ohlcv_symbol_stats_inv in He
    as (dmin & dmax & mean & mn & mx & sd & total
        & Hmean & Hmn & Hmx & Hsd & _ & ->).
  cbn [records] in Hmean, Hmn, Hmx, Hsd |- *.
  destruct (group_of_key to_datetime "date" "symbol" s (records df))
    as (pairs & Hwhere & _ & Hfst); [discriminate | reflexivity |].
  rewrite Hwhere in Hmean, Hmn, Hmx, Hsd |- *.
  rewrite Hone in Hfst.
  destruct pairs as [| [r' o] [| p pairs]]; try discriminate Hfst.
  cbn [map fst] in Hfst. injection Hfst as ->.
  cbn [map List.length Nat.ltb Nat.leb] in Hsd. subst sd.
  split; [reflexivity |]. split; [reflexivity |].
  intros q Hq. cbn [map] in Hmean, Hmn, Hmx.
  rewrite working_row_other in Hmean, Hmn, Hmx by (discriminate || reflexivity).
  cbn [fst] in Hmean, Hmn, Hmx.
  destruct (aggregates_of_single _ q Hq) as (mean' & Em & Er & Emn & Emx).
  rewrite Em in Hmean. rewrite Emn in Hmn. rewrite Emx in Hmx.
  injection Hmean as <-. injection Hmn as <-. injection Hmx as <-.
  cbn [field dict_lookup key_eqb PStr cell_eqb String.eqb Ascii.eqb Bool.eqb andb].
  rewrite Er. repeat split; reflexivity.
Qed.

End SingleRow.

Lemma single_row_symbol_witness :
  price_table to_datetime_plain prices_single
  /\ exists doc entry,
       prepare_ohlcv_dataset to_datetime_plain 0 "us_indices" prices_single []
       = Ok doc
       /\ field ["stats"; "by_symbol"; "AAA"] doc = Some entry
       /\ field ["close_std"] entry = Some (PInt 0)
       /\ field ["close_mean"] entry = Some (PFloat (FRat 7)).
Proof.
  assert (H : price_table to_datetime_plain prices_single).
  { repeat split; try reflexivity; try discriminate.
    repeat constructor; discriminate. }
  split; [exact H |].
  destruct (single_row_symbol_statistics
              to_datetime_plain 0 "us_indices" prices_single [] "AAA"
              (price_row "AAA" 1 7 10) H eq_refl)
    as (doc & entry & Hdoc & Hentry & _ & Hstd & Hq).
  exists doc, entry. split; [exact Hdoc |]. split; [exact Hentry |].
  split; [exact Hstd |].
  destruct (Hq 7%Q eq_refl) as (Hmean & _). rewrite Hmean. reflexivity.
Defined.

(** * The date range of a macro table *)

Lemma fold_zmin_spec (ts : list Z) (t0 : Z) :
  In (fold_left Z.min ts t0) (t0 :: ts)
  /\ forall t, In t (t0 :: ts) -> fold_left Z.min ts t0 <= t.
Proof.
  revert t0. induction ts as [| a ts IH]; intros t0; cbn [fold_left].
  - split; [left; reflexivity |]. intros t [<- | []]. lia.
  - destruct (IH (Z.min t0 a)) as [Hin Hle]. split.
    + destruct Hin as [E | Hin]; [| right; right; exact Hin].
      rewrite <- E. destruct (Z.min_spec t0 a) as [[_ ->] | [_ ->]];
        [left; reflexivity | right; left; reflexivity].
    + intros t [<- | [<- | Ht]].
      * specialize (Hle _ (or_introl eq_refl)). lia.
      * specialize (Hle _ (or_introl eq_refl)). lia.
      * apply Hle. right; exact Ht.
Qed.

Lemma fold_zmax_spec (ts : list Z) (t0 : Z) :
  In (fold_left Z.max ts t0) (t0 :: ts)
  /\ forall t, In t (t0 :: ts) -> t <= fold_left Z.max ts t0.
Proof.
  revert t0. induction ts as [| a ts IH]; intros t0; cbn [fold_left].
  - split; [left; reflexivity |]. intros t [<- | []]. lia.
  - destruct (IH (Z.max t0 a)) as [Hin Hle]. split.
    + destruct Hin as [E | Hin]; [| right; right; exact Hin].
      rewrite <- E. destruct (Z.max_spec t0 a) as [[_ ->] | [_ ->]];
        [right; left; reflexivity | left; reflexivity].
    + intros t [<- | [<- | Ht]].
      * specialize (Hle _ (or_introl eq_refl)). lia.
      * specialize (Hle _ (or_introl eq_refl)). lia.
      * apply Hle. right; exact Ht.
Qed.

Lemma stamps_of_outcomes (os : list coerced) (t : Z) :
  In t (stamps (map stamp_cell os)) <-> In (Stamp t) os.
Proof.
  induction os as [| o os IH]; cbn [map stamps flat_map]; [tauto |].
  fold (stamps (map stamp_cell os)).
  rewrite in_app_iff, IH. destruct o as [u | |]; cbn; split;
    intros [H | H]; auto; try discriminate H; try tauto.
  - destruct H as [<- | []]. left; reflexivity.
  - injection H as <-. left; left; reflexivity.
Qed.

Section DateRange.

Variable to_datetime : list cell -> nat -> coerced.
Variable tie_rank : list cell -> nat -> nat.

(** X10: on a well-formed macro table the bounds of [date_range] are
    dates of the table, no date of the table lies outside them, and
    [days] is the whole number of days from the first to the second,
    which is not negative. *)
Theorem macro_date_range_spans_the_dates
  (now : Z) (name : string) (df : DataFrame) (config : pydict)
  (data_type : string) :
  macro_table to_datetime df ->
  exists doc lo hi,
    prepare_fred_dataset to_datetime tie_rank now name df config data_type = Ok doc
    /\ field ["stats"; "date_range"] doc
       = Some (PDict [(PStr "min", PIso lo); (PStr "max", PIso hi);
                      (PStr "days", PInt ((hi - lo) / ns_per_day))])
    /\ In (Stamp lo) (outcomes to_datetime "date" (records df))
    /\ In (Stamp hi) (outcomes to_datetime "date" (records df))
    /\ (forall t, In (Stamp t) (outcomes to_datetime "date" (records df)) ->
                  lo <= t <= hi)
    /\ 0 <= (hi - lo) / ns_per_day.
Proof.
  intros Hmt.
  destruct (prepare_fred_structure to_datetime tie_rank now name df config data_type
              (macro_table_gaps to_datetime df Hmt))
    as (doc & _ & Hdoc & _).
  destruct Hmt as (Hrows & Hcols & _ & Hdates).
  cbn [forallb] in Hcols.
  repeat (apply andb_true_iff in Hcols as [?Hc Hcols]).
  destruct (prepare_fred_inv to_datetime tie_rank now name df config data_type doc
                             Hrows Hc0 Hc Hdoc)
    as (stats & _ & _ & _ & _ & _ & Edoc).
  set (os := outcomes to_datetime "date" (records df)) in *.
  destruct (stamps (map stamp_cell os)) as [| t0 ts] eqn:Ets.
  { exfalso. destruct os as [| o os'] eqn:Eos.
    - apply (f_equal (@List.length coerced)) in Eos. unfold os in Eos.
      rewrite outcomes_length in Eos.
      destruct (records df); [contradiction | discriminate Eos].
    - cbn [forallb] in Hdates. apply andb_true_iff in Hdates as [Ho _].
      destruct o; try discriminate Ho. discriminate Ets. }
  destruct (fold_zmin_spec ts t0) as (Hlo_in & Hlo).
  destruct (fold_zmax_spec ts t0) as (Hhi_in & Hhi).
  exists doc, (fold_left Z.min ts t0), (fold_left Z.max ts t0).
  split; [exact Hdoc |].
  split.
  { rewrite Edoc. unfold stamp_min, stamp_max. rewrite Ets. reflexivity. }
  rewrite <- Ets in Hlo_in, Hhi_in, Hlo, Hhi.
  split; [apply stamps_of_outcomes, Hlo_in |].
  split; [apply stamps_of_outcomes, Hhi_in |].
  split.
  - intros t Ht. apply stamps_of_outcomes in Ht. split; auto.
  - apply Z.div_pos; [| reflexivity].
    specialize (Hhi _ Hlo_in). lia.
Qed.

End DateRange.

Lemma macro_date_range_witness :
  macro_table to_datetime_plain scenario_macro
  /\ exists doc,
       prepare_fred_dataset to_datetime_plain ties_in_order 0 "fred_rates" scenario_macro []
                            "fred" = Ok doc
       /\ field ["stats"; "date_range"; "days"] doc = Some (PInt 4).
Proof.
  assert (H : macro_table to_datetime_plain scenario_macro)
    by (repeat split; try reflexivity; discriminate).
  split; [exact H |].
  destruct (macro_date_range_spans_the_dates
              to_datetime_plain ties_in_order 0 "fred_rates" scenario_macro [] "fred" H)
    as (doc & lo & hi & Hdoc & _).
  exists doc. split; [exact Hdoc |].
  vm_compute in Hdoc. injection Hdoc as <-. reflexivity.
Defined.

(** * The order of cells and of rows *)

Lemma na_last_le_trans (a b c : cell) :
  na_last_le a b = true -> na_last_le b c = true -> na_last_le a c = true.
Proof.
  unfold na_last_le.
  destruct (is_null a), (is_null b), (is_null c); try discriminate;
    try reflexivity.
  apply cell_le_trans.
Qed.

Lemma lex_le_trans (by_ : list string) (r1 r2 r3 : row) :
  lex_le by_ r1 r2 = true -> lex_le by_ r2 r3 = true -> lex_le by_ r1 r3 = true.
Proof.
  induction by_ as [| c cs IH]; [reflexivity |]. cbn [lex_le].
  set (a := row_get c r1). set (b := row_get c r2). set (d := row_get c r3).
  destruct (na_last_le a b) eqn:Eab; [| discriminate].
  destruct (na_last_le b d) eqn:Ebd; [| intros _; discriminate].
  rewrite (na_last_le_trans a b d Eab Ebd).
  destruct (na_last_le d a) eqn:Eda; [| reflexivity].
  rewrite (na_last_le_trans b d a Ebd Eda).
  rewrite (na_last_le_trans d a b Eda Eab).
  exact IH.
Qed.

Lemma na_last_le_total (a b : cell) :
  (is_null a = false -> is_null b = false -> comparable a b = true) ->
  na_last_le a b = true \/ na_last_le b a = true.
Proof.
  intros H. unfold na_last_le.
  destruct (is_null a) eqn:Na, (is_null b) eqn:Nb; auto.
  apply cell_le_total, H; reflexivity.
Qed.

Lemma lex_le_total (by_ : list string) (rows : list row) (r1 r2 : row) :
  (forall c, In c by_ -> sortable_keys (map (row_get c) rows) = true) ->
  In r1 rows -> In r2 rows ->
  lex_le by_ r1 r2 = true \/ lex_le by_ r2 r1 = true.
Proof.
  intros Hs H1 H2. induction by_ as [| c cs IH]; [left; reflexivity |].
  cbn [lex_le].
  destruct (na_last_le_total (row_get c r1) (row_get c r2)) as [E | E].
  { intros N1 N2.
    apply (sortable_keys_comparable (map (row_get c) rows));
      [apply Hs; left; reflexivity | apply in_map, H1 | apply in_map, H2
       | exact N1 | exact N2]. }
  - rewrite E. destruct (na_last_le (row_get c r2) (row_get c r1));
      [| left; reflexivity].
    apply IH. intros c' Hc'. apply Hs. right; exact Hc'.
  - rewrite E. destruct (na_last_le (row_get c r1) (row_get c r2));
      [| right; reflexivity].
    apply IH. intros c' Hc'. apply Hs. right; exact Hc'.
Qed.

(** A sort whose comparison depends on the public cells only does not see
    the internal ones. *)
Lemma lex_le_public (by_ : list string) (r1 r2 : row) :
  Forall public_label by_ ->
  lex_le by_ (filter (fun kv => negb (startswith_underscore (fst kv))) r1)
             (filter (fun kv => negb (startswith_underscore (fst kv))) r2)
  = lex_le by_ r1 r2.
Proof.
  induction 1 as [| c cs Hc _ IH]; [reflexivity |]. cbn [lex_le].
  rewrite !(row_get_filter (fun k => negb (startswith_underscore k)))
    by (unfold public_label in Hc; rewrite Hc; reflexivity).
  rewrite IH. reflexivity.
Qed.

(** [sorted] on the distinct values of a column gives them in ascending
    order. *)
Lemma py_sorted_sorted (l keys : list cell) :
  py_sorted l = Ok keys ->
  StronglySorted (fun a b => cell_le a b = true) keys.
Proof.
  intros H. pose proof (py_sorted_inv _ _ H) as ->.
  destruct l as [| x [| y ys]].
  - constructor.
  - repeat constructor.
  - unfold py_sorted in H.
    destruct (forallb (comparable x) (x :: y :: ys)) eqn:F; [| discriminate].
    rewrite forallb_forall in F.
    apply (isort_sorted cell_le (fun c => comparable x c = true)).
    + intros a b Ha Hb. apply cell_le_total. eapply comparable_trans; eassumption.
    + intros a b c _ _ _. apply cell_le_trans.
    + apply Forall_forall, F.
Qed.

(** * The stress normalizer *)

Section Stress.

Variable str_scalar : cell -> string.
Variable tie_rank : list cell -> nat -> nat.

Lemma stress_sort_columns_spec (df : DataFrame) :
  (if has_column "year" (drop_internal df) then ["year"] else [])
    ++ (if has_column "table" (drop_internal df) then ["table"] else [])
    ++ (if has_column "date" (drop_internal df) then ["date"] else [])
  = stress_sort_columns df.
Proof.
  unfold stress_sort_columns. cbn [filter].
  rewrite !has_column_drop_internal by reflexivity.
  destruct (has_column "year" df), (has_column "table" df),
    (has_column "date" df); reflexivity.
Qed.

Lemma stress_sort_columns_public (df : DataFrame) :
  Forall public_label (stress_sort_columns df).
Proof.
  apply Forall_forall. intros c Hc. unfold stress_sort_columns in Hc.
  apply filter_In in Hc as [Hc _].
  destruct Hc as [<- | [<- | [<- | []]]]; reflexivity.
Qed.

Lemma drop_internal_public (df : DataFrame) :
  Forall public_label (columns (drop_internal df)).
Proof.
  apply Forall_forall. intros c Hc. unfold drop_internal in Hc; cbn in Hc.
  apply filter_In in Hc as [_ Hc]. apply negb_true_iff, Hc.
Qed.

(** The keys that the normalizer lists for a column: nothing when the
    table lacks the column, else its distinct values in ascending order. *)
Lemma listed_keys (df : DataFrame) (c : string) (keys : list cell) :
  public_label c ->
  (if has_column c (drop_internal df)
   then let* col := getcol c (drop_internal df) in py_sorted (unique col)
   else Ok []) = Ok keys ->
  if has_column c df
  then py_sorted (unique (map (row_get c) (records df))) = Ok keys
  else keys = [].
Proof.
  intros Hc. rewrite has_column_drop_internal by exact Hc.
  destruct (has_column c df) eqn:E.
  - rewrite getcol_has by (rewrite has_column_drop_internal; assumption).
    cbn [bind]. rewrite column_drop_internal by exact Hc. tauto.
  - intros H; injection H as <-; reflexivity.
Qed.

Lemma prepare_fed_stress_inv
  (now : Z) (name : string) (df : DataFrame) (config : pydict) (doc : pyval) :
  prepare_fed_stress_dataset str_scalar tie_rank now name df config = Ok doc ->
  exists years scenarios periods,
    (if has_column "year" df
     then py_sorted (unique (map (row_get "year") (records df))) = Ok years
     else years = [])
    /\ (if has_column "table" df
        then py_sorted (unique (map (row_get "table") (records df)))
             = Ok scenarios
        else scenarios = [])
    /\ (if has_column "date" df
        then py_sorted (unique (map (astype_str str_scalar)
                                    (map (row_get "date") (records df))))
             = Ok periods
        else periods = [])
    /\ (forall c, In c (stress_sort_columns df) ->
                  sortable_keys (map (row_get c) (records df)) = true)
    /\ doc = PDict [
         (PStr "name", PStr name);
         (PStr "type", PStr "fed_stress");
         (PStr "description", dict_get_default "description" (PStr "") config);
         (PStr "meta", PDict [
           (PStr "name", PStr name);
           (PStr "source_id", PStr name);
           (PStr "location", PStr "bridge");
           (PStr "format", PStr "dataframe");
           (PStr "record_count", PInt (Z.of_nat (List.length (records df))));
           (PStr "columns", list_columns (drop_internal df));
           (PStr "primary_keys",
              dict_get_default "primary_keys" (PList []) config);
           (PStr "fetched_at", PIso now);
           (PStr "description", dict_get_default "description" (PStr "") config);
           (PStr "years", PList (map PCell years));
           (PStr "scenarios", PList (map PCell scenarios))
         ]);
         (PStr "stats", PDict [
           (PStr "date_range", PDict [
             (PStr "min", str_or_none str_scalar (hd_error periods));
             (PStr "max", str_or_none str_scalar (hd_error (rev periods)));
             (PStr "days", PInt 0)
           ]);
           (PStr "years", PList (map PCell years));
           (PStr "scenarios", PList (map PCell scenarios));
           (PStr "record_count", PInt (Z.of_nat (List.length (records df))))
         ]);
         (PStr "data",
            PList (map (raw_record (columns (drop_internal df)))
                       (stress_sorted_rows tie_rank df)))
       ].
Proof.
  intros H. unfold prepare_fed_stress_dataset in H. cbv zeta in H.
  apply bind_Ok_inv in H as (years & Hyears & H).
  apply (listed_keys df "year" years eq_refl) in Hyears.
  apply bind_Ok_inv in H as (scenarios & Hscen & H).
  apply (listed_keys df "table" scenarios eq_refl) in Hscen.
  apply bind_Ok_inv in H as (bounds & Hbounds & H).
  assert (Hper : exists periods,
             (if has_column "date" df
              then py_sorted (unique (map (astype_str str_scalar)
                                          (map (row_get "date") (records df))))
                   = Ok periods
              else periods = [])
             /\ bounds = (hd_error periods, hd_error (rev periods))).
  { rewrite has_column_drop_internal in Hbounds by reflexivity.
    destruct (has_column "date" df) eqn:E.
    - rewrite getcol_has in Hbounds
        by (rewrite has_column_drop_internal; [assumption | reflexivity]).
      cbn [bind] in Hbounds. rewrite column_drop_internal in Hbounds by reflexivity.
      apply bind_Ok_inv in Hbounds as (periods & Hp & Hbounds).
      injection Hbounds as <-. exists periods. split; [exact Hp | reflexivity].
    - injection Hbounds as <-. exists []. split; reflexivity. }
  destruct Hper as (periods & Hperiods & ->).
  rewrite stress_sort_columns_spec in H.
  apply bind_Ok_inv in H as (sample_df & Hsample & H).
  injection H as <-.
  set (keep := fun kv : string * cell => negb (startswith_underscore (fst kv))).
  assert (Hrows : records sample_df
                  = map (filter keep) (stress_sorted_rows tie_rank df)
                  /\ columns sample_df = columns (drop_internal df)
                  /\ forall c, In c (stress_sort_columns df) ->
                               sortable_keys (map (row_get c) (records df)) = true).
  { pose proof (stress_sort_columns_public df) as Hpub.
    unfold stress_sorted_rows.
    destruct (stress_sort_columns df) as [| c [| c' cs]] eqn:Esc.
    - injection Hsample as <-. split; [reflexivity |].
      split; [reflexivity |]. intros c [].
    - inversion Hpub as [| ? ? Hc _]; subst.
      cbn [sort_values_list] in Hsample. unfold sort_values in Hsample.
      destruct (negb (has_column c (drop_internal df))); [discriminate |].
      destruct (negb (sortable_keys _)) eqn:Hk; [discriminate |].
      injection Hsample as <-. cbn [records columns].
      split; [| split; [reflexivity |]].
      + unfold drop_internal; cbn [records]. fold keep.
        rewrite nargsort_map. f_equal. apply nargsort_ext. intros r.
        apply (row_get_filter (fun k => negb (startswith_underscore k))).
        unfold public_label in Hc. rewrite Hc. reflexivity.
      + intros c0 [<- | []]. apply negb_false_iff in Hk.
        rewrite column_drop_internal in Hk by exact Hc. exact Hk.
    - cbn [sort_values_list] in Hsample.
      apply sort_values_by_inv in Hsample as (Hs & ->). cbn [records columns].
      split; [| split; [reflexivity |]].
      + unfold drop_internal; cbn [records]. fold keep.
        rewrite isort_map. f_equal. apply isort_ext. intros a b.
        apply lex_le_public. exact Hpub.
      + intros c0 Hc0. destruct (Hs c0 Hc0) as [_ Hk].
        rewrite column_drop_internal in Hk; [exact Hk |].
        rewrite Forall_forall in Hpub. apply Hpub, Hc0. }
  destruct Hrows as (Erows & Ecols & Hsortable).
  exists years, scenarios, periods.
  split; [exact Hyears |]. split; [exact Hscen |]. split; [exact Hperiods |].
  split; [exact Hsortable |].
  assert (Edata : to_records render_raw sample_df
                  = PList (map (raw_record (columns (drop_internal df)))
                               (stress_sorted_rows tie_rank df))).
  { unfold to_records. rewrite Erows, Ecols, map_map. f_equal.
    apply map_ext. intros r. unfold raw_record. f_equal.
    apply map_ext_in. intros c Hc. unfold render_raw.
    rewrite (row_get_filter (fun k => negb (startswith_underscore k)));
      [reflexivity |].
    pose proof (drop_internal_public df) as Hp. rewrite Forall_forall in Hp.
    specialize (Hp c Hc). unfold public_label in Hp. rewrite Hp. reflexivity. }
  rewrite Edata, len_drop_internal. reflexivity.
Qed.

(** The rows that the normalizer emits are the rows of the table, in the
    lexicographic order of its sort columns. *)
Lemma stress_sorted_rows_spec (df : DataFrame) :
  (forall c, In c (stress_sort_columns df) ->
             sortable_keys (map (row_get c) (records df)) = true) ->
  Permutation (stress_sorted_rows tie_rank df) (records df)
  /\ StronglySorted (fun a b => lex_le (stress_sort_columns df) a b = true)
                    (stress_sorted_rows tie_rank df)
  /\ (stress_sort_columns df = [] -> stress_sorted_rows tie_rank df = records df).
Proof.
  intros Hs. unfold stress_sorted_rows.
  destruct (stress_sort_columns df) as [| c [| c' cs]] eqn:Esc.
  - split; [apply Permutation_refl |]. split; [| reflexivity].
    clear Hs. induction (records df) as [| r rs IH]; [constructor |].
    constructor; [exact IH |]. apply Forall_forall. reflexivity.
  - split; [apply nargsort_perm |]. split; [| discriminate].
    apply (sorted_impl
             (fun a b => na_last_le (row_get c a) (row_get c b) = true)).
    { intros a b H. cbn [lex_le]. rewrite H.
      destruct (na_last_le (row_get c b) (row_get c a)); reflexivity. }
    apply nargsort_sorted. apply Hs. left; reflexivity.
  - split; [apply isort_perm |]. split; [| discriminate].
    apply (isort_sorted (lex_le (c :: c' :: cs)) (fun r => In r (records df))).
    + intros a b Ha Hb.
      apply (lex_le_total (c :: c' :: cs) (records df)); assumption.
    + intros a b c0 _ _ _. apply lex_le_trans.
    + apply Forall_forall. auto.
Qed.

End Stress.

(** * What the stress normalizer emits *)

Lemma py_sorted_lists_values (col keys : list cell) :
  py_sorted (unique col) = Ok keys -> lists_values_of col keys.
Proof.
  intros H. pose proof (py_sorted_sorted _ _ H) as Hs.
  pose proof (py_sorted_inv _ _ H) as ->.
  split; [| split; [| split]].
  - intros k Hk. apply isort_In in Hk. apply unique_In, Hk.
  - intros v Hv. destruct (unique_complete col v Hv) as (k & Hk & E).
    exists k. split; [apply isort_In, Hk | exact E].
  - apply isort_distinct, unique_distinct.
  - exact Hs.
Qed.

Lemma sorted_head {A : Type} (R : A -> A -> Prop) (x : A) (l : list A) :
  StronglySorted R (x :: l) -> forall y, In y l -> R x y.
Proof.
  intros H y Hy. inversion H as [| ? ? _ Hall]; subst.
  rewrite Forall_forall in Hall. apply Hall, Hy.
Qed.

Lemma string_leb_refl (s : string) : String.leb s s = true.
Proof. destruct (String.leb_total s s); assumption. Qed.

Section StressClaims.

Variable str_scalar : cell -> string.
Variable tie_rank : list cell -> nat -> nat.

(** On a table without rows every step of the stress normalizer
    returns. *)
Lemma fed_stress_returns_without_rows
  (now : Z) (name : string) (df : DataFrame) (config : pydict) :
  records df = [] ->
  exists doc, prepare_fed_stress_dataset str_scalar tie_rank now name df config = Ok doc.
Proof.
  intros Hrows. unfold prepare_fed_stress_dataset. cbv zeta.
  assert (Hrec : records (drop_internal df) = [])
    by (unfold drop_internal; cbn [records]; rewrite Hrows; reflexivity).
  assert (Hcol : forall c, has_column c (drop_internal df) = true ->
                           getcol c (drop_internal df) = Ok []).
  { intros c Hc. rewrite getcol_has by exact Hc. rewrite Hrec. reflexivity. }
  assert (Hsort : forall by_,
             (forall c, In c by_ -> has_column c (drop_internal df) = true) ->
             exists s, sort_values_list tie_rank by_ (drop_internal df) = Ok s).
  { intros by_ Hby.
    destruct (sort_values_list_Ok tie_rank by_ (drop_internal df)) as (rows & E).
    - intros c Hc. split; [apply Hby, Hc | rewrite Hrec; reflexivity].
    - eexists; exact E. }
  destruct (has_column "year" (drop_internal df)) eqn:Ey;
    destruct (has_column "table" (drop_internal df)) eqn:Et;
    destruct (has_column "date" (drop_internal df)) eqn:Ed;
    rewrite ?Hcol by assumption; cbn [bind map unique py_sorted app];
    try (eexists; reflexivity);
    match goal with
    | |- context [sort_values_list _ ?by_ _] =>
        let s := fresh "s" in
        let E := fresh "E" in
        destruct (Hsort by_) as (s & E);
          [ intros c Hc; cbn [In] in Hc;
            repeat (destruct Hc as [<- | Hc]; [assumption |]); destruct Hc
          | rewrite E; cbn [bind]; eexists; reflexivity ]
    end.
Qed.

(** X11: every document of the stress normalizer holds in [data] one
    record per row of the table, each with the cells of its row under the
    columns that do not start with an underscore, and both record counts
    are the number of rows; the records are in lexicographic order of the
    columns year, table and date that the table has (missing values
    last), and in table order when it has none of them. *)
Theorem stress_data_is_the_sorted_table
  (now : Z) (name : string) (df : DataFrame) (config : pydict) (doc : pyval) :
  prepare_fed_stress_dataset str_scalar tie_rank now name df config = Ok doc ->
  exists sorted,
    field ["data"] doc
    = Some (PList (map (raw_record (columns (drop_internal df))) sorted))
    /\ Permutation sorted (records df)
    /\ StronglySorted (fun a b => lex_le (stress_sort_columns df) a b = true)
                      sorted
    /\ (stress_sort_columns df = [] -> sorted = records df)
    /\ Forall public_label (columns (drop_internal df))
    /\ field ["meta"; "record_count"] doc
       = Some (PInt (Z.of_nat (List.length (records df))))
    /\ field ["stats"; "record_count"] doc
       = Some (PInt (Z.of_nat (List.length (records df)))).
Proof.
  intros H.
  destruct (prepare_fed_stress_inv str_scalar tie_rank now name df config doc H)
    as (years & scenarios & periods & _ & _ & _ & Hsortable & ->).
  destruct (stress_sorted_rows_spec tie_rank df Hsortable)
    as (Hperm & Hsorted & Htable).
  exists (stress_sorted_rows tie_rank df).
  split; [reflexivity |]. split; [exact Hperm |].
  split; [exact Hsorted |]. split; [exact Htable |].
  split; [apply drop_internal_public |].
  split; reflexivity.
Qed.

(** X12: in every document of the stress normalizer for a table whose
    columns year and table hold no missing value, [years] and
    [scenarios], under [meta] and under [stats] alike, list the values of
    these columns: every distinct value once, in ascending order; they are
    empty for a table without the column.  (With a NaN among the years
    Python's [sorted] gives a list in no order.) *)
Theorem stress_years_and_scenarios_list_the_columns
  (now : Z) (name : string) (df : DataFrame) (config : pydict) (doc : pyval) :
  prepare_fed_stress_dataset str_scalar tie_rank now name df config = Ok doc ->
  no_missing "year" df ->
  no_missing "table" df ->
  exists years scenarios,
    field ["meta"; "years"] doc = Some (PList (map PCell years))
    /\ field ["stats"; "years"] doc = Some (PList (map PCell years))
    /\ field ["meta"; "scenarios"] doc = Some (PList (map PCell scenarios))
    /\ field ["stats"; "scenarios"] doc = Some (PList (map PCell scenarios))
    /\ (if has_column "year" df
        then lists_values_of (map (row_get "year") (records df)) years
        else years = [])
    /\ (if has_column "table" df
        then lists_values_of (map (row_get "table") (records df)) scenarios
        else scenarios = []).
Proof.
  intros H _ _.
  destruct (prepare_fed_stress_inv str_scalar tie_rank now name df config doc H)
    as (years & scenarios & periods & Hy & Hs & _ & _ & ->).
  exists years, scenarios. do 4 (split; [reflexivity |]).
  split.
  - destruct (has_column "year" df); [apply py_sorted_lists_values |]; exact Hy.
  - destruct (has_column "table" df); [apply py_sorted_lists_values |]; exact Hs.
Qed.

(** X13: for a table with rows and a [date] column, the bounds of
    [date_range] in a document of the stress normalizer are the least and
    the greatest of the dates taken as strings, in the order of strings; a
    bound that is the empty string is emitted as null. *)
Theorem stress_date_range_is_by_string_order
  (now : Z) (name : string) (df : DataFrame) (config : pydict) (doc : pyval) :
  prepare_fed_stress_dataset str_scalar tie_rank now name df config = Ok doc ->
  has_column "date" df = true -> records df <> [] ->
  let dates := map (astype_str str_scalar) (map (row_get "date") (records df)) in
  exists lo hi,
    In (CStr lo) dates /\ In (CStr hi) dates
    /\ (forall s, In (CStr s) dates ->
                  String.leb lo s = true /\ String.leb s hi = true)
    /\ field ["stats"; "date_range"; "min"] doc
       = Some (if String.eqb lo "" then PNone else PStr lo)
    /\ field ["stats"; "date_range"; "max"] doc
       = Some (if String.eqb hi "" then PNone else PStr hi).
Proof.
  intros H Hdate Hrows dates.
  destruct (prepare_fed_stress_inv str_scalar tie_rank now name df config doc H)
    as (years & scenarios & periods & _ & _ & Hp & _ & ->).
  rewrite Hdate in Hp. fold dates in Hp.
  pose proof (py_sorted_sorted _ _ Hp) as Hsorted.
  pose proof (py_sorted_inv _ _ Hp) as Ep.
  assert (Hstr : forall c, In c periods -> exists s, c = CStr s /\ In (CStr s) dates).
  { intros c Hc. rewrite Ep in Hc. apply isort_In, unique_In in Hc.
    pose proof Hc as Hc'. unfold dates in Hc'.
    apply in_map_iff in Hc' as (c0 & E & _).
    destruct c0; cbn in E; subst c; eexists; split; try reflexivity; exact Hc. }
  assert (Hall : forall s, In (CStr s) dates -> In (CStr s) periods).
  { intros s Hs. rewrite Ep. apply isort_In, unique_str_complete, Hs. }
  assert (Hne : periods <> []).
  { destruct (records df) as [| r rs] eqn:Er; [contradiction |].
    destruct (astype_str str_scalar (row_get "date" r)) as [| s | | |] eqn:Es;
      try (destruct (row_get "date" r); discriminate Es).
    assert (Hin : In (CStr s) dates) by (unfold dates; cbn [map]; left; exact Es).
    intros E. apply Hall in Hin. rewrite E in Hin. destruct Hin. }
  destruct periods as [| first rest] eqn:Eperiods; [contradiction |].
  destruct (rev (first :: rest)) as [| last front] eqn:Erev.
  { apply (f_equal (@List.length cell)) in Erev. rewrite length_rev in Erev.
    discriminate Erev. }
  assert (Esnoc : first :: rest = rev front ++ [last]).
  { rewrite <- (rev_involutive (first :: rest)), Erev. reflexivity. }
  destruct (Hstr first (or_introl eq_refl)) as (lo & -> & Hlo).
  destruct (Hstr last) as (hi & -> & Hhi).
  { rewrite Esnoc. apply in_or_app. right; left; reflexivity. }
  exists lo, hi. split; [exact Hlo |]. split; [exact Hhi |].
  split; [| split; reflexivity].
  intros s Hs. apply Hall in Hs. split.
  - destruct Hs as [E | Hs]; [injection E as <-; apply string_leb_refl |].
    exact (sorted_head _ _ _ Hsorted _ Hs).
  - rewrite Esnoc in Hs, Hsorted. apply in_app_or in Hs as [Hs | [E | []]].
    + apply sorted_snoc in Hsorted. rewrite Forall_forall in Hsorted.
      exact (Hsorted _ Hs).
    + injection E as <-. apply string_leb_refl.
Qed.

(** X14: the stress normalizer has no guard for a table without rows: it
    returns a document with both record counts 0, no data, no years, no
    scenarios and the null date range, whatever columns the table has. *)
Theorem stress_table_without_rows
  (now : Z) (name : string) (df : DataFrame) (config : pydict) :
  records df = [] ->
  exists doc,
    prepare_fed_stress_dataset str_scalar tie_rank now name df config = Ok doc
    /\ field ["data"] doc = Some (PList [])
    /\ field ["meta"; "record_count"] doc = Some (PInt 0)
    /\ field ["stats"; "record_count"] doc = Some (PInt 0)
    /\ field ["stats"; "years"] doc = Some (PList [])
    /\ field ["stats"; "scenarios"] doc = Some (PList [])
    /\ field ["stats"; "date_range"] doc = Some null_date_range.
Proof.
  intros Hrows.
  destruct (fed_stress_returns_without_rows now name df config Hrows)
    as (doc & Hdoc).
  exists doc. split; [exact Hdoc |].
  destruct (prepare_fed_stress_inv str_scalar tie_rank now name df config doc Hdoc)
    as (years & scenarios & periods & Hy & Hs & Hp & Hsortable & ->).
  assert (Ed : stress_sorted_rows tie_rank df = []).
  { destruct (stress_sorted_rows_spec tie_rank df Hsortable) as (Hperm & _).
    rewrite Hrows in Hperm. apply Permutation_sym, Permutation_nil in Hperm.
    exact Hperm. }
  rewrite Ed.
  rewrite Hrows in *. cbn [map unique py_sorted] in Hy, Hs, Hp.
  assert (Ey : years = []) by (destruct (has_column "year" df); congruence).
  assert (Es : scenarios = []) by (destruct (has_column "table" df); congruence).
  assert (Ep : periods = []) by (destruct (has_column "date" df); congruence).
  subst. repeat split; reflexivity.
Qed.

End StressClaims.

Lemma stress_data_witness :
  exists doc data,
    prepare_fed_stress_dataset (fun _ => "") ties_in_order 0 "stress" stress_quarters []
    = Ok doc
    /\ field ["data"] doc = Some (PList data)
    /\ map (field ["date"]) data
       = [Some (PStr "2024 Q4"); Some (PStr "2025 Q1"); Some (PStr "2025 Q2")]
    /\ map (field ["_fetched_at"]) data = [None; None; None].
Proof.
  destruct (prepare_fed_stress_dataset (fun _ => "") ties_in_order 0 "stress" stress_quarters [])
    as [doc | e] eqn:Hdoc; [| vm_compute in Hdoc; discriminate Hdoc].
  destruct (stress_data_is_the_sorted_table
              (fun _ => "") ties_in_order 0 "stress" stress_quarters [] doc Hdoc)
    as (sorted & Hdata & _).
  exists doc. eexists. split; [reflexivity |].
  vm_compute in Hdoc. injection Hdoc as <-.
  split; [vm_compute; reflexivity |]. split; vm_compute; reflexivity.
Defined.

Lemma stress_years_witness :
  exists doc,
    prepare_fed_stress_dataset (fun _ => "") ties_in_order 0 "stress" stress_quarters []
    = Ok doc
    /\ field ["stats"; "years"] doc = Some (PList [PInt 2024; PInt 2025])
    /\ field ["stats"; "scenarios"] doc
       = Some (PList [PStr "Baseline"; PStr "Severely Adverse"]).
Proof.
  destruct (prepare_fed_stress_dataset (fun _ => "") ties_in_order 0 "stress" stress_quarters [])
    as [doc | e] eqn:Hdoc; [| vm_compute in Hdoc; discriminate Hdoc].
  destruct (stress_years_and_scenarios_list_the_columns
              (fun _ => "") ties_in_order 0 "stress" stress_quarters [] doc Hdoc)
    as (years & scenarios & _ & Hy & _ & Hs & _);
    [intros _; reflexivity | intros _; reflexivity |].
  exists doc. split; [reflexivity |].
  vm_compute in Hdoc. injection Hdoc as <-. split; reflexivity.
Defined.

Lemma stress_date_range_witness :
  exists doc,
    prepare_fed_stress_dataset (fun _ => "") ties_in_order 0 "stress" stress_quarters []
    = Ok doc
    /\ field ["stats"; "date_range"; "min"] doc = Some (PStr "2024 Q4")
    /\ field ["stats"; "date_range"; "max"] doc = Some (PStr "2025 Q2").
Proof.
  destruct (prepare_fed_stress_dataset (fun _ => "") ties_in_order 0 "stress" stress_quarters [])
    as [doc | e] eqn:Hdoc; [| vm_compute in Hdoc; discriminate Hdoc].
  destruct (stress_date_range_is_by_string_order
              (fun _ => "") ties_in_order 0 "stress" stress_quarters [] doc Hdoc eq_refl)
    as (lo & hi & _); [discriminate |].
  exists doc. split; [reflexivity |].
  vm_compute in Hdoc. injection Hdoc as <-. split; reflexivity.
Defined.

Lemma stress_table_without_rows_witness :
  exists doc,
    prepare_fed_stress_dataset (fun _ => "") ties_in_order 0 "stress" stress_no_rows []
    = Ok doc
    /\ field ["meta"; "record_count"] doc = Some (PInt 0)
    /\ field ["stats"; "date_range"] doc = Some null_date_range.
Proof.
  destruct (stress_table_without_rows
              (fun _ => "") ties_in_order 0 "stress" stress_no_rows [] eq_refl)
    as (doc & Hdoc & _ & Hcount & _ & _ & _ & Hrange).
  exists doc. split; [exact Hdoc |]. split; [exact Hcount | exact Hrange].
Defined.

(** * A news table without a usable row *)

Section NoUsableRow.

Variable to_datetime : list cell -> nat -> coerced.
Variable tie_rank : list cell -> nat -> nat.

(** X15: a news table with a [published] column none of whose cells
    converts to a timestamp is normalized without an exception into a
    zero-record document: no data, no feeds, empty counts by feed and by
    day, the null date range, whatever number of rows the table has. *)
Theorem news_without_usable_rows
  (now : Z) (name : string) (df : DataFrame) (config : pydict) :
  has_column "published" df = true ->
  usable to_datetime (records df) = [] ->
  exists doc,
    prepare_rss_dataset to_datetime tie_rank now name df config = Ok doc
    /\ zero_record_document "feeds" "articles_by_feed" doc
    /\ field ["stats"; "articles_by_day"] doc = Some (PDict []).
Proof.
  intros Hpub Hkept.
  rewrite (prepare_rss_structure to_datetime tie_rank now name df config Hpub).
  cbv zeta. rewrite Hkept.
  assert (Hfeeds : (if has_column "feed_name" df
                    then py_sorted (unique (feed_names [])) else Ok [])
                   = Ok []) by (destruct (has_column "feed_name" df); reflexivity).
  rewrite Hfeeds. cbn [bind]. eexists. split; [reflexivity |].
  unfold zero_record_document, rss_document.
  destruct (has_column "feed_name" df); repeat split; reflexivity.
Qed.

End NoUsableRow.

Lemma news_without_usable_rows_witness :
  exists doc,
    prepare_rss_dataset to_datetime_plain ties_in_order 0 "fed_news" news_all_bad [] = Ok doc
    /\ field ["meta"; "record_count"] doc = Some (PInt 0)
    /\ field ["data"] doc = Some (PList []).
Proof.
  destruct (news_without_usable_rows to_datetime_plain ties_in_order 0 "fed_news"
                                     news_all_bad [] eq_refl eq_refl)
    as (doc & Hdoc & (Hdata & Hcount & _) & _).
  exists doc. split; [exact Hdoc |]. split; [exact Hcount | exact Hdata].
Defined.

(** * More about the run *)

Lemma foldM_app {A S : Type} (f : S -> A -> result S) (l1 l2 : list A) (s : S) :
  foldM f (l1 ++ l2) s = let* s' := foldM f l1 s in foldM f l2 s'.
Proof.
  revert s. induction l1 as [| x xs IH]; intros s; [reflexivity |].
  cbn [app foldM]. destruct (f s x); [apply IH | reflexivity].
Qed.

Lemma flat_map_filter_nil {A B : Type} (f : A -> list B) (p : A -> bool)
      (l : list A) :
  (forall x, In x l -> p x = false -> f x = []) ->
  flat_map f (filter p l) = flat_map f l.
Proof.
  induction l as [| x xs IH]; intros H; [reflexivity |].
  cbn [filter flat_map]. destruct (p x) eqn:E.
  - cbn [flat_map]. rewrite IH; [reflexivity |].
    intros y Hy. apply H. right; exact Hy.
  - rewrite (H x (or_introl eq_refl) E). cbn [app]. apply IH.
    intros y Hy. apply H. right; exact Hy.
Qed.

Section TypeField.

Variable to_datetime : list cell -> nat -> coerced.
Variable str_scalar : cell -> string.
Variable tie_rank : list cell -> nat -> nat.

Lemma prepare_fred_type now name df config data_type doc :
  prepare_fred_dataset to_datetime tie_rank now name df config data_type = Ok doc ->
  field ["type"] doc = Some (PStr data_type).
Proof.
  unfold prepare_fred_dataset. intros H.
  destruct (_ || _ || _) in H.
  - injection H as <-. reflexivity.
  - bind_inv H. injection H as <-. reflexivity.
Qed.

Lemma prepare_rss_type now name df config doc :
  prepare_rss_dataset to_datetime tie_rank now name df config = Ok doc ->
  field ["type"] doc = Some (PStr "rss").
Proof.
  unfold prepare_rss_dataset. intros H.
  destruct (_ =? _)%nat in H.
  - injection H as <-. reflexivity.
  - bind_inv H. injection H as <-. reflexivity.
Qed.

Lemma prepare_fed_stress_type now name df config doc :
  prepare_fed_stress_dataset str_scalar tie_rank now name df config = Ok doc ->
  field ["type"] doc = Some (PStr "fed_stress").
Proof.
  unfold prepare_fed_stress_dataset. intros H.
  bind_inv H. injection H as <-. reflexivity.
Qed.

End TypeField.

Section MoreRun.

Variable to_datetime : list cell -> nat -> coerced.
Variable str_scalar : cell -> string.
Variable tie_rank : list cell -> nat -> nat.
Variable env : Environment.

(** X16: the two subscripts that the loop makes before its [try] are not
    guarded: at the first declared dataset that lacks [type] or [config]
    the run ends with an uncaught [KeyError], for [type] when it is
    missing and else for [config]; no summary collection is written,
    whatever the datasets after it would have given. *)
Theorem unguarded_lookup_aborts_the_run
  (pre post : list (string * pydict)) (item : string * pydict) :
  DATASETS env = pre ++ item :: post ->
  Forall well_configured pre ->
  ~ well_configured item ->
  main to_datetime str_scalar tie_rank env
  = Uncaught (KeyError (match dict_lookup (PStr "type") (snd item) with
                        | None => "type"
                        | Some _ => "config"
                        end)).
Proof.
  intros Hds Hpre Hbad. unfold main. rewrite Hds, foldM_app.
  destruct (loop_total to_datetime str_scalar tie_rank env pre
              {| public_files := []; all_datasets := []; errors := [] |} Hpre)
    as (st & ->).
  cbn [bind foldM]. unfold loop_body at 1, dict_getitem.
  destruct (dict_lookup (PStr "type") (snd item)) as [ty |] eqn:Et;
    [| reflexivity].
  destruct (dict_lookup (PStr "config") (snd item)) as [cp |] eqn:Ec;
    [| reflexivity].
  exfalso. apply Hbad. unfold well_configured. rewrite Et, Ec.
  split; discriminate.
Qed.

Lemma passed_over_attempt (item : string * pydict) :
  passed_over env item = true ->
  attempt to_datetime str_scalar tie_rank env item = Ok None.
Proof.
  unfold passed_over, attempt. destruct (restricted env (fst item));
    [reflexivity |].
  cbn [orb]. destruct (dict_lookup (PStr "type") (snd item)) as [ty |];
    [| discriminate].
  intros H. destruct (dict_lookup (PStr "config") (snd item)) as [cp |];
    [| reflexivity].
  apply negb_true_iff in H. unfold known_source_type in H.
  repeat (apply orb_false_iff in H as [H ?E]).
  unfold fetch_and_normalize, fetch. rewrite H, E, E0, E1, E2. reflexivity.
Qed.

(** X17: a declared dataset that the loop passes over (a restricted one
    in a public build, or one of an unknown source type) leaves no trace:
    on well-configured entries the run has the outcome of the run from
    which these datasets are removed: the same published documents, the
    same summary collection, the same errors and the same exit status. *)
Theorem passed_over_datasets_leave_no_trace :
  Forall well_configured (DATASETS env) ->
  main to_datetime str_scalar tie_rank env
  = main to_datetime str_scalar tie_rank
         (with_datasets env
            (filter (fun item => negb (passed_over env item)) (DATASETS env))).
Proof.
  intros Hw.
  set (kept := filter (fun item => negb (passed_over env item)) (DATASETS env)).
  assert (Hw' : Forall well_configured kept).
  { apply Forall_forall. intros item Hin. apply filter_In in Hin as [Hin _].
    rewrite Forall_forall in Hw. apply Hw, Hin. }
  unfold main. cbn [DATASETS with_datasets].
  destruct (loop_total to_datetime str_scalar tie_rank env (DATASETS env)
              {| public_files := []; all_datasets := []; errors := [] |} Hw)
    as (st & Hst).
  destruct (loop_total to_datetime str_scalar tie_rank (with_datasets env kept) kept
              {| public_files := []; all_datasets := []; errors := [] |} Hw')
    as (st' & Hst').
  rewrite Hst, Hst'.
  apply loop_run in Hst as (_ & Hp & Ha & He).
  apply loop_run in Hst' as (_ & Hp' & Ha' & He').
  cbn [public_files all_datasets errors app] in Hp, Ha, He, Hp', Ha', He'.
  assert (Eem : flat_map (emitted_by to_datetime str_scalar tie_rank (with_datasets env kept))
                         kept
                = flat_map (emitted_by to_datetime str_scalar tie_rank env) (DATASETS env)).
  { change (emitted_by to_datetime str_scalar tie_rank (with_datasets env kept))
      with (emitted_by to_datetime str_scalar tie_rank env).
    apply flat_map_filter_nil. intros item _ Hpo.
    apply negb_false_iff in Hpo. unfold emitted_by.
    rewrite (passed_over_attempt item Hpo). reflexivity. }
  assert (Eer : flat_map (error_of to_datetime str_scalar tie_rank (with_datasets env kept))
                         kept
                = flat_map (error_of to_datetime str_scalar tie_rank env) (DATASETS env)).
  { change (error_of to_datetime str_scalar tie_rank (with_datasets env kept))
      with (error_of to_datetime str_scalar tie_rank env).
    apply flat_map_filter_nil. intros item _ Hpo.
    apply negb_false_iff in Hpo. unfold error_of.
    rewrite (passed_over_attempt item Hpo). reflexivity. }
  rewrite Eem in Hp', Ha'. rewrite Eer in He'.
  destruct st as [p a e], st' as [p' a' e'].
  cbn [public_files all_datasets errors] in *. subst. reflexivity.
Qed.

(** X18: in a public build ([INCLUDE_RESTRICTED_DATA] false) a finished
    run publishes no price document: the type of every published
    document and of every summary entry is one of rss, fred, bls and
    fed_stress. *)
Theorem public_build_emits_no_price_document
  (st : run_state) (datasets_json : pyval) (status : Z) :
  INCLUDE_RESTRICTED_DATA env = false ->
  main to_datetime str_scalar tie_rank env = Finished st datasets_json status ->
  Forall (fun f => exists t, field ["type"] (snd f) = Some (PStr t)
                             /\ In t public_types)
         (public_files st)
  /\ Forall (fun d => exists t, field ["type"] d = Some (PStr t)
                                /\ In t public_types)
            (all_datasets st).
Proof.
  intros Hpub. unfold main.
  destruct (foldM _ (DATASETS env) _) as [st0 | e] eqn:Hst; [| discriminate].
  intros H; injection H as <- _ _.
  apply loop_run in Hst as (_ & Hp & Ha & _). cbn [public_files all_datasets app] in Hp, Ha.
  assert (Hfiles : Forall (fun f => canonical_document (snd f)
                                    /\ exists t, field ["type"] (snd f) = Some (PStr t)
                                                 /\ In t public_types)
                          (public_files st0)).
  { rewrite Hp. apply Forall_forall. intros f Hf.
    apply in_flat_map in Hf as (item & _ & Hf). unfold emitted_by in Hf.
    destruct (attempt to_datetime str_scalar tie_rank env item) as [[doc |] | e] eqn:E;
      [| destruct Hf | destruct Hf].
    destruct Hf as [<- | []]. cbn [snd].
    split; [apply (attempt_canonical to_datetime str_scalar tie_rank env item), E |].
    unfold attempt, restricted in E. rewrite Hpub in E. cbn [negb andb] in E.
    destruct (mem (fst item) (OHLCV_DATASETS env)) eqn:Eo; [discriminate |].
    destruct (dict_lookup (PStr "type") (snd item)); [| discriminate].
    destruct (dict_lookup (PStr "config") (snd item)); [| discriminate].
    unfold fetch_and_normalize in E.
    apply bind_Ok_inv in E as ([df |] & _ & E); [| discriminate E].
    unfold normalize in E. rewrite Eo in E. unfold public_types.
    repeat match type of E with
           | (if ?b then _ else _) = _ => destruct b
           end;
      try discriminate E;
      apply bind_Ok_inv in E as (d & Hd & E); injection E as <-.
    - exists "rss". split; [eapply prepare_rss_type; exact Hd | cbn; auto].
    - exists "fred". split; [eapply prepare_fred_type; exact Hd | cbn; auto].
    - exists "bls". split; [eapply prepare_fred_type; exact Hd | cbn; auto].
    - exists "fed_stress".
      split; [eapply prepare_fed_stress_type; exact Hd | cbn; auto]. }
  split.
  - eapply Forall_impl; [| exact Hfiles]. intros f [_ H]. exact H.
  - rewrite Ha, <- Hp. apply Forall_forall. intros d Hd.
    apply in_map_iff in Hd as (f & <- & Hf).
    rewrite Forall_forall in Hfiles. destruct (Hfiles f Hf) as (Hc & t & Ht & Hin).
    exists t. split; [| exact Hin].
    destruct (without_data_fields (snd f) Hc) as (_ & Hk).
    destruct (Hk "type") as (v & Hv & Hv'); [right; left; reflexivity |].
    rewrite Hv'. rewrite <- Hv. exact Ht.
Qed.

End MoreRun.

Section RunErrors.

Variable to_datetime : list cell -> nat -> coerced.
Variable str_scalar : cell -> string.
Variable tie_rank : list cell -> nat -> nat.
Variable env : Environment.

Lemma fetch_missing_key (name t k : string) (cfg : pydict) :
  find (lacks_key cfg) (required_keys t) = Some k ->
  fetch env name (PStr t) (PDict cfg) = Raise (KeyError k).
Proof.
  unfold required_keys, fetch. cbn [key_eqb PStr cell_eqb].
  rewrite !(String.eqb_sym t).
  assert (Hget : forall k', lacks_key cfg k' = true ->
                            py_getitem k' (PDict cfg) = Raise (KeyError k')).
  { intros k' Hk. unfold lacks_key in Hk. unfold py_getitem, dict_getitem.
    destruct (dict_lookup (PStr k') cfg); [discriminate | reflexivity]. }
  assert (Hhas : forall k', lacks_key cfg k' = false ->
                            exists v, py_getitem k' (PDict cfg) = Ok v).
  { intros k' Hk. unfold lacks_key in Hk. unfold py_getitem, dict_getitem.
    destruct (dict_lookup (PStr k') cfg) as [v |]; [| discriminate].
    exists v; reflexivity. }
  destruct ("yfinance" =? t)%string.
  { cbn [find]. destruct (lacks_key cfg "symbols") eqn:E; [| discriminate].
    intros H; injection H as <-. rewrite (Hget _ E). reflexivity. }
  destruct ("rss" =? t)%string.
  { cbn [find]. destruct (lacks_key cfg "feeds") eqn:E; [| discriminate].
    intros H; injection H as <-. rewrite (Hget _ E). reflexivity. }
  destruct ("fred" =? t)%string.
  { cbn [find]. destruct (lacks_key cfg "series") eqn:E; [| discriminate].
    intros H; injection H as <-. rewrite (Hget _ E). reflexivity. }
  destruct ("bls" =? t)%string.
  { cbn [find]. destruct (lacks_key cfg "series") eqn:E; [| discriminate].
    intros H; injection H as <-. rewrite (Hget _ E). reflexivity. }
  destruct ("fed_stress" =? t)%string; [| discriminate].
  cbn [find]. destruct (lacks_key cfg "years") eqn:E.
  { intros H; injection H as <-. rewrite (Hget _ E). reflexivity. }
  destruct (lacks_key cfg "scenarios") eqn:E'; [| discriminate].
  intros H; injection H as <-.
  destruct (Hhas _ E) as (v & ->). cbn [bind]. rewrite (Hget _ E'). reflexivity.
Qed.

(** X19: a dataset of a known source type whose [config] lacks a key that
    the fetch subscripts (symbols; feeds; series; years, scenarios) is not
    fetched: the run finishes with exit status 1 and records for it the
    line made of its name and of the first missing key in quotes. *)
Theorem missing_config_key_is_recorded
  (item : string * pydict) (t k : string) (cfg : pydict) :
  Forall well_configured (DATASETS env) ->
  In item (DATASETS env) ->
  restricted env (fst item) = false ->
  dict_lookup (PStr "type") (snd item) = Some (PStr t) ->
  dict_lookup (PStr "config") (snd item) = Some (PDict cfg) ->
  find (lacks_key cfg) (required_keys t) = Some k ->
  exists st,
    main to_datetime str_scalar tie_rank env = Finished st (PList (all_datasets st)) 1
    /\ In (fst item ++ ": '" ++ k ++ "'")%string (errors st).
Proof.
  intros Hw Hin Hr Ht Hc Hk. unfold main.
  destruct (loop_total to_datetime str_scalar tie_rank env (DATASETS env)
              {| public_files := []; all_datasets := []; errors := [] |} Hw)
    as (st & Hst).
  rewrite Hst. apply loop_run in Hst as (_ & _ & _ & He).
  cbn [errors app] in He.
  assert (Hline : In (fst item ++ ": '" ++ k ++ "'")%string (errors st)).
  { rewrite He. apply in_flat_map. exists item. split; [exact Hin |].
    unfold error_of, attempt. rewrite Hr, Ht, Hc.
    unfold fetch_and_normalize. rewrite (fetch_missing_key _ _ _ _ Hk).
    cbn [bind str_exn]. left; reflexivity. }
  exists st. split; [| exact Hline].
  destruct (errors st); [destruct Hline | reflexivity].
Qed.

Lemma normalize_without_rows (name : string) (df : DataFrame) (cfg : pydict) :
  records df = [] -> categorized env name = true ->
  exists doc,
    normalize to_datetime str_scalar tie_rank env name df cfg = Ok (Some doc)
    /\ field ["meta"; "record_count"] doc = Some (PInt 0)
    /\ field ["data"] doc = Some (PList []).
Proof.
  intros Hrows Hcat. unfold normalize, categorized in *.
  assert (Hprice : forall key, public_label key ->
             (len (drop_internal df) =? 0)%nat
             || negb (has_column "date" (drop_internal df))
             || negb (has_column key (drop_internal df)) = true).
  { intros key Hk. apply degenerate_guard; [exact Hk | left; exact Hrows]. }
  destruct (mem name (OHLCV_DATASETS env)).
  { unfold prepare_ohlcv_dataset. cbv zeta. rewrite (Hprice "symbol" eq_refl).
    cbn [bind]. eexists. repeat split; reflexivity. }
  destruct (mem name (RSS_DATASETS env)).
  { unfold prepare_rss_dataset. cbv zeta. rewrite len_drop_internal.
    unfold len. rewrite Hrows. cbn [List.length Nat.eqb bind].
    eexists. repeat split; reflexivity. }
  destruct (mem name (FRED_DATASETS env)).
  { unfold prepare_fred_dataset. cbv zeta. rewrite (Hprice "series_id" eq_refl).
    cbn [bind]. eexists. repeat split; reflexivity. }
  destruct (mem name (BLS_DATASETS env)).
  { unfold prepare_fred_dataset. cbv zeta. rewrite (Hprice "series_id" eq_refl).
    cbn [bind]. eexists. repeat split; reflexivity. }
  destruct (mem name (FED_STRESS_DATASETS env)); [| discriminate Hcat].
  destruct (fed_stress_returns_without_rows
              str_scalar tie_rank (utcnow env name) name df cfg Hrows)
    as (doc & Hdoc).
  rewrite Hdoc. cbn [bind]. exists doc. split; [reflexivity |].
  destruct (prepare_fed_stress_inv str_scalar tie_rank _ name df cfg doc Hdoc)
    as (years & scenarios & periods & _ & _ & _ & Hsortable & ->).
  destruct (stress_sorted_rows_spec tie_rank df Hsortable) as (Hperm & _).
  rewrite Hrows in Hperm. apply Permutation_sym, Permutation_nil in Hperm.
  rewrite Hperm, Hrows. split; reflexivity.
Qed.

(** X20: a fetch that returns a table without rows is not an error: for
    a dataset of one of the five categories the run publishes a document
    with [record_count] 0 and no [data] under the name of the dataset,
    and records no error for it. *)
Theorem empty_fetch_is_published
  (item : string * pydict) (source_type config_params : pyval)
  (df : DataFrame) :
  Forall well_configured (DATASETS env) ->
  In item (DATASETS env) ->
  restricted env (fst item) = false ->
  dict_lookup (PStr "type") (snd item) = Some source_type ->
  dict_lookup (PStr "config") (snd item) = Some config_params ->
  fetch env (fst item) source_type config_params = Ok (Some df) ->
  records df = [] ->
  categorized env (fst item) = true ->
  exists st status doc,
    main to_datetime str_scalar tie_rank env
    = Finished st (PList (all_datasets st)) status
    /\ In ((fst item ++ ".json")%string, doc) (public_files st)
    /\ field ["meta"; "record_count"] doc = Some (PInt 0)
    /\ field ["data"] doc = Some (PList [])
    /\ error_of to_datetime str_scalar tie_rank env item = [].
Proof.
  intros Hw Hin Hr Ht Hc Hfetch Hrows Hcat. unfold main.
  destruct (loop_total to_datetime str_scalar tie_rank env (DATASETS env)
              {| public_files := []; all_datasets := []; errors := [] |} Hw)
    as (st & Hst).
  rewrite Hst. apply loop_run in Hst as (_ & Hp & _ & _).
  cbn [public_files app] in Hp.
  destruct (normalize_without_rows (fst item) df (snd item) Hrows Hcat)
    as (doc & Hdoc & Hcount & Hdata).
  assert (Hatt : attempt to_datetime str_scalar tie_rank env item = Ok (Some doc)).
  { unfold attempt. rewrite Hr, Ht, Hc. unfold fetch_and_normalize.
    rewrite Hfetch. cbn [bind]. exact Hdoc. }
  exists st. eexists. exists doc. split; [reflexivity |].
  split.
  { rewrite Hp. apply in_flat_map. exists item. split; [exact Hin |].
    unfold emitted_by. rewrite Hatt. left; reflexivity. }
  split; [exact Hcount |]. split; [exact Hdata |].
  unfold error_of. rewrite Hatt. reflexivity.
Qed.

End RunErrors.

(** * Small runs *)

Lemma unguarded_lookup_witness :
  main to_datetime_plain (fun _ => "") ties_in_order broken_env = Uncaught (KeyError "config").
Proof.
  apply (unguarded_lookup_aborts_the_run
           to_datetime_plain (fun _ => "") ties_in_order broken_env
           [ ("fred_rates",
              [(PStr "type", PStr "fred");
               (PStr "config", PDict [(PStr "series", PList [PStr "DFF"])])]) ]
           [ ("us_indices",
              [(PStr "type", PStr "yfinance"); (PStr "config", PDict [])]) ]
           ("fed_news", [(PStr "type", PStr "rss")])).
  - reflexivity.
  - repeat constructor; discriminate.
  - intros [_ H]. apply H. reflexivity.
Defined.

Lemma passed_over_witness :
  Forall well_configured (DATASETS public_env)
  /\ main to_datetime_plain (fun _ => "") ties_in_order public_env
     = main to_datetime_plain (fun _ => "") ties_in_order
            (with_datasets public_env
               [ ("fred_rates",
                  [(PStr "type", PStr "fred");
                   (PStr "config",
                      PDict [(PStr "series", PList [PStr "DFF"])])]) ]).
Proof.
  assert (H : Forall well_configured (DATASETS public_env))
    by (repeat constructor; discriminate).
  split; [exact H |].
  exact (passed_over_datasets_leave_no_trace
           to_datetime_plain (fun _ => "") ties_in_order public_env H).
Defined.

Lemma public_build_witness :
  exists st datasets_json status,
    main to_datetime_plain (fun _ => "") ties_in_order public_env
    = Finished st datasets_json status
    /\ map (fun f => field ["type"] (snd f)) (public_files st)
       = [Some (PStr "fred")]
    /\ Forall (fun f => exists t, field ["type"] (snd f) = Some (PStr t)
                                  /\ In t public_types)
              (public_files st).
Proof.
  destruct (main to_datetime_plain (fun _ => "") ties_in_order public_env)
    as [e | st datasets_json status] eqn:E;
    [vm_compute in E; discriminate E |].
  exists st, datasets_json, status. split; [reflexivity |].
  split.
  - vm_compute in E. injection E as <- _ _. reflexivity.
  - exact (proj1 (public_build_emits_no_price_document
                    to_datetime_plain (fun _ => "") ties_in_order public_env
                    st datasets_json status eq_refl E)).
Defined.

Lemma missing_config_key_witness :
  exists st,
    example_run = Finished st (PList (all_datasets st)) 1
    /\ In "us_indices: 'symbols'" (errors st).
Proof.
  apply (missing_config_key_is_recorded
           to_datetime_plain (fun _ => "") ties_in_order example_env
           ("us_indices",
            [(PStr "type", PStr "yfinance"); (PStr "config", PDict [])])
           "yfinance" "symbols" []).
  - repeat constructor; discriminate.
  - right; right; left; reflexivity.
  - reflexivity.
  - reflexivity.
  - reflexivity.
  - reflexivity.
Defined.

Lemma empty_fetch_witness :
  exists st status doc,
    main to_datetime_plain (fun _ => "") ties_in_order empty_fetch_env
    = Finished st (PList (all_datasets st)) status
    /\ In ("bls_cpi.json", doc) (public_files st)
    /\ field ["meta"; "record_count"] doc = Some (PInt 0)
    /\ field ["type"] doc = Some (PStr "bls").
Proof.
  destruct (empty_fetch_is_published
              to_datetime_plain (fun _ => "") ties_in_order empty_fetch_env
              ("bls_cpi",
               [(PStr "type", PStr "bls");
                (PStr "config", PDict [(PStr "series", PList [PStr "CPI"])])])
              (PStr "bls") (PDict [(PStr "series", PList [PStr "CPI"])])
              empty_table)
    as (st & status & doc & Hmain & Hin & Hcount & _ & _).
  - repeat constructor; discriminate.
  - left; reflexivity.
  - reflexivity.
  - reflexivity.
  - reflexivity.
  - reflexivity.
  - reflexivity.
  - reflexivity.
  - exists st, status, doc. split; [exact Hmain |]. split; [exact Hin |].
    split; [exact Hcount |].
    vm_compute in Hmain. injection Hmain as <- _.
    destruct Hin as [Hin | []]. injection Hin as <-. reflexivity.
Defined.

(** * The latest value of a series, rounded *)

(** [round_half_even] gives the nearest integer, and the even one of two
    that are equally near. *)
Lemma round_half_even_nearest (x : Q) :
  (inject_Z (round_half_even x) - (1 # 2) <= x
   <= inject_Z (round_half_even x) + (1 # 2))%Q
  /\ ((x == inject_Z (round_half_even x) - (1 # 2)
       \/ x == inject_Z (round_half_even x) + (1 # 2))%Q ->
      Z.even (round_half_even x) = true).
Proof.
  unfold round_half_even.
  pose proof (Qfloor_le x) as Hlo. pose proof (Qlt_floor x) as Hhi.
  rewrite inject_Z_plus in Hhi. change (inject_Z 1) with 1%Q in Hhi.
  destruct (Qcompare_spec (x - inject_Z (Qfloor x)) (1 # 2)) as [E | L | G].
  - destruct (Z.even (Qfloor x)) eqn:Ev.
    + split; [lra | intros _; exact Ev].
    + rewrite inject_Z_plus. change (inject_Z 1) with 1%Q.
      split; [lra |]. intros _. rewrite Z.even_add, Ev. reflexivity.
  - split; [lra |]. intros [H | H]; lra.
  - rewrite inject_Z_plus. change (inject_Z 1) with 1%Q.
    split; [lra |]. intros [H | H]; lra.
Qed.

(** [round4] rounds to 4 decimal places, as the specification has it. *)
Lemma round4_is_rounded (x : pyfloat) :
  (forall q, x <> FSqrt q) -> rounded_to_4_decimals x (round4 x).
Proof.
  destruct x as [| q | q]; intros H; [exact I | | destruct (H q eq_refl)].
  cbn [round4 rounded_to_4_decimals].
  exists (round_half_even (q * 10000)).
  split; [apply Qred_correct | apply round_half_even_nearest].
Qed.

Lemma py_float_not_sqrt (c : cell) (x : pyfloat) :
  py_float c = Ok x -> forall q, x <> FSqrt q.
Proof.
  destruct c; cbn [py_float]; intros H q0; try discriminate H;
    injection H as <-; discriminate.
Qed.

Section LatestValue.

Variable to_datetime : list cell -> nat -> coerced.
Variable tie_rank : list cell -> nat -> nat.

(** C4, as the code has it: on a macro table whose dates convert, to a
    timestamp or to NaT ([macro_table_with_gaps]: the five columns read
    unguarded, string series ids, numeric or missing values), the
    normalizer returns a document in which, for every series id with at
    least one row, [value_latest] is the value, rounded to 4 decimal
    places, of the row of that series that a sort by date puts last: a row
    that no row of the series comes after, a row without a date coming
    after every dated row.  It is a row of the maximum date when every row
    of the series has a date, and a row without a date when the series has
    one, wherever that row stands in the table. *)
Theorem value_latest_is_value_of_last_row_by_date
  (now : Z) (name : string) (df : DataFrame) (config : pydict)
  (data_type : string) :
  macro_table_with_gaps to_datetime df ->
  exists doc stats,
    prepare_fred_dataset to_datetime tie_rank now name df config data_type
    = Ok doc
    /\ field ["stats"; "by_series"] doc = Some (PDict stats)
    /\ forall s,
         rows_carrying "series_id" s (records df) <> [] ->
         exists entry r o x y,
           dict_lookup (PStr s) stats = Some entry
           /\ In (r, o) (dated to_datetime "date" (records df))
           /\ row_get "series_id" r = CStr s
           /\ (forall r' o',
                 In (r', o') (dated to_datetime "date" (records df)) ->
                 row_get "series_id" r' = CStr s -> date_le o' o)
           /\ py_float (row_get "value" r) = Ok x
           /\ field ["value_latest"] entry = Some (PFloat y)
           /\ rounded_to_4_decimals x y.
Proof.
  intros Hmt.
  destruct (prepare_fred_structure to_datetime tie_rank now name df config
              data_type Hmt)
    as (doc & stats & Hdoc & Hfield & Hstats).
  exists doc, stats. split; [exact Hdoc |]. split; [exact Hfield |].
  intros s Hs.
  destruct (lookup_entry _ _ _ s Hstats) as (entry & Hlook & He).
  { apply isort_In, unique_str_complete, rows_carrying_nonempty, Hs. }
  destruct Hmt as (_ & Hcols & Hcells & Hdates).
  cbn [forallb] in Hcols.
  repeat (apply andb_true_iff in Hcols as [?Hc Hcols]).
  destruct (fred_series_stats_latest
              to_datetime tie_rank
              {| columns := columns (drop_internal df);
                 records := map (working_row "date")
                                (dated to_datetime "date" (records df)) |}
              (records df) s)
    as (entry' & r & o & x & He' & Hin & Hser & Hmax & Hx & Hlatest);
    try assumption; try reflexivity.
  - rewrite has_column_same_columns, has_column_drop_internal;
      [assumption | reflexivity].
  - rewrite has_column_same_columns, has_column_drop_internal;
      [assumption | reflexivity].
  - rewrite forallb_forall in Hcells |- *. intros r Hr.
    specialize (Hcells r Hr). apply andb_true_iff in Hcells as [_ H]. exact H.
  - rewrite He in He'. injection He' as <-.
    exists entry, r, o, x, (round4 x).
    repeat (split; [assumption |]).
    apply round4_is_rounded. exact (py_float_not_sqrt _ _ Hx).
Qed.

End LatestValue.

Lemma value_latest_witness :
  macro_table_with_gaps to_datetime_plain macro_with_gaps
  /\ exists doc,
       prepare_fred_dataset to_datetime_plain ties_in_order 0 "fred_rates"
                            macro_with_gaps [] "fred" = Ok doc
       /\ field ["stats"; "by_series"; "DFF"; "value_latest"] doc
          = Some (PFloat (FRat (27183 # 10000)))
       /\ field ["stats"; "by_series"; "UNRATE"; "value_latest"] doc
          = Some (PFloat (FRat (39 # 10))).
Proof.
  assert (H : macro_table_with_gaps to_datetime_plain macro_with_gaps).
  { repeat split; try reflexivity; try discriminate.
    vm_compute. repeat constructor; discriminate. }
  split; [exact H |].
  destruct (value_latest_is_value_of_last_row_by_date
              to_datetime_plain ties_in_order 0 "fred_rates" macro_with_gaps []
              "fred" H)
    as (doc & stats & Hdoc & _ & _).
  exists doc. split; [exact Hdoc |].
  vm_compute in Hdoc. injection Hdoc as <-. split; reflexivity.
Defined.

(** C4, as stated, fails on a series with a row without a date: in the
    example table the row of the maximum date holds 9 and [value_latest]
    is 7, the value of the row without a date, which the sort by date puts
    last. *)
Lemma value_latest_is_not_at_max_date :
  exists doc,
    prepare_fred_dataset to_datetime_plain ties_in_order 0 "fred_rates"
                         macro_undated [] "fred" = Ok doc
    /\ field ["stats"; "by_series"; "DFF"; "value_latest"] doc
       = Some (PFloat (FRat 7))
    /\ ~ (exists r t x y,
            In (r, Stamp t) (dated to_datetime_plain "date" (records macro_undated))
            /\ (forall r' t',
                  In (r', Stamp t')
                     (dated to_datetime_plain "date" (records macro_undated)) ->
                  t' <= t)
            /\ py_float (row_get "value" r) = Ok x
            /\ field ["stats"; "by_series"; "DFF"; "value_latest"] doc
               = Some (PFloat y)
            /\ rounded_to_4_decimals x y).
Proof.
  eexists. split; [vm_compute; reflexivity |].
  split; [reflexivity |].
  intros (r & t & x & y & Hin & Hmax & Hx & Hy & Hround).
  cbn in Hy. injection Hy as <-.
  assert (Hlast : In (macro_row "DFF" 2 (9 # 1), Stamp (2 * ns_per_day))
                     (dated to_datetime_plain "date" (records macro_undated)))
    by (vm_compute; tauto).
  apply Hmax in Hlast.
  vm_compute in Hin. destruct Hin as [E | [E | [E | []]]];
    try discriminate E; injection E as <- <-.
  - vm_compute in Hlast. apply Hlast. reflexivity.
  - cbn in Hx. injection Hx as <-.
    destruct Hround as (n & En & [Hlo Hhi] & _).
    unfold Qeq, Qle in *. cbn in *. lia.
Qed.
